(** * NochEinWort: article pipeline and recommendation engine

    A shallow embedding of the code of the repository (scrape.py,
    translate.py, recommend.py and the telegram_bot package) and the
    properties of its claim engine, scraper, stage runners, preference
    aggregation, scoring, feedback recording, messages and callback
    handler.

    Conventions.
    - The table [deutsch] is a list of rows in fetch order.  A filtered
      query is [filter], [.limit(1)] is [head]; an update with a [WHERE]
      clause rewrites every matching row and returns the rewritten rows
      (PostgREST's [return=representation], the client's default).  The
      store is taken to be reachable: no store call raises.
    - Python exceptions are the [Raise] branch of [result].
    - The browser, the language-model agents and the Telegram bot are
      parameters of the functions that call them.
    - Instants are microseconds since the epoch ([Z]); calendar dates are
      day numbers ([Z], Python's [date.toordinal]).  The clock is an input
      of every function that reads it, and so are the parsers of Python's
      [datetime] module and [int].
    - A Python [str] is the [string] of its UTF-8 encoding; [strip],
      [split], [replace], [join] and [startswith] are modelled on it.
    - Scores are Python floats that only ever hold sums of integers (exact
      below 2^53); they are modelled by [Z].

    Layout: the model of the sources; the vocabulary of the statements and
    the worked data; the properties. *)

From Stdlib Require Import ZArith String Ascii List Lia DecimalString DecimalZ.
From stdpp Require Import base option list strings gmap sorting.
From Equations Require Import Equations.

Local Open Scope string_scope.
Local Open Scope list_scope.
Local Open Scope Z_scope.

(** ** Exceptions *)

Inductive exn : Type :=
  | ValidationError      (* pydantic.ValidationError *)
  | RuntimeError
  | ValueError
  | IndexError
  | APIError             (* postgrest.exceptions.APIError *)
  | OtherError.          (* anything else a collaborator may raise *)

#[global] Instance exn_eq_dec : EqDecision exn.
Proof. solve_decision. Defined.

Inductive result (A : Type) : Type :=
  | Ok (a : A)
  | Raise (e : exn).
Arguments Ok {A} a.
Arguments Raise {A} e.

Definition bind {A B : Type} (m : result A) (k : A → result B) : result B :=
  match m with
  | Ok a => k a
  | Raise e => Raise e
  end.

Notation "'do' x <- m ; k" := (bind m (λ x, k))
  (at level 10, x name, m at level 100, k at level 200).

(** [except (ValidationError, RuntimeError)] *)
Definition declared (e : exn) : bool :=
  match e with
  | ValidationError | RuntimeError => true
  | _ => false
  end.

(** ** The article table *)

(** Python truthiness of an optional string: [None] and [""] are falsy. *)
Definition truthy (o : option string) : bool :=
  match o with
  | Some s => negb (String.eqb s "")
  | None => false
  end.
Arguments truthy : simpl never.

Record Row : Type := mkRow {
  row_id : Z;
  article_url : string;
  category : option string;
  status : string;
  title_de : option string;
  content_de : option string;
  published_date : option string;
  title_en : option string;
  content_en : option string;
  summary_en : option string;
  topic : option string;
  sentiment : option string;
  urgency : option string;
  feedback : option string;
  feedback_at : option string;
  active : bool;
  recommended_at : option string;
}.

#[global] Instance Row_eq_dec : EqDecision Row.
Proof. solve_decision. Defined.

Abbreviation Store := (list Row).

(** Column assignments of the [update({...})] payloads in the sources. *)
Definition set_status (v : string) (r : Row) : Row :=
  mkRow (row_id r) (article_url r) (category r) v
        (title_de r) (content_de r) (published_date r)
        (title_en r) (content_en r) (summary_en r)
        (topic r) (sentiment r) (urgency r)
        (feedback r) (feedback_at r) (active r) (recommended_at r).

Definition set_url_category (u c : string) (r : Row) : Row :=
  mkRow (row_id r) u (Some c) (status r)
        (title_de r) (content_de r) (published_date r)
        (title_en r) (content_en r) (summary_en r)
        (topic r) (sentiment r) (urgency r)
        (feedback r) (feedback_at r) (active r) (recommended_at r).

Definition set_scraped (t c : string) (d : option string) (r : Row) : Row :=
  mkRow (row_id r) (article_url r) (category r) "scrapped"
        (Some t) (Some c) d
        (title_en r) (content_en r) (summary_en r)
        (topic r) (sentiment r) (urgency r)
        (feedback r) (feedback_at r) (active r) (recommended_at r).

Definition set_translated (te ce se tp sn ur : string) (r : Row) : Row :=
  mkRow (row_id r) (article_url r) (category r) "translated"
        (title_de r) (content_de r) (published_date r)
        (Some te) (Some ce) (Some se)
        (Some tp) (Some sn) (Some ur)
        (feedback r) (feedback_at r) (active r) (recommended_at r).

Definition set_feedback_up (ts : string) (r : Row) : Row :=
  mkRow (row_id r) (article_url r) (category r) (status r)
        (title_de r) (content_de r) (published_date r)
        (title_en r) (content_en r) (summary_en r)
        (topic r) (sentiment r) (urgency r)
        (Some "up") (Some ts) (active r) (recommended_at r).

Definition set_feedback_down (ts : string) (r : Row) : Row :=
  mkRow (row_id r) (article_url r) (category r) (status r)
        (title_de r) (content_de r) (published_date r)
        (title_en r) (content_en r) (summary_en r)
        (topic r) (sentiment r) (urgency r)
        (Some "down") (Some ts) false (recommended_at r).

Definition set_recommended_at (ts : string) (r : Row) : Row :=
  mkRow (row_id r) (article_url r) (category r) (status r)
        (title_de r) (content_de r) (published_date r)
        (title_en r) (content_en r) (summary_en r)
        (topic r) (sentiment r) (urgency r)
        (feedback r) (feedback_at r) (active r) (Some ts).

(** *** Store primitives *)

(** [.update(payload).<filters>.execute()]: the new table and
    [response.data], the rows that were rewritten. *)
Definition update (payload : Row → Row) (filt : Row → bool) (db : Store)
  : Store * list Row :=
  (map (λ r, if filt r then payload r else r) db,
   map payload (filter (λ r, filt r = true) db)).

(** [.eq("id", i)] *)
Definition eq_id (i : Z) (r : Row) : bool := Z.eqb (row_id r) i.
(** [.eq("status", s)] *)
Definition eq_status (s : string) (r : Row) : bool := String.eqb (status r) s.
(** [.eq("article_url", u)], the conflict target of the upsert. *)
Definition eq_url (u : string) (r : Row) : bool := String.eqb (article_url r) u.

(** [.select("*").eq("status", s)] *)
Definition select_status (s : string) (db : Store) : list Row :=
  filter (λ r, eq_status s r = true) db.

(** Modelled from the spec: the table's schema is not part of the
    sources.  [id] is "unique, store-assigned": the next identifier is
    above every identifier in use. *)
Definition fresh_id (db : Store) : Z :=
  1 + foldr Z.max 0 (map row_id db).

(** Modelled from the spec: the column defaults of a newly inserted row
    ([status] starts at "new", [active] is "default true", every other
    column is unset). *)
Definition new_row (i : Z) (u c : string) : Row :=
  mkRow i u (Some c) "new" None None None None None None None None None
        None None true None.

(** [.upsert({article_url, category}, on_conflict="article_url")].  The
    client sends [resolution=merge-duplicates], that is
    [INSERT .. ON CONFLICT (article_url) DO UPDATE SET] every column of
    the payload; the affected row comes back either way. *)
Definition upsert (u c : string) (db : Store) : Store * list Row :=
  match filter (λ r, eq_url u r = true) db with
  | [] => let r := new_row (fresh_id db) u c in (db ++ [r], [r])
  | _ :: _ => update (set_url_category u c) (eq_url u) db
  end.

(** ** scrape.py *)

(** *** [process_one_article_status]

    The function issues two store calls.  Whatever other workers do to
    the table between the two is the argument [others]; a caller that
    runs alone passes the identity. *)
Definition process_one_article_status (others : Store → Store)
    (from_status to_status : string) (db : Store) : option Row * Store :=
  match head (select_status from_status db) with
  | None => (None, db)
  | Some article =>
      let db1 := others db in
      let '(db2, lock) :=
        update (set_status to_status)
               (λ r, eq_id (row_id article) r && eq_status from_status r) db1 in
      match lock with
      | [] => (None, db2)
      | _ :: _ => (Some article, db2)
      end
  end.

(** *** [add_new_article]

    The browser is an input: the category drawn by [random.choice] and
    the [href] attribute of each link found on the category page. *)
Definition base_url : string := "https://www.tagesschau.de".

Fixpoint try_links (selected_category : string) (hrefs : list (option string))
    (seen : gset string) (db : Store) : result (option Row) * Store :=
  match hrefs with
  | [] => (Ok None, db)
  | o :: rest =>
      match o with
      | None => try_links selected_category rest seen db
      | Some href =>
          if String.eqb href "" then try_links selected_category rest seen db
          else if decide (href ∈ seen) then try_links selected_category rest seen db
          else
            let '(db', data) := upsert (base_url +:+ href) selected_category db in
            match data with
            | [] => (Raise IndexError, db')
            | row :: _ =>
                if String.eqb (status row) "new" then (Ok (Some row), db')
                else try_links selected_category rest ({[href]} ∪ seen) db'
            end
      end
  end.

Definition add_new_article (selected_category : string)
    (hrefs : list (option string)) (db : Store) : result (option Row) * Store :=
  match hrefs with
  | [] => (Raise RuntimeError, db)
  | _ => try_links selected_category hrefs ∅ db
  end.

(** ** Time *)

(** Python's [datetime] module is a library the sources call; its ISO 8601
    parsers and printer are the methods of [Calendar].  [None] stands for
    the [ValueError] of a string that does not parse. *)
Record datetime : Type := mkDatetime {
  wall : Z;               (* the clock fields, microseconds since the epoch *)
  tzinfo : option Z;      (* the UTC offset in microseconds, [None]: naive *)
}.

Class Calendar : Type := {
  (** [datetime.fromisoformat] *)
  datetime_fromisoformat : string → option datetime;
  (** [date.fromisoformat], to the day number of the date *)
  date_fromisoformat : string → option Z;
  (** [isoformat()] of the aware UTC datetime of an instant *)
  isoformat : Z → string;
}.

(** [ts.replace(tzinfo=timezone.utc)] *)
Definition replace_tzinfo_utc (ts : datetime) : datetime :=
  mkDatetime (wall ts) (Some 0).

(** The instant of an aware datetime; comparison and subtraction of aware
    datetimes go through it. *)
Definition instant (ts : datetime) : Z :=
  match tzinfo ts with
  | Some off => wall ts - off
  | None => wall ts
  end.

Definition microseconds_per_day : Z := 86400000000.

(** [timedelta.days] of a difference of instants: the floor. *)
Definition timedelta_days (delta : Z) : Z := delta / microseconds_per_day.

(** One reading of the clock: [datetime.now(timezone.utc)] and
    [date.today()]. *)
Record Clock : Type := mkClock {
  now : Z;
  today : Z;
}.

(** ** recommend.py *)

Record TopicPreference : Type := mkPref {
  count : Z;
  latest : Z;      (* the instant of an aware datetime *)
}.

#[global] Instance TopicPreference_eq_dec : EqDecision TopicPreference.
Proof. solve_decision. Defined.

(** The columns [get_unseen_articles] selects. *)
Record Article : Type := mkArticle {
  a_id : Z;
  a_title_en : option string;
  a_article_url : string;
  a_topic : option string;
  a_published_date : option string;
}.

#[global] Instance Article_eq_dec : EqDecision Article.
Proof. solve_decision. Defined.

Definition article_of (r : Row) : Article :=
  mkArticle (row_id r) (title_en r) (article_url r) (topic r) (published_date r).

Section recommend.
Context `{Calendar}.

(** *** [get_topic_preferences] *)

(** [.eq("feedback", "up").eq("active", True)] *)
Definition liked (r : Row) : bool :=
  match feedback r with
  | Some f => String.eqb f "up" && active r
  | None => false
  end.

(** The body of the [for row in rows] loop. *)
Definition add_like (prefs : gmap string TopicPreference) (row : Row)
  : result (gmap string TopicPreference) :=
  if negb (truthy (topic row)) || negb (truthy (feedback_at row))
  then Ok prefs                                              (* continue *)
  else
    match topic row, feedback_at row with
    | Some topic, Some feedback_at =>
        match datetime_fromisoformat feedback_at with
        | None => Raise ValueError
        | Some ts =>
            let ts := match tzinfo ts with
                      | None => replace_tzinfo_utc ts
                      | Some _ => ts
                      end in
            let pref := match prefs !! topic with
                        | None => mkPref 0 (instant ts)
                        | Some pref => pref
                        end in
            let pref := mkPref (count pref + 1) (latest pref) in
            let pref := if (count pref =? 1) || (latest pref <? instant ts)
                        then mkPref (count pref) (instant ts)
                        else pref in
            Ok (<[topic := pref]> prefs)
        end
    | _, _ => Ok prefs                        (* a truthy column is set *)
    end.

Fixpoint add_likes (rows : list Row) (prefs : gmap string TopicPreference)
  : result (gmap string TopicPreference) :=
  match rows with
  | [] => Ok prefs
  | row :: rows => do prefs <- add_like prefs row; add_likes rows prefs
  end.

Definition get_topic_preferences (db : Store)
  : result (gmap string TopicPreference) :=
  add_likes (filter (λ r, liked r = true) db) ∅.

(** *** [get_unseen_articles] *)

(** [.eq("active", True).is_("feedback", None).is_("recommended_at", None)] *)
Definition unseen (r : Row) : bool :=
  active r && bool_decide (feedback r = None)
           && bool_decide (recommended_at r = None).

Definition get_unseen_articles (db : Store) : list Article :=
  map article_of (filter (λ r, unseen r = true) db).

(** *** [score_article] *)

Definition score_article (clk : Clock) (article : Article)
    (topic_prefs : gmap string TopicPreference) : result Z :=
  let score := 0 in
  let score :=
    match a_topic article with
    | Some topic =>
        if truthy (Some topic) then
          match topic_prefs !! topic with
          | Some pref =>
              let score := score + count pref * 3 in
              let days_since_like := timedelta_days (now clk - latest pref) in
              score + Z.max 0 (5 - days_since_like)
          | None => score
          end
        else score
    | None => score
    end in
  match a_published_date article with
  | Some published_date =>
      if truthy (Some published_date) then
        match date_fromisoformat (substring 0 10 published_date) with
        | None => Raise ValueError
        | Some created_date =>
            let days_old := today clk - created_date in
            Ok (score + Z.max 0 (3 - days_old))
        end
      else Ok score
  | None => Ok score
  end.

(** *** [mark_as_recommended] *)

Definition mark_as_recommended (clk : Clock) (articles : list Article)
    (db : Store) : Store :=
  foldl (λ db article,
           (update (set_recommended_at (isoformat (now clk)))
                   (eq_id (a_id article)) db).1)
        db articles.

(** *** [get_recommendations] *)

(** [scored.sort(key=lambda x: x[0], reverse=True)]: Python's sort is
    stable, also under [reverse=True].  An element read earlier goes in
    front of the sorted elements whose score is not larger. *)
Fixpoint insert_desc (x : Z * Article) (l : list (Z * Article))
  : list (Z * Article) :=
  match l with
  | [] => [x]
  | y :: l' => if x.1 <? y.1 then y :: insert_desc x l' else x :: l
  end.

Definition sort_desc (l : list (Z * Article)) : list (Z * Article) :=
  foldr insert_desc [] l.

(** [l[:limit]], with Python's reading of a negative bound. *)
Definition slice_to {A : Type} (limit : Z) (l : list A) : list A :=
  if 0 <=? limit then take (Z.to_nat limit) l
  else take (length l - Z.to_nat (- limit))%nat l.

(** The list comprehension that scores the candidates; the [n]-th call of
    [score_article] reads the clock at [clock n]. *)
Fixpoint score_all (clock : nat → Clock) (n : nat) (candidates : list Article)
    (topic_prefs : gmap string TopicPreference) : result (list (Z * Article)) :=
  match candidates with
  | [] => Ok []
  | article :: rest =>
      do s <- score_article (clock n) article topic_prefs;
      do scored <- score_all clock (S n) rest topic_prefs;
      Ok ((s, article) :: scored)
  end.

Definition get_recommendations (clock : nat → Clock) (limit : Z) (db : Store)
  : result (list Article) * Store :=
  match get_topic_preferences db with
  | Raise e => (Raise e, db)
  | Ok topic_prefs =>
      if bool_decide (topic_prefs = ∅) then (Ok [], db)
      else
        let candidates := get_unseen_articles db in
        match candidates with
        | [] => (Ok [], db)
        | _ :: _ =>
            match score_all clock 0 candidates topic_prefs with
            | Raise e => (Raise e, db)
            | Ok scored =>
                let scored := sort_desc scored in
                let recommendations := map snd (slice_to limit scored) in
                (Ok recommendations,
                 mark_as_recommended (clock (length candidates))
                                     recommendations db)
            end
        end
  end.

End recommend.

(** *** A calendar for the canonical ISO 8601 forms

    The forms the sources write themselves: [YYYY-MM-DD] for a date, and
    [YYYY-MM-DDTHH:MM:SS[.ffffff][+HH:MM]] for a datetime.  It is the
    calendar of the worked examples; the theorems hold for any. *)
Module Iso.

Definition digit (c : ascii) : option Z :=
  let n := Z.of_N (N_of_ascii c) in
  if (48 <=? n) && (n <=? 57) then Some (n - 48) else None.

(** A run of decimal digits, most significant first. *)
Fixpoint number (cs : list ascii) (acc : Z) : option Z :=
  match cs with
  | [] => Some acc
  | c :: cs => d ← digit c; number cs (10 * acc + d)
  end.

Definition is_leap (y : Z) : bool :=
  ((y mod 4 =? 0) && negb (y mod 100 =? 0)) || (y mod 400 =? 0).

Definition days_in_month (y m : Z) : Z :=
  if m =? 2 then (if is_leap y then 29 else 28)
  else if (m =? 4) || (m =? 6) || (m =? 9) || (m =? 11) then 30
  else 31.

(** Days from 1970-01-01 to the civil date. *)
Definition days_from_civil (y m d : Z) : Z :=
  let y := if m <=? 2 then y - 1 else y in
  let era := y / 400 in
  let yoe := y - era * 400 in
  let doy := (153 * (if 2 <? m then m - 3 else m + 9) + 2) / 5 + d - 1 in
  let doe := yoe * 365 + yoe / 4 - yoe / 100 + doy in
  era * 146097 + doe - 719468.

Definition civil_from_days (z : Z) : Z * Z * Z :=
  let z := z + 719468 in
  let era := z / 146097 in
  let doe := z - era * 146097 in
  let yoe := (doe - doe / 1460 + doe / 36524 - doe / 146096) / 365 in
  let doy := doe - (365 * yoe + yoe / 4 - yoe / 100) in
  let mp := (5 * doy + 2) / 153 in
  let d := doy - (153 * mp + 2) / 5 + 1 in
  let m := if mp <? 10 then mp + 3 else mp - 9 in
  ((if m <=? 2 then yoe + era * 400 + 1 else yoe + era * 400), m, d).

(** [date.toordinal] of 1970-01-01. *)
Definition epoch_ordinal : Z := 719163.

Definition civil (y m d : Z) : option Z :=
  if (1 <=? y) && (y <=? 9999) && (1 <=? m) && (m <=? 12)
     && (1 <=? d) && (d <=? days_in_month y m)
  then Some (days_from_civil y m d) else None.

(** [YYYY-MM-DD], to days since the epoch. *)
Definition parse_date (cs : list ascii) : option Z :=
  match cs with
  | [y1; y2; y3; y4; "-"; m1; m2; "-"; d1; d2]%char =>
      y ← number [y1; y2; y3; y4] 0;
      m ← number [m1; m2] 0;
      d ← number [d1; d2] 0;
      civil y m d
  | _ => None
  end.

(** [HH:MM:SS], to seconds. *)
Definition parse_clock (cs : list ascii) : option Z :=
  match cs with
  | [h1; h2; ":"; m1; m2; ":"; s1; s2]%char =>
      h ← number [h1; h2] 0;
      m ← number [m1; m2] 0;
      s ← number [s1; s2] 0;
      if (h <? 24) && (m <? 60) && (s <? 60)
      then Some (h * 3600 + m * 60 + s) else None
  | _ => None
  end.

(** [+HH:MM] or [-HH:MM], to microseconds; nothing: naive. *)
Definition parse_offset (cs : list ascii) : option (option Z) :=
  match cs with
  | [] => Some None
  | [sg; h1; h2; ":"; m1; m2]%char =>
      h ← number [h1; h2] 0;
      m ← number [m1; m2] 0;
      if (h <? 24) && (m <? 60) then
        let off := (h * 3600 + m * 60) * 1000000 in
        if Ascii.eqb sg "+" then Some (Some off)
        else if Ascii.eqb sg "-" then Some (Some (- off))
        else None
      else None
  | _ => None
  end.

Definition parse_datetime (s : string) : option datetime :=
  let cs := list_ascii_of_string s in
  days ← parse_date (take 10 cs);
  match drop 10 cs with
  | "T"%char :: rest =>
      secs ← parse_clock (take 8 rest);
      let rest := drop 8 rest in
      '(micros, rest) ← match rest with
                        | "."%char :: frac =>
                            us ← number (take 6 frac) 0;
                            if (length (take 6 frac) =? 6)%nat
                            then Some (us, drop 6 frac) else None
                        | _ => Some (0, rest)
                        end;
      off ← parse_offset rest;
      Some (mkDatetime ((days * 86400 + secs) * 1000000 + micros) off)
  | _ => None
  end.

Definition digits (width : nat) (n : Z) : string :=
  string_of_list_ascii
    (rev (map (λ k, ascii_of_N (Z.to_N (48 + (n / 10 ^ Z.of_nat k) mod 10)))
              (seq 0 width))).

Definition print_datetime (t : Z) : string :=
  let days := t / microseconds_per_day in
  let rem := t mod microseconds_per_day in
  let '(y, m, d) := civil_from_days days in
  let secs := rem / 1000000 in
  let micros := rem mod 1000000 in
  digits 4 y +:+ "-" +:+ digits 2 m +:+ "-" +:+ digits 2 d +:+ "T" +:+
  digits 2 (secs / 3600) +:+ ":" +:+ digits 2 (secs / 60 mod 60) +:+ ":" +:+
  digits 2 (secs mod 60) +:+
  (if micros =? 0 then "" else "." +:+ digits 6 micros) +:+ "+00:00".

#[global] Instance calendar : Calendar := {|
  datetime_fromisoformat := parse_datetime;
  date_fromisoformat s :=
    (λ days, days + epoch_ordinal) <$> parse_date (list_ascii_of_string s);
  isoformat := print_datetime;
|}.

(** Day number and instant of a civil date, for the examples. *)
Definition ordinal (y m d : Z) : Z := days_from_civil y m d + epoch_ordinal.
Definition midnight (y m d : Z) : Z := days_from_civil y m d * microseconds_per_day.

End Iso.

(** ** telegram_bot/feedback.py *)

Section feedback.
Context `{Calendar}.

Definition handle_thumbs_up (clk : Clock) (article_id : Z) (db : Store) : Store :=
  (update (set_feedback_up (isoformat (now clk))) (eq_id article_id) db).1.

Definition handle_thumbs_down (clk : Clock) (article_id : Z) (db : Store) : Store :=
  (update (set_feedback_down (isoformat (now clk))) (eq_id article_id) db).1.

End feedback.

(** [.select("id", count="exact").eq("active", True)] *)
Definition has_enough_articles (min_count : Z) (db : Store) : bool :=
  min_count <=? Z.of_nat (length (filter (λ r, active r = true) db)).

(** ** The stage runners *)

Record Translation : Type := mkTranslation {
  t_title_en : string;
  t_content_en : string;
  t_summary_en : string;
}.

Record Classification : Type := mkClassification {
  c_topic : string;
  c_sentiment : string;
  c_urgency : string;
}.

(** How one pass through the body of a [while True] loop ends. *)
Inductive control : Type :=
  | Break
  | Continue
  | Propagate (e : exn).

(** The number of rows a claim for [from_status] can still select. *)
Definition pending (from_status : string) (db : Store) : nat :=
  length (select_status from_status db).

(** Function-level [inspect]: a value together with the equation that
    names it, for the termination proofs of the two loops. *)
Definition inspect {A : Type} (a : A) : {b : A | a = b} := exist _ a eq_refl.

(** [supabase.table("deutsch").update({"status": "failed"}).eq("id", i)] *)
Definition mark_failed (i : Z) (db : Store) : Store :=
  (update (set_status "failed") (eq_id i) db).1.

(** Each pass that continues has taken one row out of the rows a claim
    can select; this is what makes the loops terminate when the runner is
    the only writer. *)
Lemma pending_map_le (s : string) (f : Row → Row) (db : Store) :
  (∀ r, eq_status s (f r) = true → eq_status s r = true) →
  (pending s (map f db) ≤ pending s db)%nat.
Proof.
  intros Hf. unfold pending, select_status.
  induction db as [|r db IH]; simpl; [lia|].
  rewrite !filter_cons. specialize (Hf r).
  repeat case_decide; simpl; try lia. tauto.
Qed.

Lemma pending_map_lt (s : string) (f : Row → Row) (db : Store) (a : Row) :
  (∀ r, eq_status s (f r) = true → eq_status s r = true) →
  a ∈ db → eq_status s a = true → eq_status s (f a) = false →
  (pending s (map f db) < pending s db)%nat.
Proof.
  intros Hf Ha Hs Hfa.
  induction Ha as [x l|x y l Hx IH].
  - pose proof (pending_map_le s f l Hf) as Hle.
    unfold pending, select_status in *. simpl. rewrite !filter_cons.
    repeat case_decide; simpl; try lia; congruence.
  - specialize (IH Hs Hfa). specialize (Hf y).
    unfold pending, select_status in *. simpl. rewrite !filter_cons.
    repeat case_decide; simpl; try lia. tauto.
Qed.

Lemma claim_alone_progress (from_status to_status : string) (db db1 : Store)
    (article : Row) :
  from_status ≠ to_status →
  process_one_article_status id from_status to_status db = (Some article, db1) →
  (pending from_status db1 < pending from_status db)%nat.
Proof.
  intros Hne. unfold process_one_article_status.
  destruct (head (select_status from_status db)) as [a|] eqn:Hhead; [|done].
  unfold update. simpl.
  destruct (map _ _) as [|locked rest] eqn:Hlock; [done|]. intros [= <- <-].
  apply head_Some_elem_of in Hhead.
  apply list_elem_of_filter in Hhead as [Hst Hin].
  apply (pending_map_lt _ _ _ a); auto.
  - intros r. destruct (eq_id (row_id a) r && eq_status from_status r) eqn:E; [|done].
    apply andb_true_iff in E. tauto.
  - unfold eq_id. rewrite Z.eqb_refl, Hst. simpl.
    unfold eq_status. simpl. apply String.eqb_neq. congruence.
Qed.

Lemma finalize_progress (s : string) (f : Row → Row) (i : Z) (db : Store) :
  (∀ r, eq_status s (f r) = false) →
  (pending s (update f (eq_id i) db).1 ≤ pending s db)%nat.
Proof.
  intros Hf. unfold update. simpl. apply pending_map_le.
  intros r. destruct (eq_id i r); [|done]. by rewrite Hf.
Qed.

(** *** scrape.py: [scrape_all_new_articles] *)

Section scrape_runner.

(** The collaborator: the browser behind [scrape_article]. *)
Variable scrape_article : string → result (string * string * option string).

(** One pass through the loop body. *)
Definition scrape_iteration (others : Store → Store) (db : Store)
  : control * Store :=
  match process_one_article_status others "new" "scraping" db with
  | (None, db) => (Break, db)
  | (Some article, db) =>
      match scrape_article (article_url article) with
      | Ok (title, content, published_date) =>
          (Continue,
           (update (set_scraped title content published_date)
                   (eq_id (row_id article)) db).1)
      | Raise e =>
          if declared e then (Continue, mark_failed (row_id article) db)
          else (Propagate e, db)
      end
  end.

Lemma scrape_iteration_progress (db db' : Store) :
  scrape_iteration id db = (Continue, db') →
  (pending "new" db' < pending "new" db)%nat.
Proof.
  unfold scrape_iteration.
  destruct (process_one_article_status id "new" "scraping" db)
    as [[article|] db1] eqn:Hclaim; [|done].
  apply claim_alone_progress in Hclaim; [|done].
  destruct (scrape_article _) as [[[title content] published_date]|e].
  - intros [= <-].
    eapply Nat.le_lt_trans; [apply finalize_progress|exact Hclaim]. done.
  - destruct (declared e); [|done]. intros [= <-].
    eapply Nat.le_lt_trans; [apply finalize_progress|exact Hclaim]. done.
Qed.

Equations? scrape_all_new_articles (db : Store) : result unit * Store
  by wf (pending "new" db) lt :=
  scrape_all_new_articles db with inspect (scrape_iteration id db) := {
    | exist _ (Break, db') _ => (Ok (), db')
    | exist _ (Continue, db') Hiter => scrape_all_new_articles db'
    | exist _ (Propagate e, db') _ => (Raise e, db') }.
Proof. by apply scrape_iteration_progress. Defined.

End scrape_runner.

(** *** translate.py: [process_steps] *)

Section translate_runner.

(** The collaborators: the two language-model agents and the Telegram
    bot. *)
Variable translate_and_summarize :
  option string → option string → result Translation.
Variable classify_article : string → string → result Classification.
Variable bot_send_message : Row → bool → result unit.

Definition translate_step (article : Row) : result Translation :=
  translate_and_summarize (title_de article) (content_de article).

Definition classify_step (translation : Translation) : result Classification :=
  classify_article (t_title_en translation) (t_content_en translation).

Definition save_translation_and_classification (article_id : Z)
    (translation : Translation) (classification : Classification)
    (db : Store) : Store :=
  (update (set_translated (t_title_en translation) (t_content_en translation)
                          (t_summary_en translation) (c_topic classification)
                          (c_sentiment classification) (c_urgency classification))
          (eq_id article_id) db).1.

(** sender.py: the keyboard gets its third button when eight active
    articles are left. *)
Definition send_article_notification (article : Row) (db : Store) : result unit :=
  bot_send_message article (has_enough_articles 8 db).

(** The [try] block. *)
Definition translate_attempt (article : Row) (db : Store) : result unit * Store :=
  match translate_step article with
  | Raise e => (Raise e, db)
  | Ok translation =>
      match classify_step translation with
      | Raise e => (Raise e, db)
      | Ok classification =>
          let db := save_translation_and_classification
                      (row_id article) translation classification db in
          (* .eq("id", article["id"]).single() *)
          match filter (λ r, eq_id (row_id article) r = true) db with
          | [row] => (send_article_notification row db, db)
          | _ => (Raise APIError, db)
          end
      end
  end.

Definition translate_iteration (others : Store → Store) (db : Store)
  : control * Store :=
  match process_one_article_status others "scrapped" "translating" db with
  | (None, db) => (Break, db)
  | (Some article, db) =>
      match translate_attempt article db with
      | (Ok _, db) => (Continue, db)
      | (Raise e, db) =>
          if declared e then (Continue, mark_failed (row_id article) db)
          else (Propagate e, db)
      end
  end.

Lemma translate_iteration_progress (db db' : Store) :
  translate_iteration id db = (Continue, db') →
  (pending "scrapped" db' < pending "scrapped" db)%nat.
Proof.
  unfold translate_iteration.
  destruct (process_one_article_status id "scrapped" "translating" db)
    as [[article|] db1] eqn:Hclaim; [|done].
  apply claim_alone_progress in Hclaim; [|done].
  assert (Hsave : ∀ t c,
    (pending "scrapped" (save_translation_and_classification (row_id article) t c db1)
     < pending "scrapped" db)%nat).
  { intros t c. eapply Nat.le_lt_trans; [apply finalize_progress|exact Hclaim]. done. }
  assert (Hfail : ∀ d, (pending "scrapped" d < pending "scrapped" db)%nat →
    (pending "scrapped" (mark_failed (row_id article) d) < pending "scrapped" db)%nat).
  { intros d Hd. eapply Nat.le_lt_trans; [apply finalize_progress|exact Hd]. done. }
  unfold translate_attempt.
  destruct (translate_step article) as [t|e].
  - destruct (classify_step t) as [c|e].
    + destruct (filter _ _) as [|row [|? ?]]; simpl; [done| |done].
      destruct (send_article_notification _ _) as [[]|e].
      * intros [= <-]. auto.
      * destruct (declared e); [|done]. intros [= <-]. auto.
    + destruct (declared e); [|done]. intros [= <-]. auto.
  - destruct (declared e); [|done]. intros [= <-]. auto.
Qed.

Equations? process_steps (db : Store) : result unit * Store
  by wf (pending "scrapped" db) lt :=
  process_steps db with inspect (translate_iteration id db) := {
    | exist _ (Break, db') _ => (Ok (), db')
    | exist _ (Continue, db') Hiter => process_steps db'
    | exist _ (Propagate e, db') _ => (Raise e, db') }.
Proof. by apply translate_iteration_progress. Defined.

End translate_runner.

(** ** Workers that claim concurrently

    Each store call of [process_one_article_status] is atomic; between its
    two calls any other worker may run.  A worker is either outside the
    function or between the [select] and the conditional [update], holding
    the row it read. *)
Inductive pc : Type :=
  | Idle
  | Selected (from_status to_status : string) (article : Row).

(** A successful return of the function: who, for which transition, and
    the row that was returned. *)
Record Claim : Type := mkClaim {
  claimant : nat;
  claim_from : string;
  claim_to : string;
  claimed : Row;
}.

Record Config : Type := mkConfig {
  table : Store;
  workers : list pc;
  claims : list Claim;
}.

(** What the scheduler lets happen next.  [Select w f t k]: worker [w]
    enters [process_one_article_status(f, t)] and its query runs; the store
    answers [limit(1)] without an [ORDER BY], so the row it hands out is
    any matching one, the [k]-th.  [Lock w]: the conditional update of
    worker [w] runs and the function returns. *)
Inductive event : Type :=
  | Select (w : nat) (from_status to_status : string) (k : nat)
  | Lock (w : nat).

Definition exec_event (ev : event) (c : Config) : Config :=
  match ev with
  | Select w from_status to_status k =>
      match workers c !! w with
      | Some Idle =>
          match select_status from_status (table c) !! k with
          | Some article =>
              mkConfig (table c)
                       (<[w := Selected from_status to_status article]> (workers c))
                       (claims c)
          | None => c                     (* [return None], or no such row *)
          end
      | _ => c
      end
  | Lock w =>
      match workers c !! w with
      | Some (Selected from_status to_status article) =>
          let '(db, lock) :=
            update (set_status to_status)
                   (λ r, eq_id (row_id article) r && eq_status from_status r)
                   (table c) in
          mkConfig db (<[w := Idle]> (workers c))
                   match lock with
                   | [] => claims c
                   | _ :: _ =>
                       claims c ++ [mkClaim w from_status to_status article]
                   end
      | _ => c
      end
  end.

Definition exec (schedule : list event) (c : Config) : Config :=
  foldl (λ c ev, exec_event ev c) c schedule.

Definition initial (db : Store) (n : nat) : Config :=
  mkConfig db (replicate n Idle) [].

(** The target states of the calls a schedule starts. *)
Definition targets (schedule : list event) : list string :=
  omap (λ ev, match ev with
              | Select _ _ to_status _ => Some to_status
              | Lock _ => None
              end) schedule.

(** ** Every write of the sources, in any order

    A history of the table is a list of the store writes the sources can
    issue, one constructor per [update]/[upsert] call site, and of calls
    of [get_recommendations]. *)
Section history.
Context `{Calendar}.

Inductive op : Type :=
  | Upsert (article_url category : string)              (* add_new_article *)
  | Cas (i : Z) (from_status to_status : string)        (* process_one_article_status *)
  | SaveScrape (i : Z) (title content : string) (published_date : option string)
  | MarkFailed (i : Z)
  | SaveTranslation (i : Z) (t : Translation) (c : Classification)
  | ThumbsUp (clk : Clock) (i : Z)
  | ThumbsDown (clk : Clock) (i : Z)
  | Recommend (clock : nat → Clock) (limit : Z).

Definition run_op (o : op) (db : Store) : Store :=
  match o with
  | Upsert u c => (upsert u c db).1
  | Cas i f t => (update (set_status t) (λ r, eq_id i r && eq_status f r) db).1
  | SaveScrape i t c d => (update (set_scraped t c d) (eq_id i) db).1
  | MarkFailed i => (update (set_status "failed") (eq_id i) db).1
  | SaveTranslation i t c =>
      (update (set_translated (t_title_en t) (t_content_en t) (t_summary_en t)
                              (c_topic c) (c_sentiment c) (c_urgency c))
              (eq_id i) db).1
  | ThumbsUp clk i => handle_thumbs_up clk i db
  | ThumbsDown clk i => handle_thumbs_down clk i db
  | Recommend clock limit => (get_recommendations clock limit db).2
  end.

(** The articles an operation hands to its caller. *)
Definition returned (o : op) (db : Store) : list Article :=
  match o with
  | Recommend clock limit =>
      match (get_recommendations clock limit db).1 with
      | Ok recommendations => recommendations
      | Raise _ => []
      end
  | _ => []
  end.

Definition run (ops : list op) (db : Store) : Store :=
  foldl (λ db o, run_op o db) db ops.

(** The table before the [k]-th operation of a history. *)
Definition before (k : nat) (ops : list op) (db : Store) : Store :=
  run (take k ops) db.

End history.

(** ** Python's text built-ins

    A Python [str] is the [string] of its UTF-8 encoding.  The methods the
    sources call on strings are modelled on the encoded text; the code
    points [str.isspace] accepts are recognised by their encodings. *)
Module Str.

Definition byte (c : ascii) : Z := Z.of_N (N_of_ascii c).

(** The length of the encoding of the whitespace code point at the head
    of [s], 0 when [s] does not start with one.  Whitespace is U+0009 to
    U+000D, U+001C to U+0020, U+0085, U+00A0, U+1680, U+2000 to U+200A,
    U+2028, U+2029, U+202F, U+205F and U+3000. *)
Definition space_width (s : string) : nat :=
  match s with
  | String c0 s1 =>
      let b0 := byte c0 in
      if ((9 <=? b0) && (b0 <=? 13)) || ((28 <=? b0) && (b0 <=? 32)) then 1%nat
      else
        match s1 with
        | String c1 s2 =>
            let b1 := byte c1 in
            if (b0 =? 194) && ((b1 =? 133) || (b1 =? 160)) then 2%nat
            else
              match s2 with
              | String c2 _ =>
                  let b2 := byte c2 in
                  if ((b0 =? 225) && (b1 =? 154) && (b2 =? 128))
                     || ((b0 =? 226) && (b1 =? 128)
                         && (((128 <=? b2) && (b2 <=? 138))
                             || (b2 =? 168) || (b2 =? 169) || (b2 =? 175)))
                     || ((b0 =? 226) && (b1 =? 129) && (b2 =? 159))
                     || ((b0 =? 227) && (b1 =? 128) && (b2 =? 128))
                  then 3%nat else 0%nat
              | EmptyString => 0%nat
              end
        | EmptyString => 0%nat
        end
  | EmptyString => 0%nat
  end.

(** [s.lstrip()]; [skip] counts the bytes still to drop of the whitespace
    code point being removed. *)
Fixpoint lstrip_from (skip : nat) (s : string) : string :=
  match s with
  | EmptyString => EmptyString
  | String c s' =>
      match skip with
      | S k => lstrip_from k s'
      | O =>
          match space_width s with
          | O => s
          | S k => lstrip_from k s'
          end
      end
  end.

Definition lstrip (s : string) : string := lstrip_from 0 s.

(** [s.rstrip()]: the text up to its last code point that is not
    whitespace. *)
Fixpoint rstrip (s : string) : string :=
  match s with
  | EmptyString => EmptyString
  | String c s' =>
      if String.eqb (lstrip s) "" then "" else String c (rstrip s')
  end.

(** [s.strip()] *)
Definition strip (s : string) : string := rstrip (lstrip s).

(** [s.split()]: the runs of code points that are not whitespace;
    [word] is the run read so far. *)
Fixpoint split_from (skip : nat) (word : string) (s : string) : list string :=
  match s with
  | EmptyString => if String.eqb word "" then [] else [word]
  | String c s' =>
      match skip with
      | S k => split_from k word s'
      | O =>
          match space_width s with
          | O => split_from 0 (word +:+ String c "") s'
          | S k =>
              (if String.eqb word "" then [] else [word]) ++ split_from k "" s'
          end
      end
  end.

Definition split (s : string) : list string := split_from 0 "" s.

(** [s.split(sep)] for a separator of one ASCII character. *)
Fixpoint split_on (sep : ascii) (s : string) : list string :=
  match s with
  | EmptyString => [""]
  | String c s' =>
      if Ascii.eqb c sep then "" :: split_on sep s'
      else
        match split_on sep s' with
        | word :: words => String c word :: words
        | [] => [String c ""]
        end
  end.

(** [s.replace(old, new)] for a pattern [old] that is not empty, as at
    every call in the sources: the occurrences of [old] are replaced from
    the left, none overlapping another; [skip] counts the bytes still to
    drop of the occurrence being replaced. *)
Fixpoint replace_from (skip : nat) (old new : string) (s : string) : string :=
  match s with
  | EmptyString => EmptyString
  | String c s' =>
      match skip with
      | S k => replace_from k old new s'
      | O =>
          if String.prefix old s && negb (String.eqb old "")
          then new +:+ replace_from (String.length old - 1) old new s'
          else String c (replace_from 0 old new s')
      end
  end.

Definition replace (old new : string) (s : string) : string :=
  replace_from 0 old new s.

(** [sep.join(l)] *)
Definition join (sep : string) (l : list string) : string := String.concat sep l.

(** [s.startswith(p)] *)
Definition startswith (s p : string) : bool := String.prefix p s.

(** [str(n)] of an [int] *)
Definition of_Z (n : Z) : string := NilZero.string_of_int (Z.to_int n).

(** How an f-string prints a column that may be [None]. *)
Definition of_option (o : option string) : string :=
  match o with
  | Some s => s
  | None => "None"
  end.

(** The line feed and the double quote of the string literals. *)
Definition LF : string := String "010"%char "".
Definition quote : string := String "034"%char "".

End Str.

Arguments Str.space_width : simpl never.

(** Python's [int] on a string is a library function the sources call;
    [None] stands for its [ValueError]. *)
Class Builtins : Type := {
  int : string → option Z;
}.

(** [datetime.strptime(s, format).date()], to the day number of the date
    ([None]: [ValueError]), and [date.isoformat()]. *)
Class Strptime : Type := {
  strptime_date : string → string → option Z;
  date_isoformat : Z → string;
}.

(** *** The canonical decimal and [%d.%m.%Y] forms

    The instances of the worked examples: integers in the form [str]
    writes them, and dates as day, month and four-digit year. *)
Module Canonical.

Definition parse_int (s : string) : option Z :=
  Z.of_int <$> NilZero.int_of_string s.

#[global] Instance builtins : Builtins := {| int := parse_int |}.

Definition parse_dmy (s : string) : option Z :=
  match Str.split_on "." s with
  | [d; m; y] =>
      if ((String.length d =? 1) || (String.length d =? 2))%nat
         && ((String.length m =? 1) || (String.length m =? 2))%nat
         && (String.length y =? 4)%nat
      then
        d ← Iso.number (list_ascii_of_string d) 0;
        m ← Iso.number (list_ascii_of_string m) 0;
        y ← Iso.number (list_ascii_of_string y) 0;
        (λ days, days + Iso.epoch_ordinal) <$> Iso.civil y m d
      else None
  | _ => None
  end.

Definition print_date (ordinal : Z) : string :=
  let '(y, m, d) := Iso.civil_from_days (ordinal - Iso.epoch_ordinal) in
  Iso.digits 4 y +:+ "-" +:+ Iso.digits 2 m +:+ "-" +:+ Iso.digits 2 d.

#[global] Instance strptime : Strptime := {|
  strptime_date s format :=
    if String.eqb format "%d.%m.%Y" then parse_dmy s else None;
  date_isoformat := print_date;
|}.

End Canonical.

(** ** scrape.py: [scrape_article]

    What the browser hands to the function: the inner texts of the
    elements each locator matches, in document order. *)
Record Page : Type := mkPage {
  h1 : list string;            (* page.locator("h1") *)
  article_p : list string;     (* page.locator("article p").all_inner_texts() *)
  stand : list string;         (* page.locator("text=Stand:") *)
}.

Section scrape_article.
Context `{Calendar} `{Strptime}.

(** The collaborator: the browser that loads a URL. *)
Variable goto : string → result Page.

Definition scrape_article (clk : Clock) (url : string)
  : result (string * string * option string) :=
  do page <- goto url;
  match h1 page with
  | [] => Raise RuntimeError
  | first :: _ =>
      let title := Str.strip first in
      let paragraphs := article_p page in
      let content :=
        Str.join (Str.LF +:+ Str.LF)
                 (map Str.strip
                      (filter (λ p, Str.strip p ≠ "") paragraphs)) in
      do published_date <-
        match stand page with
        | first :: _ =>
            let raw :=
              Str.strip (Str.replace "Uhr" "" (Str.replace "Stand:" "" first)) in
            match Str.split raw with
            | [] => Raise IndexError
            | word :: _ =>
                match strptime_date word "%d.%m.%Y" with
                | None => Raise ValueError
                | Some day => Ok (date_isoformat day)
                end
            end
        | [] => Ok (isoformat (now clk))
        end;
      Ok (title, content, Some published_date)
  end.

End scrape_article.

(** ** telegram_bot/sender.py *)

Record InlineKeyboardButton : Type := mkButton {
  text : string;
  callback_data : string;
}.

(** The arguments of one [bot.send_message] call. *)
Record Message : Type := mkMessage {
  chat_id : Z;
  message_text : string;
  reply_markup : option (list (list InlineKeyboardButton));
  parse_mode : option string;
  disable_web_page_preview : option bool;
}.

(** The first three bytes are U+201A, the next three U+2260, the last two
    U+00EA; then U+F8FF, U+00FC, U+00EE and U+00F3: the text before the
    first tag in the two literals of sender.py. *)
Definition recommended_sign : string :=
  string_of_list_ascii
    (map ascii_of_nat [226; 128; 154; 226; 137; 160; 195; 170]%nat).

Definition link_sign : string :=
  string_of_list_ascii
    (map ascii_of_nat [239; 163; 191; 195; 188; 195; 174; 195; 179]%nat).

Definition format_article_message (article : Row) : string :=
  Str.strip
    (Str.LF +:+
     "<b>" +:+ Str.of_option (title_en article) +:+ "</b>" +:+ Str.LF +:+
     Str.LF +:+
     "<b>Category:</b> " +:+ Str.of_option (category article) +:+ Str.LF +:+
     "<b>Topic:</b> " +:+ Str.of_option (topic article) +:+ Str.LF +:+
     "<b>Sentiment:</b> " +:+ Str.of_option (sentiment article) +:+ Str.LF +:+
     "<b>Urgency:</b> " +:+ Str.of_option (urgency article) +:+ Str.LF +:+
     Str.LF +:+
     "<b>Overview:</b>" +:+ Str.LF +:+
     Str.of_option (summary_en article) +:+ Str.LF +:+
     Str.LF +:+
     link_sign +:+ " <a href=" +:+ Str.quote +:+ article_url article +:+
     Str.quote +:+ ">Read full article here</a>" +:+ Str.LF).

Definition format_recommendation_message (article : Article) : string :=
  "<b>[" +:+ Str.of_option (a_topic article) +:+ "]</b> " +:+
  "<a href=" +:+ Str.quote +:+ a_article_url article +:+ Str.quote +:+ ">" +:+
  Str.of_option (a_title_en article) +:+
  "</a>".

(** The keyboard of [send_article_notification]; [more] is what
    [has_enough_articles(supabase, min_count=8)] returned. *)
Definition keyboard (article : Row) (more : bool)
  : list (list InlineKeyboardButton) :=
  let keyboard :=
    [[mkButton "Interested!" ("feedback:up:" +:+ Str.of_Z (row_id article));
      mkButton "Not interested" ("feedback:down:" +:+ Str.of_Z (row_id article))]] in
  if more
  then keyboard ++ [[mkButton "More recommendations" "recommend_more"]]
  else keyboard.

(** The message [send_article_notification] hands to the bot. *)
Definition article_notification (chat : Z) (article : Row) (more : bool)
  : Message :=
  mkMessage chat (format_article_message article)
            (Some (keyboard article more)) (Some "HTML") (Some true).

Section sender.
Context `{Calendar}.

(** The collaborator: the Telegram API behind [bot.send_message] and
    [reply_text].  What it accepted is kept in the order it was sent. *)
Variable bot : Message → result unit.

Definition send_message (m : Message) (sent : list Message)
  : result unit * list Message :=
  match bot m with
  | Ok _ => (Ok (), sent ++ [m])
  | Raise e => (Raise e, sent)
  end.

Definition send_recommendations_on_demand (clock : nat → Clock) (chat : Z)
    (db : Store) (sent : list Message) : result unit * Store * list Message :=
  match get_recommendations clock 2 db with
  | (Raise e, db) => (Raise e, db, sent)
  | (Ok recs, db) =>
      match recs with
      | [] =>
          let '(r, sent) :=
            send_message (mkMessage chat "No new recommendations yet."
                                    None None None) sent in
          (r, db, sent)
      | _ :: _ =>
          let lines := map format_recommendation_message recs in
          let message :=
            recommended_sign +:+ " <b>Recommended for you</b>" +:+ Str.LF +:+ Str.LF
            +:+ Str.join Str.LF lines in
          let '(r, sent) :=
            send_message (mkMessage chat message None (Some "HTML") (Some true))
                         sent in
          (r, db, sent)
      end
  end.

End sender.

(** ** telegram_bot/callback.py *)

(** The fields of [update.callback_query] the handler reads: the data of
    the button, the chat of the message the button hangs on when Telegram
    still has it, and the user who pressed it. *)
Record CallbackQuery : Type := mkQuery {
  data : option string;
  message_chat : option Z;
  from_user : Z;
}.

Section callback.
Context `{Calendar} `{Builtins}.

Variable bot : Message → result unit.
(** [await query.answer()] *)
Variable answer : result unit.

(** [query.message.reply_text(text, parse_mode="HTML")]; without a message
    the attribute access fails. *)
Definition reply_text (query : CallbackQuery) (text : string)
    (sent : list Message) : result unit * list Message :=
  match message_chat query with
  | Some chat => send_message bot (mkMessage chat text None (Some "HTML") None) sent
  | None => (Raise OtherError, sent)
  end.

Definition handle_callback (clock : nat → Clock) (query : CallbackQuery)
    (db : Store) (sent : list Message) : result unit * Store * list Message :=
  match answer with
  | Raise e => (Raise e, db, sent)
  | Ok _ =>
      match data query with
      | None => (Raise OtherError, db, sent)
      | Some data =>
          let chat := match message_chat query with
                      | Some chat => chat
                      | None => from_user query
                      end in
          if Str.startswith data "feedback" then
            match Str.split_on ":" data with
            | [_; value; article_id] =>
                match int article_id with
                | None => (Raise ValueError, db, sent)
                | Some article_id =>
                    (* .eq("id", article_id).single() *)
                    match filter (λ r, eq_id article_id r = true) db with
                    | [row] =>
                        let title := title_en row in
                        if String.eqb value "up" then
                          let db := handle_thumbs_up (clock 0%nat) article_id db in
                          let '(r, sent) :=
                            reply_text query
                              ("<b>Saved:</b> " +:+ Str.of_option title) sent in
                          (r, db, sent)
                        else
                          let db := handle_thumbs_down (clock 0%nat) article_id db in
                          let '(r, sent) :=
                            reply_text query
                              ("<b>Not saved:</b> " +:+ Str.of_option title) sent in
                          (r, db, sent)
                    | _ => (Raise APIError, db, sent)
                    end
                end
            | _ => (Raise ValueError, db, sent)
            end
          else if String.eqb data "recommend_more" then
            send_recommendations_on_demand bot clock chat db sent
          else (Raise ValueError, db, sent)
      end
  end.

End callback.

(** * Vocabulary of the statements *)

(** ** Claims under interleaving *)

(** The articles claimed out of [from_status] so far. *)
Definition claimed_ids (from_status : string) (cs : list Claim) : list Z :=
  map (λ cl, row_id (claimed cl)) (filter (λ cl, claim_from cl = from_status) cs).

(** Once claimed out of [from_status] an article is not in that status
    again, no article was claimed twice, and no call in flight would put
    a row back. *)
Definition claim_inv (from_status : string) (c : Config) : Prop :=
  (∀ i r, i ∈ claimed_ids from_status (claims c) → r ∈ table c → row_id r = i →
          status r ≠ from_status)
  ∧ NoDup (claimed_ids from_status (claims c))
  ∧ (∀ w f t a, workers c !! w = Some (Selected f t a) → t ≠ from_status).

(** ** Discovery *)

(** A row with its category blanked: what the upsert may not touch. *)
Definition forget_category (r : Row) : Row :=
  mkRow (row_id r) (article_url r) None (status r)
        (title_de r) (content_de r) (published_date r)
        (title_en r) (content_en r) (summary_en r)
        (topic r) (sentiment r) (urgency r)
        (feedback r) (feedback_at r) (active r) (recommended_at r).

(** ** The preference profile *)

Section profile_vocabulary.
Context `{Calendar}.

(** A row the loop does not skip. *)
Definition counted (r : Row) : bool :=
  truthy (topic r) && truthy (feedback_at r).

(** A row that adds to the profile: liked, active, and not skipped. *)
Definition contributes (r : Row) : bool := liked r && counted r.

(** The instant of a row's feedback timestamp; a naive one is read as UTC. *)
Definition like_instant (r : Row) : option Z :=
  feedback_at r ≫= λ s, instant <$> datetime_fromisoformat s.

(** What the profile says about one topic, given the rows read so far. *)
Definition profile_at (rows : list Row) (o : option TopicPreference) : Prop :=
  match o with
  | None => rows = []
  | Some pref =>
      count pref = Z.of_nat (length rows)
      ∧ rows ≠ []
      ∧ (∃ r, r ∈ rows ∧ like_instant r = Some (latest pref))
      ∧ (∀ r ts, r ∈ rows → like_instant r = Some ts → ts ≤ latest pref)
  end.

Definition profile_of (rows : list Row) (prefs : gmap string TopicPreference) : Prop :=
  ∀ t, profile_at (filter (λ r, counted r = true ∧ topic r = Some t) rows)
                  (prefs !! t).

End profile_vocabulary.

(** ** Ranking *)

(** [x] may stand before [y] in a list sorted by descending score. *)
Definition by_score_desc (x y : Z * Article) : Prop := y.1 ≤ x.1.

(** ** Histories *)

(** [mark_as_recommended] row by row. *)
Definition mark_row (ts : string) (ids : list Z) (r : Row) : Row :=
  if bool_decide (row_id r ∈ ids) then set_recommended_at ts r else r.

(** A property of the rows of one article that no rewrite can undo stays
    true of that article through any operation. *)
Definition all_with (i : Z) (P : Row → Prop) (db : Store) : Prop :=
  i ∈ map row_id db ∧ ∀ r, r ∈ db → row_id r = i → P r.

(** ** The runners, row by row *)

(** One pass over the table in fetch order: [step] settles each row whose
    status is [from_status], and the first error it reports ends the pass
    with the rows behind it untouched. *)
Fixpoint pass (step : Row → Row * option exn) (from_status : string)
    (db : Store) : result unit * Store :=
  match db with
  | [] => (Ok (), [])
  | a :: rest =>
      if String.eqb (status a) from_status then
        match step a with
        | (b, None) =>
            let '(r, rest') := pass step from_status rest in (r, b :: rest')
        | (b, Some e) => (Raise e, b :: rest)
        end
      else
        let '(r, rest') := pass step from_status rest in (r, a :: rest')
  end.

(** What the scrape stage does with an article that is new. *)
Definition scrape_row
    (scrape_article : string → result (string * string * option string))
    (a : Row) : Row * option exn :=
  match scrape_article (article_url a) with
  | Ok (title, content, published_date) =>
      (set_scraped title content published_date a, None)
  | Raise e =>
      if declared e then (set_status "failed" a, None)
      else (set_status "scraping" a, Some e)
  end.

(** What the translate stage does with an article that is scraped;
    [more] says whether eight active articles are in the table. *)
Definition translate_row
    (translate_and_summarize : option string → option string → result Translation)
    (classify_article : string → string → result Classification)
    (bot_send_message : Row → bool → result unit) (more : bool) (a : Row)
  : Row * option exn :=
  let stopped e :=
    if declared e then (set_status "failed" a, None)
    else (set_status "translating" a, Some e) in
  match translate_and_summarize (title_de a) (content_de a) with
  | Raise e => stopped e
  | Ok t =>
      match classify_article (t_title_en t) (t_content_en t) with
      | Raise e => stopped e
      | Ok c =>
          let row := set_translated (t_title_en t) (t_content_en t) (t_summary_en t)
                                    (c_topic c) (c_sentiment c) (c_urgency c) a in
          match bot_send_message row more with
          | Ok _ => (row, None)
          | Raise e =>
              if declared e then (set_status "failed" row, None) else (row, Some e)
          end
      end
  end.

(** ** The text of a page *)

(** The paragraphs that are not blank, stripped and joined by an empty
    line. *)
Definition page_content (paragraphs : list string) : string :=
  Str.join (Str.LF +:+ Str.LF)
           (map Str.strip (filter (λ p, Str.strip p ≠ "") paragraphs)).

(** The words left of the date line once its two markers are taken out. *)
Definition date_words (line : string) : list string :=
  Str.split (Str.strip (Str.replace "Uhr" "" (Str.replace "Stand:" "" line))).

(** ** Where claims come from *)

(** Every row in [from_status], every row a call for [from_status] holds
    and every article claimed out of it is one of [ids]. *)
Definition claim_source (from_status : string) (ids : list Z) (c : Config) : Prop :=
  (∀ r, r ∈ table c → status r = from_status → row_id r ∈ ids)
  ∧ (∀ w t a, workers c !! w = Some (Selected from_status t a) → row_id a ∈ ids)
  ∧ (∀ i, i ∈ claimed_ids from_status (claims c) → i ∈ ids).

(** * Worked data *)

(** A table of one article that waits to be scraped. *)
Definition fresh_article : Row :=
  new_row 1 "https://www.tagesschau.de/inland/bahn-100.html" "Inland".

(** Two workers race for the same row: both read it, one lock wins. *)
Definition race (from_status to_status : string) : list event :=
  [Select 0 from_status to_status 0; Select 1 from_status to_status 0;
   Lock 0; Lock 1].

(** The row of an article that went through the whole pipeline. *)
Definition translated_article : Row :=
  mkRow 1 "https://www.tagesschau.de/inland/bahn-100.html" (Some "Inland")
        "translated"
        (Some "Bahn streicht Zuege") (Some "Die Bahn ...") (Some "2026-03-01")
        (Some "Railway cancels trains") (Some "The railway ...") (Some "Fewer trains.")
        (Some "Economy") (Some "negative") (Some "low")
        None None true None.

(** Noon UTC on 2 March 2026. *)
Definition noon : Clock :=
  mkClock (Iso.midnight 2026 3 2 + 12 * 3600 * 1000000) (Iso.ordinal 2026 3 2).

(** Two candidates published on that day. *)
Definition economy_today : Article :=
  mkArticle 7 (Some "Rates held") "https://www.tagesschau.de/wirtschaft/zins-100.html"
            (Some "Economy") (Some "2026-03-02").

Definition sports_today : Article :=
  mkArticle 8 (Some "Cup final") "https://www.tagesschau.de/inland/pokal-100.html"
            (Some "Sports") (Some "2026-03-02T06:15:00+00:00").

(** Liked twice, the last time a day ago. *)
Definition likes_economy : gmap string TopicPreference :=
  {[ "Economy" := mkPref 2 (now noon - microseconds_per_day) ]}.

(** A row that went through the pipeline, by its feedback columns. *)
Definition liked_row (i : Z) (tp : option string) (fb : option string)
    (ts : option string) (act : bool) : Row :=
  mkRow i "u" None "translated" None None None None None None tp None None
        fb ts act None.

(** Three likes that count, two of them for the same topic and one with
    a naive timestamp; a like for an article hidden later, a like without
    a topic, a dislike, and an article without feedback. *)
Definition feedback_table : Store :=
  [liked_row 1 (Some "Economy") (Some "up") (Some "2026-02-27T08:00:00+00:00") true;
   liked_row 2 (Some "Health") (Some "up") (Some "2026-02-20T10:00:00") true;
   liked_row 3 (Some "Economy") (Some "up") (Some "2026-03-01T12:00:00+01:00") true;
   liked_row 4 (Some "Sports") (Some "up") (Some "2026-03-01T09:00:00+00:00") false;
   liked_row 5 None (Some "up") (Some "2026-03-01T09:00:00+00:00") true;
   liked_row 6 (Some "Politics") (Some "down") (Some "2026-03-01T09:00:00+00:00") false;
   liked_row 7 (Some "Science") None None true].

(** Collaborators that always fail, or always succeed. *)
Definition browser_down (url : string) : result (string * string * option string) :=
  Raise RuntimeError.

Definition browser_up (url : string) : result (string * string * option string) :=
  Ok ("Bahn streicht Zuege", "Die Bahn ...", Some "2026-03-01").

Definition translator_up (title_de content_de : option string) : result Translation :=
  Ok (mkTranslation "Railway cancels trains" "The railway ..." "Fewer trains.").

Definition classifier_invalid (title_en content_en : string) : result Classification :=
  Raise ValidationError.

Definition classifier_up (title_en content_en : string) : result Classification :=
  Ok (mkClassification "Economy" "negative" "low").

Definition bot_up (article : Row) (more : bool) : result unit := Ok ().

Definition bot_down (article : Row) (more : bool) : result unit := Raise RuntimeError.

(** [fresh_article] after the scrape stage. *)
Definition scraped_article : Row :=
  set_scraped "Bahn streicht Zuege" "Die Bahn ..." (Some "2026-03-01") fresh_article.

(** A translated article of topic [tp]. *)
Definition article_row (i : Z) (tp : string) (published : string)
    (fb ts rec : option string) : Row :=
  mkRow i ("https://www.tagesschau.de/" +:+ tp) (Some "Inland") "translated"
        None None (Some published) (Some tp) None None (Some tp) None None
        fb ts true rec.

(** One liked article of topic Economy, three candidates, and one article
    that was recommended before. *)
Definition newsroom : Store :=
  [article_row 1 "Economy" "2026-02-28" (Some "up") (Some "2026-03-01T12:00:00+00:00") None;
   article_row 2 "Sports" "2026-03-02" None None None;
   article_row 3 "Economy" "2026-02-20" None None None;
   article_row 4 "Economy" "2026-03-02" None None None;
   article_row 5 "Health" "2026-03-02" None None (Some "2026-03-01T08:00:00+00:00")].

(** A clock that stands still during a call. *)
Definition at_noon (n : nat) : Clock := noon.

(** A like whose timestamp is no ISO 8601 text. *)
Definition bad_feedback : Store :=
  [liked_row 1 (Some "Economy") (Some "up") (Some "yesterday") true].

(** A liked article and a candidate whose published date is no ISO date. *)
Definition misdated : Store :=
  [article_row 1 "Economy" "2026-02-28" (Some "up")
               (Some "2026-03-01T12:00:00+00:00") None;
   article_row 2 "Sports" "gestern" None None None].

(** An article page with a title, three paragraphs, one of them blank,
    and a date line; and one whose date line holds no date. *)
Definition article_page : Page :=
  mkPage ["  Bahn streicht Zuege "] ["Die Bahn ..."; "   "; " Mehr. "]
         ["Stand: 01.03.2026 12:00 Uhr"].

Definition undated_page : Page :=
  mkPage ["Bahn streicht Zuege"] [] ["Stand: gestern Abend"].

(** A browser that loads the same page for every URL. *)
Definition browser (page : Page) (url : string) : result Page := Ok page.

(** A Telegram API that accepts every message. *)
Definition telegram_up (m : Message) : result unit := Ok ().

(** The query of a button pressed in chat 42 by user 7. *)
Definition pressed (text : string) : CallbackQuery := mkQuery (Some text) (Some 42) 7.

(** * Properties *)

(** ** Store primitives *)

Lemma update_unchanged (payload : Row → Row) (filt : Row → bool) (db : Store) :
  filter (λ r, filt r = true) db = [] →
  update payload filt db = (db, []).
Proof.
  intros Hnone. unfold update. rewrite Hnone. f_equal.
  induction db as [|r db IH]; [done|].
  rewrite filter_cons in Hnone. simpl.
  destruct (decide (filt r = true)) as [Hr|Hr]; [done|].
  apply not_true_is_false in Hr. rewrite Hr. f_equal. by apply IH.
Qed.

Lemma update_ids (payload : Row → Row) (filt : Row → bool) (db : Store) :
  (∀ r, row_id (payload r) = row_id r) →
  map row_id (update payload filt db).1 = map row_id db.
Proof.
  intros Hid. unfold update. simpl. rewrite map_map.
  apply map_ext. intros r. by destruct (filt r).
Qed.

Lemma update_elem (payload : Row → Row) (filt : Row → bool) (db : Store) (r' : Row) :
  r' ∈ (update payload filt db).1 ↔
  ∃ r, r ∈ db ∧ r' = (if filt r then payload r else r).
Proof.
  unfold update. simpl. rewrite list_elem_of_fmap.
  split; intros (r & H1 & H2); exists r; auto.
Qed.

Lemma filter_nil_iff {A : Type} (P : A → Prop) `{∀ x, Decision (P x)} (l : list A) :
  filter P l = [] ↔ ∀ x, x ∈ l → ¬ P x.
Proof.
  induction l as [|a l IH]; simpl.
  - split; [|done]. intros _ x Hx. by apply not_elem_of_nil in Hx.
  - rewrite filter_cons. destruct (decide (P a)) as [Ha|Ha].
    + split; [done|]. intros Hall. exfalso. apply (Hall a); [left|done].
    + rewrite IH. split.
      * intros Hall x Hx. apply elem_of_cons in Hx as [->|Hx]; auto.
      * intros Hall x Hx. apply Hall. by right.
Qed.

(** ** The claim engine *)

(** C2. [process_one_article_status] returns [None] and leaves the table
    alone when no row has [from_status]; it returns [None] when its
    conditional update matches no row, which is the case when the row it
    read has changed status in between; and when the update matches
    exactly one row it returns the row as it was read, a row of the table
    the call started from whose status is [from_status], while the
    matched row is stored with [to_status]. *)
Theorem process_one_article_status_returns
    (others : Store → Store) (from_status to_status : string) (db : Store) :
  (select_status from_status db = [] →
   process_one_article_status others from_status to_status db = (None, db))
  ∧
  (∀ article, head (select_status from_status db) = Some article →
     let matched :=
       filter (λ r, eq_id (row_id article) r && eq_status from_status r = true)
              (others db) in
     (matched = [] →
      process_one_article_status others from_status to_status db
      = (None, others db))
     ∧
     ((∀ r, r ∈ others db → row_id r = row_id article → status r ≠ from_status) →
      matched = [])
     ∧
     (∀ r, matched = [r] →
        ∃ db',
          process_one_article_status others from_status to_status db
          = (Some article, db')
          ∧ article ∈ db ∧ status article = from_status
          ∧ row_id r = row_id article
          ∧ set_status to_status r ∈ db'
          ∧ length db' = length (others db))).
Proof.
  split.
  - intros Hnone. unfold process_one_article_status. by rewrite Hnone.
  - intros article Hhead matched. split; [|split].
    + intros Hm. unfold process_one_article_status. rewrite Hhead.
      rewrite update_unchanged by exact Hm. done.
    + intros Hgone. subst matched. apply filter_nil_iff.
      intros r Hr Hf. apply andb_true_iff in Hf as [Hi Hs].
      apply Z.eqb_eq in Hi. apply String.eqb_eq in Hs. by eapply Hgone.
    + intros r Hm.
      assert (Hr : r ∈ matched) by (rewrite Hm; left).
      apply list_elem_of_filter in Hr as [Hf Hr].
      apply andb_true_iff in Hf as [Hi Hs]. apply Z.eqb_eq in Hi.
      apply head_Some_elem_of in Hhead as Hin.
      apply list_elem_of_filter in Hin as [Hst Hin]. apply String.eqb_eq in Hst.
      eexists. unfold process_one_article_status. rewrite Hhead.
      unfold update. fold matched. rewrite Hm. simpl.
      split; [reflexivity|]. repeat split; auto.
      * apply list_elem_of_fmap. exists r. split; [|done].
        unfold eq_id. rewrite Hi, Z.eqb_refl, Hs. done.
      * by rewrite length_map.
Qed.

(** *** Claims under interleaving *)

Section claim_once.
Variable from_status : string.

Local Abbreviation claimed_ids := (claimed_ids from_status).
Local Abbreviation claim_inv := (claim_inv from_status).

Lemma claimed_ids_snoc (cs : list Claim) (cl : Claim) :
  claimed_ids (cs ++ [cl])
  = claimed_ids cs ++ (if decide (claim_from cl = from_status)
                       then [row_id (claimed cl)] else []).
Proof.
  unfold claimed_ids. rewrite filter_app, map_app. f_equal.
  rewrite filter_cons, filter_nil. by case_decide.
Qed.

Lemma claim_inv_initial (db : Store) (n : nat) : claim_inv (initial db n).
Proof.
  repeat split; simpl.
  - intros i r Hi. by apply not_elem_of_nil in Hi.
  - constructor.
  - intros w f t a Hw. apply lookup_replicate in Hw as [? _]. done.
Qed.

Lemma claim_inv_select (c : Config) (w : nat) (f t : string) (k : nat) :
  t ≠ from_status → claim_inv c → claim_inv (exec_event (Select w f t k) c).
Proof.
  intros Ht (Hgone & Hnodup & Hflight). simpl.
  destruct (workers c !! w) as [[|]|] eqn:Hw; try done.
  destruct (select_status f (table c) !! k) as [article|]; [|done].
  repeat split; simpl; auto.
  intros w' f' t' a' Hw'.
  destruct (decide (w = w')) as [->|Hne].
  - rewrite list_lookup_insert_eq in Hw' by (by eapply lookup_lt_Some).
    by injection Hw' as <- <- <-.
  - rewrite list_lookup_insert_ne in Hw' by done. eauto.
Qed.

Lemma claim_inv_lock (c : Config) (w : nat) :
  claim_inv c → claim_inv (exec_event (Lock w) c).
Proof.
  intros (Hgone & Hnodup & Hflight). simpl.
  destruct (workers c !! w) as [[|f t a]|] eqn:Hw; try done.
  assert (Ht : t ≠ from_status) by eauto.
  unfold update. cbv zeta beta iota.
  assert (Hrows : ∀ i r', i ∈ claimed_ids (claims c) →
            r' ∈ map (λ r, if eq_id (row_id a) r && eq_status f r
                           then set_status t r else r) (table c) →
            row_id r' = i → status r' ≠ from_status).
  { intros i r' Hi Hr' Hid. apply list_elem_of_fmap in Hr' as (r & -> & Hr).
    destruct (eq_id (row_id a) r && eq_status f r); [done|]. eauto. }
  assert (Hfl : ∀ w' f' t' a',
            <[w := Idle]> (workers c) !! w' = Some (Selected f' t' a') →
            t' ≠ from_status).
  { intros w' f' t' a' Hw'. destruct (decide (w = w')) as [->|Hne].
    - rewrite list_lookup_insert_eq in Hw' by (by eapply lookup_lt_Some). done.
    - rewrite list_lookup_insert_ne in Hw' by done. eauto. }
  destruct (filter _ (table c)) as [|r0 rs] eqn:Hfilter; simpl.
  { by repeat split. }
  unfold claim_inv. simpl. rewrite claimed_ids_snoc. simpl.
  destruct (decide (f = from_status)) as [->|Hf]; [|rewrite app_nil_r; by repeat split].
  assert (Hmatch : r0 ∈ table c ∧ row_id r0 = row_id a ∧ status r0 = from_status).
  { assert (Hr : r0 ∈ r0 :: rs) by left. rewrite <- Hfilter in Hr.
    apply list_elem_of_filter in Hr as [Hr Hin].
    apply andb_true_iff in Hr as [Hi Hs].
    apply Z.eqb_eq in Hi. apply String.eqb_eq in Hs. eauto. }
  repeat split; auto.
  - intros i r' Hi Hr' Hid. apply elem_of_app in Hi as [Hi|Hi]; [eauto|].
    apply list_elem_of_singleton in Hi as ->.
    apply list_elem_of_fmap in Hr' as (r & -> & Hr).
    destruct (eq_id (row_id a) r && eq_status from_status r) eqn:Hfr; [done|].
    unfold eq_id in Hfr. rewrite Hid, Z.eqb_refl in Hfr. simpl in Hfr.
    by apply String.eqb_neq in Hfr.
  - apply NoDup_app. split; [done|]. split; [|apply NoDup_singleton].
    intros i Hi Hi'. apply list_elem_of_singleton in Hi' as ->.
    destruct Hmatch as (Hr & Hid & Hs). by eapply Hgone.
Qed.

Lemma claim_inv_exec (schedule : list event) (c : Config) :
  (∀ t, t ∈ targets schedule → t ≠ from_status) →
  claim_inv c → claim_inv (exec schedule c).
Proof.
  revert c. induction schedule as [|ev schedule IH]; intros c Ht Hc; [done|].
  simpl. apply IH.
  - intros t Hin. apply Ht. unfold targets. simpl.
    destruct ev; [right|]; done.
  - destruct ev as [w f t k|w].
    + apply claim_inv_select; [|done]. apply Ht. unfold targets. simpl. left.
    + by apply claim_inv_lock.
Qed.

End claim_once.

Lemma NoDup_map_filter_lookup {A B : Type} (f : A → B) (P : A → Prop)
    `{∀ x, Decision (P x)} (l : list A) (i j : nat) (x y : A) :
  NoDup (map f (filter P l)) →
  l !! i = Some x → l !! j = Some y → i ≠ j → P x → P y → f x ≠ f y.
Proof.
  revert i j. induction l as [|a l IH]; intros i j Hnd Hi Hj Hne Hx Hy; [done|].
  rewrite filter_cons in Hnd.
  assert (Hin : ∀ k z, l !! k = Some z → P z → f z ∈ map f (filter P l)).
  { intros k z Hk Hz. apply list_elem_of_fmap. exists z. split; [done|].
    apply list_elem_of_filter. split; [done|]. by eapply list_elem_of_lookup_2. }
  destruct i as [|i], j as [|j]; simpl in *; [done| | |].
  - injection Hi as ->. rewrite decide_True in Hnd by done.
    apply NoDup_cons in Hnd as [Hnot _]. intros Heq. apply Hnot. rewrite Heq. eauto.
  - injection Hj as ->. rewrite decide_True in Hnd by done.
    apply NoDup_cons in Hnd as [Hnot _]. intros Heq. apply Hnot. rewrite <- Heq. eauto.
  - apply (IH i j); auto.
    destruct (decide (P a)); [by apply NoDup_cons in Hnd as [_ ?]|done].
Qed.

(** C1, as amended.  Take any table, any number of workers and any
    interleaving of the store calls of their claim calls in which no call
    has [from_status] as its target state (so [from_status] differs from
    the [to_status] of the calls that leave it).  At every lock, the call
    succeeds exactly when a row with the article's id still has the
    call's [from_status], and every such row then has [to_status]; and no
    article is returned to two successful calls out of [from_status]. *)
Theorem claim_at_most_once
    (from_status : string) (db : Store) (n : nat) (schedule : list event) :
  (∀ t, t ∈ targets schedule → t ≠ from_status) →
  (∀ i j c1 c2,
     claims (exec schedule (initial db n)) !! i = Some c1 →
     claims (exec schedule (initial db n)) !! j = Some c2 →
     i ≠ j →
     claim_from c1 = from_status → claim_from c2 = from_status →
     row_id (claimed c1) ≠ row_id (claimed c2))
  ∧
  (∀ c w f t a, workers c !! w = Some (Selected f t a) →
     let c' := exec_event (Lock w) c in
     ((∃ r, r ∈ table c ∧ row_id r = row_id a ∧ status r = f) →
        claims c' = claims c ++ [mkClaim w f t a])
     ∧ ((∀ r, r ∈ table c → row_id r = row_id a → status r ≠ f) →
        claims c' = claims c ∧ table c' = table c)
     ∧ (∀ r, r ∈ table c → row_id r = row_id a → status r = f →
        set_status t r ∈ table c')).
Proof.
  intros Ht. split.
  - intros i j c1 c2 Hi Hj Hne H1 H2.
    pose proof (claim_inv_exec from_status schedule (initial db n) Ht
                  (claim_inv_initial from_status db n)) as (_ & Hnodup & _).
    by eapply (NoDup_map_filter_lookup (λ cl, row_id (claimed cl))
                 (λ cl, claim_from cl = from_status)).
  - intros c w f t a Hw c'. subst c'. simpl. rewrite Hw. unfold update.
    cbv zeta beta iota.
    assert (Hfilt : ∀ r, eq_id (row_id a) r && eq_status f r = true
                         ↔ row_id r = row_id a ∧ status r = f).
    { intros r. unfold eq_id, eq_status.
      rewrite andb_true_iff, Z.eqb_eq, String.eqb_eq. done. }
    split; [|split].
    + intros (r & Hr & Hid & Hs).
      destruct (filter _ (table c)) as [|r0 rs] eqn:Hfilter; [|done].
      exfalso. eapply filter_nil_iff; [exact Hfilter|exact Hr|]. by apply Hfilt.
    + intros Hall.
      assert (Hnone : filter (λ r, eq_id (row_id a) r && eq_status f r = true)
                             (table c) = []).
      { apply filter_nil_iff. intros r Hr Hf. apply Hfilt in Hf as [? ?].
        by eapply Hall. }
      pose proof (update_unchanged (set_status t) _ (table c) Hnone) as Hupd.
      unfold update in Hupd. injection Hupd as Htab Hdata.
      rewrite Hnone. simpl. by rewrite Htab.
    + intros r Hr Hid Hs.
      assert (Hf : eq_id (row_id a) r && eq_status f r = true) by (by apply Hfilt).
      simpl. apply list_elem_of_fmap. exists r. by rewrite Hf.
Qed.

Example race_one_winner :
  claims (exec (race "new" "scraping") (initial [fresh_article] 2))
  = [mkClaim 0 "new" "scraping" fresh_article].
Proof. reflexivity. Qed.

Lemma claim_at_most_once_witness :
  (∀ t, t ∈ targets (race "new" "scraping") → t ≠ "new")
  ∧ (∀ i j c1 c2,
       claims (exec (race "new" "scraping") (initial [fresh_article] 2)) !! i
       = Some c1 →
       claims (exec (race "new" "scraping") (initial [fresh_article] 2)) !! j
       = Some c2 →
       i ≠ j →
       claim_from c1 = "new" → claim_from c2 = "new" →
       row_id (claimed c1) ≠ row_id (claimed c2)).
Proof.
  assert (Ht : ∀ t, t ∈ targets (race "new" "scraping") → t ≠ "new").
  { apply Forall_forall. repeat constructor; discriminate. }
  split; [exact Ht|].
  exact (proj1 (claim_at_most_once "new" [fresh_article] 2
                  (race "new" "scraping") Ht)).
Defined.

(** C1 as stated fails for the pair of states ("new", "new"): the
    conditional update of the second caller still finds the status it
    asks for, and both callers are handed the article. *)
Lemma claim_twice_when_states_coincide :
  claims (exec (race "new" "new") (initial [fresh_article] 2))
  = [mkClaim 0 "new" "new" fresh_article; mkClaim 1 "new" "new" fresh_article]
  ∧ table (exec (race "new" "new") (initial [fresh_article] 2)) = [fresh_article].
Proof. split; reflexivity. Qed.

(** The same happens between distinct states when a third call moves the
    article back in between. *)
Example claim_twice_after_return :
  claims (exec [Select 0 "new" "scraping" 0; Lock 0;
                Select 2 "scraping" "new" 0; Lock 2;
                Select 1 "new" "scraping" 0; Lock 1]
               (initial [fresh_article] 3))
  = [mkClaim 0 "new" "scraping" fresh_article;
     mkClaim 2 "scraping" "new" (set_status "scraping" fresh_article);
     mkClaim 1 "new" "scraping" fresh_article].
Proof. reflexivity. Qed.

(** A lost race, seen from inside the function: the other worker's claim
    runs between the two store calls. *)
Example lost_race :
  process_one_article_status
    (λ db, (process_one_article_status id "new" "scraping" db).2)
    "new" "scraping" [fresh_article]
  = (None, [set_status "scraping" fresh_article]).
Proof. reflexivity. Qed.

Example claim_alone :
  process_one_article_status id "new" "scraping" [fresh_article]
  = (Some fresh_article, [set_status "scraping" fresh_article]).
Proof. reflexivity. Qed.

(** ** Discovery *)

Lemma eq_url_iff (u : string) (r : Row) : eq_url u r = true ↔ article_url r = u.
Proof. unfold eq_url. apply String.eqb_eq. Qed.

Lemma filter_unique_url (db : Store) (r0 : Row) :
  NoDup (map article_url db) → r0 ∈ db →
  filter (λ r, eq_url (article_url r0) r = true) db = [r0].
Proof.
  induction db as [|r db IH]; intros Hnd Hin; [by apply not_elem_of_nil in Hin|].
  simpl in Hnd. apply NoDup_cons in Hnd as [Hnot Hnd].
  rewrite filter_cons.
  apply elem_of_cons in Hin as [->|Hin].
  - rewrite decide_True by (by apply eq_url_iff). f_equal.
    apply filter_nil_iff. intros x Hx Hu. apply eq_url_iff in Hu.
    apply Hnot. rewrite <- Hu. apply list_elem_of_fmap. eauto.
  - rewrite decide_False; [by apply IH|].
    intros Hu. apply eq_url_iff in Hu. apply Hnot. rewrite Hu.
    apply list_elem_of_fmap. eauto.
Qed.

(** C3, as amended.  For a URL that is in the table (URLs being unique),
    the upsert of [add_new_article] inserts nothing and returns the row
    that holds the URL, with its [category] set to the category of this
    call; every other column of every row, the scraped title, content and
    date among them, is left as it was, as are all rows of other URLs;
    when the category is the one already stored the table is unchanged. *)
Theorem upsert_existing_url (u c : string) (db : Store) (r0 : Row) :
  NoDup (map article_url db) → r0 ∈ db → article_url r0 = u →
  ∃ db',
    upsert u c db = (db', [set_url_category u c r0])
    ∧ map row_id db' = map row_id db
    ∧ map forget_category db' = map forget_category db
    ∧ forget_category (set_url_category u c r0) = forget_category r0
    ∧ category (set_url_category u c r0) = Some c
    ∧ set_url_category u c r0 ∈ db'
    ∧ (∀ r, r ∈ db → article_url r ≠ u → r ∈ db')
    ∧ (category r0 = Some c → db' = db).
Proof.
  intros Hnd Hin Hu. subst u.
  pose proof (filter_unique_url db r0 Hnd Hin) as Hfilter.
  eexists. unfold upsert. rewrite Hfilter. unfold update. rewrite Hfilter.
  simpl. split; [reflexivity|].
  assert (Hrow : ∀ r, r ∈ db → eq_url (article_url r0) r = true → r = r0).
  { intros r Hr Hur.
    assert (Hr' : r ∈ filter (λ r, eq_url (article_url r0) r = true) db)
      by (by apply list_elem_of_filter).
    rewrite Hfilter in Hr'. by apply list_elem_of_singleton in Hr'. }
  repeat split.
  - rewrite map_map. apply map_ext. intros r. by destruct (eq_url _ r).
  - rewrite map_map. apply map_ext_in. intros r Hr%list_elem_of_In.
    destruct (eq_url _ r) eqn:Hur; [|done].
    apply eq_url_iff in Hur. unfold forget_category. simpl. by rewrite Hur.
  - apply list_elem_of_fmap. exists r0. split; [|done].
    by rewrite (proj2 (eq_url_iff _ _) eq_refl).
  - intros r Hr Hne. apply list_elem_of_fmap. exists r. split; [|done].
    destruct (eq_url _ r) eqn:Hur; [|done]. by apply eq_url_iff in Hur.
  - intros Hc. rewrite <- (map_id db) at 2. apply map_ext_in.
    intros r Hr%list_elem_of_In.
    destruct (eq_url _ r) eqn:Hur; [|done].
    rewrite (Hrow r Hr Hur). destruct r0. simpl in *. by subst.
Qed.

Lemma upsert_existing_url_witness :
  NoDup (map article_url [translated_article])
  ∧ translated_article ∈ [translated_article]
  ∧ article_url translated_article = "https://www.tagesschau.de/inland/bahn-100.html"
  ∧ ∃ db',
      upsert "https://www.tagesschau.de/inland/bahn-100.html" "Inland"
             [translated_article]
      = (db', [set_url_category "https://www.tagesschau.de/inland/bahn-100.html"
                                "Inland" translated_article])
      ∧ map row_id db' = map row_id [translated_article]
      ∧ map forget_category db' = map forget_category [translated_article]
      ∧ forget_category
          (set_url_category "https://www.tagesschau.de/inland/bahn-100.html"
                            "Inland" translated_article)
        = forget_category translated_article
      ∧ category
          (set_url_category "https://www.tagesschau.de/inland/bahn-100.html"
                            "Inland" translated_article)
        = Some "Inland"
      ∧ set_url_category "https://www.tagesschau.de/inland/bahn-100.html"
                         "Inland" translated_article ∈ db'
      ∧ (∀ r, r ∈ [translated_article] →
              article_url r ≠ "https://www.tagesschau.de/inland/bahn-100.html" →
              r ∈ db')
      ∧ (category translated_article = Some "Inland" → db' = [translated_article]).
Proof.
  assert (Hnd : NoDup (map article_url [translated_article])).
  { simpl. apply NoDup_singleton. }
  assert (Hin : translated_article ∈ [translated_article]) by left.
  split; [exact Hnd|]. split; [exact Hin|]. split; [reflexivity|].
  exact (upsert_existing_url _ "Inland" [translated_article] translated_article
           Hnd Hin eq_refl).
Defined.

(** C3 as stated fails: the same article found again on the page of
    another category has its [category] overwritten. *)
Lemma upsert_overwrites_category :
  add_new_article "Ausland" [Some "/inland/bahn-100.html"] [translated_article]
  = (Ok None,
     [set_url_category "https://www.tagesschau.de/inland/bahn-100.html" "Ausland"
                       translated_article])
  ∧ category translated_article = Some "Inland"
  ∧ category (set_url_category "https://www.tagesschau.de/inland/bahn-100.html"
                               "Ausland" translated_article) = Some "Ausland".
Proof. repeat split; reflexivity. Qed.

(** ** Scoring *)

Lemma truthy_Some (s : string) : truthy (Some s) = true ↔ s ≠ "".
Proof.
  unfold truthy. rewrite negb_true_iff. apply String.eqb_neq.
Qed.

Lemma truthy_empty : truthy (Some "") = false.
Proof. reflexivity. Qed.

Section scoring.
Context `{Calendar}.

(** C4, as amended.  [score_article] returns the sum of a frequency term,
    a recency term and a freshness term.  When the article's topic is not
    empty and is a key of the preference map, the first two are
    [count * 3] and [max 0 (5 - days_since_like)], the whole days from the
    topic's latest like to now; otherwise they are 0.  When the article
    has a published date that is not empty, the third is
    [max 0 (3 - days_old)]; without one it is 0.  The recency and
    freshness terms are never negative.  A published date that is not
    empty and does not start with an ISO date raises [ValueError].  An
    article of a topic liked twice, last one day ago, published today,
    scores 13; an article of an unseen topic published today scores 3. *)
Theorem score_article_terms (clk : Clock) (article : Article)
    (topic_prefs : gmap string TopicPreference) :
  (∃ frequency recency freshness : Z,
     ((a_published_date article = None ∨ a_published_date article = Some ""
       ∨ ∃ published_date created_date,
           a_published_date article = Some published_date
           ∧ date_fromisoformat (substring 0 10 published_date) = Some created_date) →
      score_article clk article topic_prefs = Ok (frequency + recency + freshness))
     ∧ (∀ topic pref,
          a_topic article = Some topic → topic ≠ "" →
          topic_prefs !! topic = Some pref →
          frequency = count pref * 3
          ∧ recency = Z.max 0 (5 - timedelta_days (now clk - latest pref)))
     ∧ ((a_topic article = None ∨ a_topic article = Some ""
         ∨ ∃ topic, a_topic article = Some topic ∧ topic_prefs !! topic = None) →
        frequency = 0 ∧ recency = 0)
     ∧ (∀ published_date created_date,
          a_published_date article = Some published_date → published_date ≠ "" →
          date_fromisoformat (substring 0 10 published_date) = Some created_date →
          freshness = Z.max 0 (3 - (today clk - created_date)))
     ∧ ((a_published_date article = None ∨ a_published_date article = Some "") →
        freshness = 0)
     ∧ 0 ≤ recency ∧ 0 ≤ freshness)
  ∧ (∀ published_date,
       a_published_date article = Some published_date → published_date ≠ "" →
       date_fromisoformat (substring 0 10 published_date) = None →
       score_article clk article topic_prefs = Raise ValueError)
  ∧ (∀ topic pref published_date,
       a_topic article = Some topic → topic ≠ "" →
       topic_prefs !! topic = Some pref →
       count pref = 2 → timedelta_days (now clk - latest pref) = 1 →
       a_published_date article = Some published_date → published_date ≠ "" →
       date_fromisoformat (substring 0 10 published_date) = Some (today clk) →
       score_article clk article topic_prefs = Ok 13)
  ∧ (∀ topic published_date,
       a_topic article = Some topic → topic_prefs !! topic = None →
       a_published_date article = Some published_date → published_date ≠ "" →
       date_fromisoformat (substring 0 10 published_date) = Some (today clk) →
       score_article clk article topic_prefs = Ok 3).
Proof.
  unfold score_article.
  destruct article as [i title url topic published]. simpl.
  split; [|split; [|split]].
  - exists (match topic with
            | Some t => if truthy (Some t)
                        then match topic_prefs !! t with
                             | Some pref => count pref * 3
                             | None => 0
                             end
                        else 0
            | None => 0
            end),
           (match topic with
            | Some t => if truthy (Some t)
                        then match topic_prefs !! t with
                             | Some pref =>
                                 Z.max 0 (5 - timedelta_days (now clk - latest pref))
                             | None => 0
                             end
                        else 0
            | None => 0
            end),
           (match published with
            | Some d => if truthy (Some d)
                        then match date_fromisoformat (substring 0 10 d) with
                             | Some created => Z.max 0 (3 - (today clk - created))
                             | None => 0
                             end
                        else 0
            | None => 0
            end).
    split; [|split; [|split; [|split; [|split; [|split]]]]].
    + intros [->|[->|(d & created & -> & Hd)]].
      * f_equal. repeat case_match; lia.
      * rewrite truthy_empty. f_equal. repeat case_match; lia.
      * rewrite Hd. destruct (truthy (Some d)); f_equal; repeat case_match; lia.
    + intros t pref [= ->] Ht%truthy_Some Hp. by rewrite Ht, Hp.
    + intros [->|[->|(t & -> & Ht)]]; [done|done|].
      rewrite Ht. by destruct (truthy (Some t)).
    + intros d created [= ->] Hne%truthy_Some Hd. by rewrite Hne, Hd.
    + by intros [->| ->].
    + repeat case_match; lia.
    + repeat case_match; lia.
  - intros d [= ->] Hne%truthy_Some Hd. by rewrite Hne, Hd.
  - intros t pref d [= ->] Ht%truthy_Some Hp Hc Hdays [= ->] Hne%truthy_Some Hd.
    rewrite Ht, Hp, Hne, Hd, Hc, Hdays. f_equal. lia.
  - intros t d [= ->] Hp [= ->] Hne%truthy_Some Hd.
    rewrite Hp, Hne, Hd. destruct (truthy (Some t)); f_equal; lia.
Qed.

(** C10, as amended.  An article whose topic is missing, empty or not a
    key of the preference map scores as it would without any preference;
    an article whose published date is missing or empty scores as the
    same article without the date, and [score_article] returns; together
    the score is 0.  [score_article] raises exactly when the published
    date is not empty and does not start with an ISO date, by
    [ValueError]; whenever it returns and no count of the preference map
    is negative, the score is at least 0. *)
Theorem score_article_defensive (clk : Clock) (article : Article)
    (topic_prefs : gmap string TopicPreference) :
  ((a_topic article = None ∨ a_topic article = Some ""
    ∨ ∃ topic, a_topic article = Some topic ∧ topic_prefs !! topic = None) →
   score_article clk article topic_prefs = score_article clk article ∅)
  ∧ ((a_published_date article = None ∨ a_published_date article = Some "") →
     score_article clk article topic_prefs
     = score_article clk (mkArticle (a_id article) (a_title_en article)
                                    (a_article_url article) (a_topic article) None)
                     topic_prefs
     ∧ ∃ v, score_article clk article topic_prefs = Ok v)
  ∧ ((a_topic article = None ∨ a_topic article = Some ""
      ∨ ∃ topic, a_topic article = Some topic ∧ topic_prefs !! topic = None) →
     (a_published_date article = None ∨ a_published_date article = Some "") →
     score_article clk article topic_prefs = Ok 0)
  ∧ (∀ e, score_article clk article topic_prefs = Raise e ↔
          e = ValueError
          ∧ ∃ published_date,
              a_published_date article = Some published_date
              ∧ published_date ≠ ""
              ∧ date_fromisoformat (substring 0 10 published_date) = None)
  ∧ ((∀ topic pref, topic_prefs !! topic = Some pref → 0 ≤ count pref) →
     ∀ v, score_article clk article topic_prefs = Ok v → 0 ≤ v).
Proof.
  unfold score_article.
  destruct article as [i title url topic published]. simpl.
  split; [|split; [|split; [|split]]].
  - intros [->|[->|(t & -> & Ht)]]; [done|done|].
    rewrite Ht, lookup_empty. by destruct (truthy (Some t)).
  - intros [->| ->]; (split; [done|eauto]).
  - intros [->|[->|(t & -> & Ht)]] [->| ->]; try done;
      rewrite Ht; by destruct (truthy (Some t)).
  - intros e. split.
    + destruct published as [d|]; [|done].
      destruct (truthy (Some d)) eqn:Hd; [|done].
      destruct (date_fromisoformat _) eqn:Hp; [done|].
      intros [= <-]. split; [done|]. exists d. by apply truthy_Some in Hd.
    + intros (-> & d & [= ->] & Hne%truthy_Some & Hp). by rewrite Hne, Hp.
  - intros Hcount v.
    assert (Htopic : 0 ≤ match topic with
                         | Some t =>
                             if truthy (Some t)
                             then match topic_prefs !! t with
                                  | Some pref =>
                                      0 + count pref * 3
                                      + Z.max 0 (5 - timedelta_days
                                                       (now clk - latest pref))
                                  | None => 0
                                  end
                             else 0
                         | None => 0
                         end).
    { destruct topic as [t|]; [|done]. destruct (truthy (Some t)); [|done].
      destruct (topic_prefs !! t) as [pref|] eqn:Hp; [|done].
      specialize (Hcount t pref Hp). lia. }
    destruct published as [d|]; [|intros [= <-]; done].
    destruct (truthy (Some d)); [|intros [= <-]; done].
    destruct (date_fromisoformat _); [|done]. intros [= <-]. lia.
Qed.

End scoring.

(** *** Worked scores, with the ISO calendar *)

Example score_liked_topic : score_article noon economy_today likes_economy = Ok 13.
Proof. vm_compute. reflexivity. Qed.

Example score_unseen_topic : score_article noon sports_today likes_economy = Ok 3.
Proof. vm_compute. reflexivity. Qed.

Example score_old_article :
  score_article noon
    (mkArticle 9 None "u" (Some "Economy") (Some "2026-02-27")) likes_economy
  = Ok 10.
Proof. vm_compute. reflexivity. Qed.

(** C4 as stated fails on the empty topic: it can be a key of a
    preference map, and the guard [if topic and ...] still skips both
    topic terms.  The sum the claim describes would be 2 * 3 + 5 + 3. *)
Lemma score_empty_topic_key :
  score_article noon
    (mkArticle 7 None "u" (Some "") (Some "2026-03-02"))
    {[ "" := mkPref 2 (now noon) ]}
  = Ok 3
  ∧ ({[ "" := mkPref 2 (now noon) ]} : gmap string TopicPreference) !! ""
    = Some (mkPref 2 (now noon))
  ∧ 2 * 3 + Z.max 0 (5 - timedelta_days (now noon - now noon))
    + Z.max 0 (3 - (today noon - Iso.ordinal 2026 3 2)) = 14.
Proof. vm_compute. repeat split; reflexivity. Qed.

(** C10 as stated fails: a published date that is not empty and is not
    an ISO date makes [date.fromisoformat] raise, for a preference map
    without any count. *)
Lemma score_article_raises :
  score_article noon (mkArticle 7 None "u" None (Some "not-a-date")) ∅
  = Raise ValueError.
Proof. vm_compute. reflexivity. Qed.

(** ** The preference profile *)

Section preferences.
Context `{Calendar}.

Lemma contributes_iff (r : Row) :
  contributes r = true ↔
  feedback r = Some "up" ∧ active r = true
  ∧ (∃ t, topic r = Some t ∧ t ≠ "")
  ∧ (∃ s, feedback_at r = Some s ∧ s ≠ "").
Proof.
  unfold contributes, liked, counted.
  rewrite !andb_true_iff. split.
  - intros [Hl [Ht Hs]].
    destruct (feedback r) as [f|]; [|done].
    apply andb_true_iff in Hl as [Hf Ha]. apply String.eqb_eq in Hf as ->.
    destruct (topic r) as [t|]; [|done]. destruct (feedback_at r) as [s|]; [|done].
    apply truthy_Some in Ht, Hs. eauto 10.
  - intros (-> & -> & (t & -> & Ht) & (s & -> & Hs)).
    apply truthy_Some in Ht, Hs. by rewrite Ht, Hs.
Qed.

Lemma instant_replace_tzinfo_utc (ts : datetime) :
  tzinfo ts = None → instant (replace_tzinfo_utc ts) = instant ts.
Proof. intros Hn. unfold instant. simpl. rewrite Hn. lia. Qed.

(** The loop body in terms of the row's instant. *)
Lemma add_like_skip (prefs : gmap string TopicPreference) (r : Row) :
  counted r = false → add_like prefs r = Ok prefs.
Proof.
  unfold counted, add_like. intros Hc.
  by rewrite <- negb_andb, Hc.
Qed.

Lemma add_like_counted (prefs : gmap string TopicPreference) (r : Row) (t : string) :
  counted r = true → topic r = Some t →
  add_like prefs r =
    match like_instant r with
    | None => Raise ValueError
    | Some ts =>
        Ok (<[t := match prefs !! t with
                   | None => mkPref 1 ts
                   | Some pref =>
                       if (count pref + 1 =? 1) || (latest pref <? ts)
                       then mkPref (count pref + 1) ts
                       else mkPref (count pref + 1) (latest pref)
                   end]> prefs)
    end.
Proof.
  unfold counted, add_like, like_instant. intros Hc Ht.
  rewrite <- negb_andb, Hc. simpl. rewrite Ht in *.
  destruct (feedback_at r) as [s|]; [|by rewrite andb_false_r in Hc]. simpl.
  destruct (datetime_fromisoformat s) as [ts|]; [|done]. simpl.
  assert (Hi : instant match tzinfo ts with
                       | Some _ => ts
                       | None => replace_tzinfo_utc ts
                       end = instant ts).
  { destruct (tzinfo ts) eqn:Htz; [done|]. by apply instant_replace_tzinfo_utc. }
  rewrite Hi. by destruct (prefs !! t) as [pref|].
Qed.

Lemma counted_topic (r : Row) :
  counted r = true → ∃ t, topic r = Some t ∧ t ≠ "".
Proof.
  unfold counted. intros [Ht _]%andb_true_iff.
  destruct (topic r) as [t|]; [|done]. apply truthy_Some in Ht. eauto.
Qed.

Lemma add_likes_snoc (rows : list Row) (r : Row)
    (prefs : gmap string TopicPreference) :
  add_likes (rows ++ [r]) prefs
  = bind (add_likes rows prefs) (λ prefs, add_like prefs r).
Proof.
  revert prefs. induction rows as [|r0 rows IH]; intros prefs; simpl.
  - by destruct (add_like prefs r).
  - destruct (add_like prefs r0); simpl; [apply IH|done].
Qed.

(** The loop returns exactly when every row it counts has a timestamp
    that parses. *)
Lemma add_likes_returns (rows : list Row) (prefs : gmap string TopicPreference) :
  (∀ r, r ∈ rows → counted r = true → is_Some (like_instant r)) →
  ∃ prefs', add_likes rows prefs = Ok prefs'.
Proof.
  revert prefs. induction rows as [|r rows IH]; intros prefs Hall; simpl; [eauto|].
  destruct (counted r) eqn:Hc.
  - destruct (counted_topic r Hc) as (t & Ht & _).
    rewrite (add_like_counted prefs r t Hc Ht).
    destruct (Hall r) as [ts ->]; [left|done|]. simpl.
    apply IH. intros r' Hr'. apply Hall. by right.
  - rewrite add_like_skip by done. simpl. apply IH.
    intros r' Hr'. apply Hall. by right.
Qed.

Lemma add_likes_raises (rows : list Row) (prefs : gmap string TopicPreference)
    (e : exn) :
  add_likes rows prefs = Raise e →
  e = ValueError ∧ ∃ r, r ∈ rows ∧ counted r = true ∧ like_instant r = None.
Proof.
  revert prefs. induction rows as [|r rows IH]; intros prefs; simpl; [done|].
  destruct (counted r) eqn:Hc.
  - destruct (counted_topic r Hc) as (t & Ht & _).
    rewrite (add_like_counted prefs r t Hc Ht).
    destruct (like_instant r) as [ts|] eqn:Hts; simpl.
    + intros (-> & r' & Hr' & ?)%IH. split; [done|]. exists r'. split; [by right|done].
    + intros [= <-]. split; [done|]. exists r. split; [left|done].
  - rewrite add_like_skip by done. simpl.
    intros (-> & r' & Hr' & ?)%IH. split; [done|]. exists r'. split; [by right|done].
Qed.

Lemma add_likes_parsed (rows : list Row) (prefs prefs' : gmap string TopicPreference) :
  add_likes rows prefs = Ok prefs' →
  ∀ r, r ∈ rows → counted r = true → is_Some (like_instant r).
Proof.
  revert prefs. induction rows as [|r rows IH]; intros prefs Hok r' Hr' Hc'.
  { by apply not_elem_of_nil in Hr'. }
  simpl in Hok.
  destruct (add_like prefs r) as [prefs1|e] eqn:Hr; [|done]. simpl in Hok.
  apply elem_of_cons in Hr' as [->|Hr']; [|by eapply IH].
  destruct (counted_topic r Hc') as (t & Ht & _).
  rewrite (add_like_counted prefs r t Hc' Ht) in Hr.
  by destruct (like_instant r).
Qed.

Lemma profile_step (rows : list Row) (r : Row)
    (prefs prefs' : gmap string TopicPreference) :
  profile_of rows prefs → add_like prefs r = Ok prefs' →
  profile_of (rows ++ [r]) prefs'.
Proof.
  intros Hprof Hadd t. specialize (Hprof t) as Ht.
  rewrite filter_app, filter_cons, filter_nil.
  destruct (counted r) eqn:Hc.
  2: { rewrite add_like_skip in Hadd by done. injection Hadd as <-.
       rewrite decide_False by (intros [? _]; done). by rewrite app_nil_r. }
  destruct (counted_topic r Hc) as (t0 & Ht0 & _).
  rewrite (add_like_counted prefs r t0 Hc Ht0) in Hadd.
  destruct (like_instant r) as [ts|] eqn:Hts; [|done]. injection Hadd as <-.
  destruct (decide (t0 = t)) as [->|Hne].
  2: { rewrite lookup_insert_ne by done.
       rewrite decide_False by (intros [_ ?]; congruence). by rewrite app_nil_r. }
  rewrite lookup_insert_eq. rewrite decide_True by done.
  set (rs := filter (λ r, counted r = true ∧ topic r = Some t) rows) in *.
  destruct (prefs !! t) as [pref|]; simpl in Ht.
  - destruct Ht as (Hcount & Hne & (r1 & Hr1 & Hl1) & Hmax).
    assert (1 ≤ count pref).
    { rewrite Hcount. destruct rs; [done|]. simpl. lia. }
    replace (count pref + 1 =? 1) with false by (symmetry; apply Z.eqb_neq; lia).
    simpl. destruct (latest pref <? ts) eqn:Hlt; simpl.
    + apply Z.ltb_lt in Hlt. repeat split.
      * rewrite length_app. simpl. lia.
      * by destruct rs.
      * exists r. split; [|done]. apply elem_of_app. right. left.
      * intros r' ts' [Hr'|Hr']%elem_of_app Hts'.
        -- specialize (Hmax r' ts' Hr' Hts'). lia.
        -- apply list_elem_of_singleton in Hr' as ->. rewrite Hts in Hts'.
           injection Hts' as <-. lia.
    + apply Z.ltb_ge in Hlt. repeat split.
      * rewrite length_app. simpl. lia.
      * by destruct rs.
      * exists r1. split; [|done]. apply elem_of_app. by left.
      * intros r' ts' [Hr'|Hr']%elem_of_app Hts'.
        -- eauto.
        -- apply list_elem_of_singleton in Hr' as ->. rewrite Hts in Hts'.
           by injection Hts' as <-.
  - rewrite Ht. simpl. repeat split; [done| |].
    + exists r. split; [left|done].
    + intros r' ts' Hr'%list_elem_of_singleton Hts'. subst r'.
      rewrite Hts in Hts'. injection Hts' as <-. lia.
Qed.

Lemma add_likes_profile (rows : list Row) (prefs : gmap string TopicPreference) :
  add_likes rows ∅ = Ok prefs → profile_of rows prefs.
Proof.
  revert prefs. induction rows as [|r rows IH] using rev_ind; intros prefs.
  - simpl. intros [= <-] t. by rewrite lookup_empty.
  - rewrite add_likes_snoc.
    destruct (add_likes rows ∅) as [prefs0|] eqn:H0; [|done]. simpl.
    apply profile_step. by apply IH.
Qed.

End preferences.

Section profile.
Context `{Calendar}.

Lemma filter_liked (P : Row → Prop) `{∀ r, Decision (P r)} (db : Store) :
  filter (λ r, counted r = true ∧ P r) (filter (λ r, liked r = true) db)
  = filter (λ r, contributes r = true ∧ P r) db.
Proof.
  induction db as [|r db IH]; [done|].
  assert (Hiff : contributes r = true ↔ liked r = true ∧ counted r = true)
    by apply andb_true_iff.
  rewrite !filter_cons.
  destruct (decide (liked r = true)) as [Hl|Hl]; [rewrite filter_cons|];
    rewrite IH; repeat case_decide; try done; tauto.
Qed.

Lemma profile_at_Permutation (rows rows' : list Row) (o : option TopicPreference) :
  rows ≡ₚ rows' → profile_at rows o → profile_at rows' o.
Proof.
  intros Hp. destruct o as [pref|]; simpl.
  - intros (Hc & Hne & (r & Hr & Hl) & Hmax). repeat split.
    + by rewrite <- Hp.
    + intros ->. by apply Permutation_nil_r in Hp.
    + exists r. by rewrite <- Hp.
    + intros r' ts Hr'. rewrite <- Hp in Hr'. eauto.
  - intros ->. by apply Permutation_nil_l in Hp.
Qed.

Lemma profile_at_unique (rows : list Row) (o1 o2 : option TopicPreference) :
  profile_at rows o1 → profile_at rows o2 → o1 = o2.
Proof.
  destruct o1 as [p1|], o2 as [p2|]; simpl; try done.
  - intros (Hc1 & _ & (r1 & Hr1 & Hl1) & Hmax1) (Hc2 & _ & (r2 & Hr2 & Hl2) & Hmax2).
    specialize (Hmax1 r2 _ Hr2 Hl2). specialize (Hmax2 r1 _ Hr1 Hl1).
    destruct p1 as [c1 l1], p2 as [c2 l2]. simpl in *.
    assert (c1 = c2) by lia. assert (l1 = l2) by lia. by subst.
  - by intros (_ & ? & _) ?.
  - by intros ? (_ & ? & _).
Qed.

(** C9.  [get_topic_preferences] reads the rows with [feedback = "up"] and
    [active = true] and skips those without a topic or without a feedback
    timestamp.  It returns when the timestamps of the rows it counts
    parse (and raises [ValueError] otherwise).  In the map it returns, a
    topic is a key exactly when some counted row has it; its [count] is the
    number of those rows and its [latest] is the greatest of their
    feedback instants.  The result does not depend on the order of the
    rows. *)
Theorem get_topic_preferences_profile (db : Store) :
  ((∀ r, r ∈ db → contributes r = true → is_Some (like_instant r)) →
   ∃ prefs, get_topic_preferences db = Ok prefs)
  ∧ (∀ e, get_topic_preferences db = Raise e →
          e = ValueError
          ∧ ∃ r, r ∈ db ∧ contributes r = true ∧ like_instant r = None)
  ∧ (∀ prefs, get_topic_preferences db = Ok prefs →
       ∀ t,
         let rows := filter (λ r, contributes r = true ∧ topic r = Some t) db in
         match prefs !! t with
         | None => rows = []
         | Some pref =>
             count pref = Z.of_nat (length rows)
             ∧ rows ≠ []
             ∧ (∃ r, r ∈ rows ∧ like_instant r = Some (latest pref))
             ∧ (∀ r ts, r ∈ rows → like_instant r = Some ts → ts ≤ latest pref)
         end)
  ∧ (∀ r, contributes r = true ↔
          feedback r = Some "up" ∧ active r = true
          ∧ (∃ t, topic r = Some t ∧ t ≠ "")
          ∧ (∃ s, feedback_at r = Some s ∧ s ≠ ""))
  ∧ (∀ db', db' ≡ₚ db → get_topic_preferences db' = get_topic_preferences db).
Proof.
  assert (Hreturns : ∀ d,
    (∀ r, r ∈ d → contributes r = true → is_Some (like_instant r)) →
    ∃ prefs, get_topic_preferences d = Ok prefs).
  { intros d Hall. apply add_likes_returns.
    intros r [Hl Hr]%list_elem_of_filter Hc. apply Hall; [done|].
    unfold contributes. by rewrite Hl, Hc. }
  assert (Hraises : ∀ d e, get_topic_preferences d = Raise e →
    e = ValueError ∧ ∃ r, r ∈ d ∧ contributes r = true ∧ like_instant r = None).
  { intros d e (-> & r & [Hl Hr]%list_elem_of_filter & Hc & Hn)%add_likes_raises.
    split; [done|]. exists r. unfold contributes. by rewrite Hl, Hc. }
  assert (Hparsed : ∀ d prefs, get_topic_preferences d = Ok prefs →
    ∀ r, r ∈ d → contributes r = true → is_Some (like_instant r)).
  { intros d prefs Hok r Hr [Hl Hc]%andb_true_iff.
    eapply add_likes_parsed; [exact Hok| |done]. by apply list_elem_of_filter. }
  assert (Hprofile : ∀ d prefs, get_topic_preferences d = Ok prefs →
    ∀ t, profile_at (filter (λ r, contributes r = true ∧ topic r = Some t) d)
                    (prefs !! t)).
  { intros d prefs Hok%add_likes_profile t. specialize (Hok t).
    by rewrite filter_liked in Hok. }
  split; [apply Hreturns|]. split; [apply Hraises|].
  split; [exact (Hprofile db)|]. split; [apply contributes_iff|].
  intros db' Hperm.
  destruct (get_topic_preferences db) as [prefs|e] eqn:Hdb.
  - destruct (Hreturns db') as [prefs' Hdb'].
    { intros r Hr. rewrite Hperm in Hr. by eapply Hparsed. }
    rewrite Hdb'. f_equal. apply map_eq. intros t.
    eapply profile_at_unique; [by apply Hprofile|].
    eapply profile_at_Permutation; [|by apply Hprofile].
    by rewrite Hperm.
  - destruct (Hraises _ _ Hdb) as (-> & r & Hr & Hc & Hn).
    destruct (get_topic_preferences db') as [prefs'|e'] eqn:Hdb'.
    + rewrite <- Hperm in Hr. destruct (Hparsed _ _ Hdb' r Hr Hc) as [ts Hts].
      congruence.
    + by destruct (Hraises _ _ Hdb') as (-> & _).
Qed.

End profile.

Example topic_preferences :
  get_topic_preferences feedback_table
  = Ok {[ "Economy" := mkPref 2 (Iso.midnight 2026 3 1 + 11 * 3600 * 1000000);
          "Health" := mkPref 1 (Iso.midnight 2026 2 20 + 10 * 3600 * 1000000) ]}.
Proof. vm_compute. reflexivity. Qed.

(** ** Ranking *)

(** *** The sort *)

Lemma insert_desc_perm (x : Z * Article) (l : list (Z * Article)) :
  insert_desc x l ≡ₚ x :: l.
Proof.
  induction l as [|y l IH]; simpl; [done|].
  destruct (x.1 <? y.1); [|done].
  rewrite IH. apply Permutation_swap.
Qed.

Lemma sort_desc_perm (l : list (Z * Article)) : sort_desc l ≡ₚ l.
Proof.
  induction l as [|x l IH]; simpl; [done|].
  by rewrite insert_desc_perm, IH.
Qed.

Lemma insert_desc_sorted (x : Z * Article) (l : list (Z * Article)) :
  StronglySorted by_score_desc l → StronglySorted by_score_desc (insert_desc x l).
Proof.
  induction 1 as [|y l Hl IH Hy]; simpl.
  - repeat constructor.
  - destruct (x.1 <? y.1) eqn:Hlt.
    + apply Z.ltb_lt in Hlt. constructor; [done|].
      rewrite insert_desc_perm. constructor; [unfold by_score_desc; lia|done].
    + apply Z.ltb_ge in Hlt. constructor; [by constructor|].
      constructor; [done|].
      eapply Forall_impl; [exact Hy|]. unfold by_score_desc. intros z. lia.
Qed.

Lemma sort_desc_sorted (l : list (Z * Article)) :
  StronglySorted by_score_desc (sort_desc l).
Proof.
  induction l as [|x l IH]; simpl; [constructor|]. by apply insert_desc_sorted.
Qed.

(** Stability: the elements of any one score keep the order they were
    read in. *)
Lemma insert_desc_stable (s : Z) (x : Z * Article) (l : list (Z * Article)) :
  StronglySorted by_score_desc l →
  filter (λ y, y.1 = s) (insert_desc x l) = filter (λ y, y.1 = s) (x :: l).
Proof.
  induction 1 as [|y l Hl IH Hy]; simpl; [done|].
  destruct (x.1 <? y.1) eqn:Hlt; [|done].
  apply Z.ltb_lt in Hlt.
  rewrite (filter_cons _ y), IH, !filter_cons.
  destruct (decide (y.1 = s)) as [Hys|Hys], (decide (x.1 = s)) as [Hxs|Hxs];
    try done; lia.
Qed.

Lemma sort_desc_stable (s : Z) (l : list (Z * Article)) :
  filter (λ y, y.1 = s) (sort_desc l) = filter (λ y, y.1 = s) l.
Proof.
  induction l as [|x l IH]; simpl; [done|].
  rewrite insert_desc_stable by apply sort_desc_sorted.
  by rewrite !filter_cons, IH.
Qed.

(** *** Scoring the candidates *)

Section ranking.
Context `{Calendar}.

Lemma score_all_scored (clock : nat → Clock) (n : nat) (candidates : list Article)
    (prefs : gmap string TopicPreference) (scored : list (Z * Article)) :
  score_all clock n candidates prefs = Ok scored →
  map snd scored = candidates
  ∧ ∀ k s a, scored !! k = Some (s, a) →
             score_article (clock (n + k)%nat) a prefs = Ok s.
Proof.
  revert n scored. induction candidates as [|a0 rest IH]; intros n scored; simpl.
  - intros [= <-]. split; [done|]. intros k s a Hk. by rewrite lookup_nil in Hk.
  - destruct (score_article (clock n) a0 prefs) as [s0|] eqn:Hs0; [|done]. simpl.
    destruct (score_all clock (S n) rest prefs) as [scored'|] eqn:Hrest; [|done].
    simpl. intros [= <-]. destruct (IH _ _ Hrest) as [Hsnd Hscores].
    split; [simpl; by rewrite Hsnd|].
    intros [|k] s a Hk; simpl in Hk.
    + injection Hk as <- <-. by rewrite Nat.add_0_r.
    + apply Hscores in Hk. by replace (n + S k)%nat with (S n + k)%nat by lia.
Qed.

Lemma score_all_returns (clock : nat → Clock) (n : nat) (candidates : list Article)
    (prefs : gmap string TopicPreference) :
  (∀ k a, candidates !! k = Some a →
          ∃ s, score_article (clock (n + k)%nat) a prefs = Ok s) →
  ∃ scored, score_all clock n candidates prefs = Ok scored.
Proof.
  revert n. induction candidates as [|a0 rest IH]; intros n Hall; simpl; [eauto|].
  destruct (Hall 0%nat a0 eq_refl) as [s0 Hs0].
  rewrite Nat.add_0_r in Hs0. rewrite Hs0. simpl.
  destruct (IH (S n)) as [scored' ->]; [|simpl; eauto].
  intros k a Hk. replace (S n + k)%nat with (n + S k)%nat by lia.
  by apply Hall.
Qed.

Lemma score_all_raises (clock : nat → Clock) (n : nat) (candidates : list Article)
    (prefs : gmap string TopicPreference) (k : nat) (a : Article) (e : exn) :
  candidates !! k = Some a →
  score_article (clock (n + k)%nat) a prefs = Raise e →
  (∀ j a', (j < k)%nat → candidates !! j = Some a' →
           ∃ s, score_article (clock (n + j)%nat) a' prefs = Ok s) →
  score_all clock n candidates prefs = Raise e.
Proof.
  revert n k. induction candidates as [|a0 rest IH]; intros n k Hk He Hbefore;
    [by rewrite lookup_nil in Hk|].
  destruct k as [|k]; simpl in Hk.
  - injection Hk as ->. rewrite Nat.add_0_r in He. simpl. by rewrite He.
  - destruct (Hbefore 0%nat a0) as [s0 Hs0]; [lia|done|].
    rewrite Nat.add_0_r in Hs0. simpl. rewrite Hs0. simpl.
    rewrite (IH (S n) k); [done|done| |].
    + by replace (S n + k)%nat with (n + S k)%nat by lia.
    + intros j a' Hj Hj'. replace (S n + j)%nat with (n + S j)%nat by lia.
      apply Hbefore; [lia|done].
Qed.

Lemma unseen_iff (r : Row) :
  unseen r = true ↔ active r = true ∧ feedback r = None ∧ recommended_at r = None.
Proof.
  unfold unseen. rewrite !andb_true_iff, !bool_decide_eq_true. tauto.
Qed.

(** C5.  [get_recommendations] re-raises, and writes nothing, when
    building the preference map raises, whether or not a candidate
    exists.  With the map built, it returns the empty list, and writes
    nothing, when the map is empty and when no row is active with neither
    feedback nor [recommended_at] set.  Otherwise the candidates are
    scored in fetch order: the error of the first candidate whose scoring
    raises is re-raised and nothing is written; when every scoring
    returns, each candidate is paired with its score and the result is
    the articles of the first [limit] pairs of the pairs ranked: ranked is
    a permutation of the pairs, in descending order of score, with pairs
    of equal score in fetch order.  (A negative [limit] is read as Python
    reads [l[:limit]].) *)
Theorem get_recommendations_ranked (clock : nat → Clock) (limit : Z) (db : Store) :
  (∀ e, get_topic_preferences db = Raise e →
        get_recommendations clock limit db = (Raise e, db))
  ∧ (get_topic_preferences db = Ok ∅ →
     get_recommendations clock limit db = (Ok [], db))
  ∧ (∀ prefs, get_topic_preferences db = Ok prefs →
       get_unseen_articles db = [] →
       get_recommendations clock limit db = (Ok [], db))
  ∧ (∀ a, a ∈ get_unseen_articles db ↔
          ∃ r, r ∈ db ∧ active r = true ∧ feedback r = None
               ∧ recommended_at r = None ∧ a = article_of r)
  ∧ (∀ prefs, get_topic_preferences db = Ok prefs → prefs ≠ ∅ →
       ∀ k a e, get_unseen_articles db !! k = Some a →
         score_article (clock k) a prefs = Raise e →
         (∀ j a', (j < k)%nat → get_unseen_articles db !! j = Some a' →
                  ∃ s, score_article (clock j) a' prefs = Ok s) →
         get_recommendations clock limit db = (Raise e, db))
  ∧ (∀ prefs, get_topic_preferences db = Ok prefs → prefs ≠ ∅ →
       get_unseen_articles db ≠ [] →
       (∀ k a, get_unseen_articles db !! k = Some a →
               ∃ s, score_article (clock k) a prefs = Ok s) →
       ∃ scored ranked,
         map snd scored = get_unseen_articles db
         ∧ (∀ k s a, scored !! k = Some (s, a) →
                     score_article (clock k) a prefs = Ok s)
         ∧ ranked ≡ₚ scored
         ∧ StronglySorted (λ x y, y.1 ≤ x.1) ranked
         ∧ (∀ s, filter (λ x, x.1 = s) ranked = filter (λ x, x.1 = s) scored)
         ∧ (0 ≤ limit →
            (get_recommendations clock limit db).1
            = Ok (map snd (take (Z.to_nat limit) ranked)))
         ∧ (limit < 0 →
            (get_recommendations clock limit db).1
            = Ok (map snd (take (length ranked - Z.to_nat (- limit)) ranked)))).
Proof.
  split; [|split; [|split; [|split; [|split]]]].
  - intros e Hp. unfold get_recommendations. by rewrite Hp.
  - intros Hp. unfold get_recommendations. by rewrite Hp.
  - intros prefs Hp Hu. unfold get_recommendations. rewrite Hp, Hu.
    by case_bool_decide.
  - intros a. unfold get_unseen_articles. rewrite list_elem_of_fmap. split.
    + intros (r & -> & [Hr Hin]%list_elem_of_filter).
      apply unseen_iff in Hr as (? & ? & ?). eauto 10.
    + intros (r & Hin & Ha & Hf & Hr & ->). exists r. split; [done|].
      apply list_elem_of_filter. split; [|done]. by apply unseen_iff.
  - intros prefs Hp Hne k a e Hk He Hbefore.
    unfold get_recommendations. rewrite Hp.
    rewrite bool_decide_eq_false_2 by done.
    destruct (get_unseen_articles db) as [|a0 rest] eqn:Hcand;
      [by rewrite lookup_nil in Hk|].
    by rewrite (score_all_raises clock 0 (a0 :: rest) prefs k a e).
  - intros prefs Hp Hne Hu Hscores.
    destruct (score_all_returns clock 0 (get_unseen_articles db) prefs)
      as [scored Hscored]; [done|].
    destruct (score_all_scored _ _ _ _ _ Hscored) as [Hsnd Hs].
    exists scored, (sort_desc scored).
    split; [done|]. split; [done|]. split; [apply sort_desc_perm|].
    split; [apply sort_desc_sorted|]. split; [intros s; apply sort_desc_stable|].
    unfold get_recommendations. rewrite Hp.
    rewrite bool_decide_eq_false_2 by done.
    destruct (get_unseen_articles db) as [|a0 rest] eqn:Hcand; [done|].
    rewrite Hscored. simpl. unfold slice_to. split.
    + intros Hl. by rewrite (proj2 (Z.leb_le 0 limit) Hl).
    + intros Hl. by rewrite (proj2 (Z.leb_gt 0 limit) Hl).
Qed.

End ranking.

(** C5 as stated fails.  With no candidate in the table the call raises
    instead of returning the empty list, when a like that counts carries
    a timestamp that is no ISO 8601 text; and with a like and a candidate
    it raises instead of returning the candidate, when the candidate's
    published date is no ISO date. *)
Lemma get_recommendations_raises_instead :
  (get_unseen_articles bad_feedback = []
   ∧ get_recommendations at_noon 2 bad_feedback = (Raise ValueError, bad_feedback))
  ∧ (get_topic_preferences misdated
     = Ok {[ "Economy" := mkPref 1 (Iso.midnight 2026 3 1 + 12 * 3600 * 1000000) ]}
     ∧ map a_id (get_unseen_articles misdated) = [2]
     ∧ get_recommendations at_noon 2 misdated = (Raise ValueError, misdated)).
Proof. vm_compute. repeat split; reflexivity. Qed.

(** ** Histories *)

Lemma fresh_id_above (db : Store) (r : Row) : r ∈ db → row_id r < fresh_id db.
Proof.
  unfold fresh_id. induction 1 as [r db|r r' db Hin IH]; simpl; lia.
Qed.

Lemma fresh_id_fresh (db : Store) : fresh_id db ∉ map row_id db.
Proof.
  intros (r & Hid & Hr)%list_elem_of_fmap.
  apply fresh_id_above in Hr. lia.
Qed.

Lemma unique_id (db : Store) (r r' : Row) :
  NoDup (map row_id db) → r ∈ db → r' ∈ db → row_id r = row_id r' → r = r'.
Proof.
  induction db as [|r0 db IH]; intros Hnd Hr Hr' Hid.
  { by apply not_elem_of_nil in Hr. }
  simpl in Hnd. apply NoDup_cons in Hnd as [Hnot Hnd].
  assert (Hmem : ∀ x, x ∈ db → row_id x ≠ row_id r0).
  { intros x Hx Hxid. apply Hnot. rewrite <- Hxid. apply list_elem_of_fmap. eauto. }
  apply elem_of_cons in Hr as [->|Hr], Hr' as [->|Hr']; auto.
  - by destruct (Hmem r' Hr').
  - by destruct (Hmem r Hr).
Qed.

Section histories.
Context `{Calendar}.

Lemma mark_as_recommended_rows (clk : Clock) (articles : list Article) (db : Store) :
  mark_as_recommended clk articles db
  = map (mark_row (isoformat (now clk)) (map a_id articles)) db.
Proof.
  unfold mark_as_recommended. revert db.
  induction articles as [|a articles IH]; intros db; simpl.
  - rewrite <- (map_id db) at 1. apply map_ext. intros r. unfold mark_row.
    rewrite bool_decide_eq_false_2; [done|apply not_elem_of_nil].
  - rewrite IH, map_map. apply map_ext. intros r. unfold mark_row, eq_id.
    destruct (row_id r =? a_id a) eqn:Ha.
    + apply Z.eqb_eq in Ha. simpl.
      rewrite (bool_decide_eq_true_2 (row_id r ∈ a_id a :: _)) by (rewrite Ha; left).
      by case_bool_decide.
    + apply Z.eqb_neq in Ha.
      destruct (decide (row_id r ∈ map a_id articles)) as [Hin|Hin].
      * rewrite !bool_decide_eq_true_2; [done|by right|done].
      * rewrite !bool_decide_eq_false_2; [done| |done].
        intros [?|?]%elem_of_cons; done.
Qed.

Lemma slice_to_sublist {A : Type} (limit : Z) (l : list A) (x : A) :
  x ∈ slice_to limit l → x ∈ l.
Proof.
  unfold slice_to. destruct (0 <=? limit); intros Hx;
    by eapply subseteq_take.
Qed.

(** Nothing is an element of the empty list. *)
Ltac nothing_returned :=
  let Hin := fresh "Hin" in intros Hin; by apply not_elem_of_nil in Hin.

(** What [get_recommendations] returns are candidates. *)
Lemma returned_unseen (o : op) (db : Store) (a : Article) :
  a ∈ returned o db → a ∈ get_unseen_articles db.
Proof.
  destruct o as [| | | | | | |clock limit]; simpl; try nothing_returned.
  unfold get_recommendations.
  destruct (get_topic_preferences db) as [prefs|]; simpl; [|nothing_returned].
  case_bool_decide; simpl; [nothing_returned|].
  destruct (get_unseen_articles db) as [|a0 rest] eqn:Hcand; [nothing_returned|].
  destruct (score_all clock 0 (a0 :: rest) prefs) as [scored|] eqn:Hscored; simpl;
    [|nothing_returned].
  intros ([s a'] & -> & Hin%slice_to_sublist)%list_elem_of_fmap. simpl.
  rewrite sort_desc_perm in Hin.
  destruct (score_all_scored _ _ _ _ _ Hscored) as [<- _].
  apply list_elem_of_fmap. by exists (s, a').
Qed.

Lemma returned_row (o : op) (db : Store) (a : Article) :
  a ∈ returned o db →
  ∃ r, r ∈ db ∧ row_id r = a_id a ∧ active r = true ∧ feedback r = None
       ∧ recommended_at r = None.
Proof.
  intros Hin%returned_unseen. unfold get_unseen_articles in Hin.
  apply list_elem_of_fmap in Hin as (r & -> & [Hr Hin]%list_elem_of_filter).
  apply unseen_iff in Hr as (? & ? & ?). by exists r.
Qed.

Lemma slice_to_sublist_of {A : Type} (limit : Z) (l : list A) :
  slice_to limit l `sublist_of` l.
Proof. unfold slice_to. destruct (0 <=? limit); apply sublist_take. Qed.

(** One call returns no article twice when ids are unique. *)
Lemma returned_NoDup (o : op) (db : Store) :
  NoDup (map row_id db) → NoDup (map a_id (returned o db)).
Proof.
  intros Hnd.
  assert (Hcand : NoDup (map a_id (get_unseen_articles db))).
  { unfold get_unseen_articles. rewrite map_map.
    apply (sublist_NoDup _ (map row_id db)); [done|].
    change (map (λ r, a_id (article_of r))) with (fmap (M := list) row_id).
    apply fmap_sublist, sublist_filter. }
  destruct o as [| | | | | | |clock limit]; simpl; try constructor.
  unfold get_recommendations.
  destruct (get_topic_preferences db) as [prefs|]; simpl; [|constructor].
  case_bool_decide; simpl; [constructor|].
  destruct (get_unseen_articles db) as [|a0 rest] eqn:Hunseen; [constructor|].
  destruct (score_all clock 0 (a0 :: rest) prefs) as [scored|] eqn:Hscored; simpl;
    [|constructor].
  destruct (score_all_scored _ _ _ _ _ Hscored) as [Hsnd _].
  rewrite map_map.
  apply (sublist_NoDup _ (map (λ x, a_id x.2) (sort_desc scored))).
  - rewrite sort_desc_perm. rewrite <- Hsnd, map_map in Hcand. exact Hcand.
  - apply (fmap_sublist (λ x, a_id x.2)), slice_to_sublist_of.
Qed.

(** The table after a call of [get_recommendations]. *)
Lemma recommend_rows (clock : nat → Clock) (limit : Z) (db : Store) :
  (get_recommendations clock limit db).2
  = map (mark_row (isoformat (now (clock (length (get_unseen_articles db)))))
                  (map a_id (returned (Recommend clock limit) db))) db.
Proof.
  assert (Hid : ∀ ts, db = map (mark_row ts []) db).
  { intros ts. rewrite <- (map_id db) at 1. apply map_ext. intros r.
    unfold mark_row. rewrite bool_decide_eq_false_2; [done|apply not_elem_of_nil]. }
  simpl. unfold get_recommendations.
  destruct (get_topic_preferences db) as [prefs|]; simpl; [|apply Hid].
  case_bool_decide; simpl; [apply Hid|].
  destruct (get_unseen_articles db) as [|a0 rest] eqn:Hcand; [apply Hid|].
  destruct (score_all clock 0 (a0 :: rest) prefs) as [scored|]; simpl; [|apply Hid].
  apply mark_as_recommended_rows.
Qed.

(** Every operation rewrites the rows in place, keeping their ids, and
    appends at most one row, under a fresh id.  No rewrite switches
    [active] on, clears [feedback] or clears [recommended_at]; and, ids
    being unique, none changes a [recommended_at] that is set. *)
Lemma run_op_shape (o : op) (db : Store) :
  ∃ (f : Row → Row) (new : list Row),
    run_op o db = map f db ++ new
    ∧ (∀ r, row_id (f r) = row_id r)
    ∧ (∀ r, active r = false → active (f r) = false)
    ∧ (∀ r, feedback r ≠ None → feedback (f r) ≠ None)
    ∧ (∀ r, recommended_at r ≠ None → recommended_at (f r) ≠ None)
    ∧ (NoDup (map row_id db) → ∀ r v, r ∈ db →
         recommended_at r = Some v → recommended_at (f r) = Some v)
    ∧ (∀ n, n ∈ new → row_id n = fresh_id db)
    ∧ (length new ≤ 1)%nat.
Proof.
  assert (Hupd : ∀ payload filt,
    (∀ r, row_id (payload r) = row_id r) →
    (∀ r, active r = false → active (payload r) = false) →
    (∀ r, feedback r ≠ None → feedback (payload r) ≠ None) →
    (∀ r, recommended_at (payload r) = recommended_at r) →
    ∃ (f : Row → Row) (new : list Row),
      (update payload filt db).1 = map f db ++ new
      ∧ (∀ r, row_id (f r) = row_id r)
      ∧ (∀ r, active r = false → active (f r) = false)
      ∧ (∀ r, feedback r ≠ None → feedback (f r) ≠ None)
      ∧ (∀ r, recommended_at r ≠ None → recommended_at (f r) ≠ None)
      ∧ (NoDup (map row_id db) → ∀ r v, r ∈ db →
           recommended_at r = Some v → recommended_at (f r) = Some v)
      ∧ (∀ n, n ∈ new → row_id n = fresh_id db)
      ∧ (length new ≤ 1)%nat).
  { intros payload filt Hi Ha Hf Hr.
    exists (λ r, if filt r then payload r else r), [].
    rewrite app_nil_r. split; [done|].
    split; [intros r; by destruct (filt r)|].
    split; [intros r ?; destruct (filt r); auto|].
    split; [intros r ?; destruct (filt r); auto|].
    split; [intros r ?; destruct (filt r); [rewrite Hr|]; auto|].
    split; [intros _ r v _ Hv; destruct (filt r); [rewrite Hr|]; auto|].
    split; [by intros ? ?%not_elem_of_nil|simpl; lia]. }
  destruct o as [u c|i f t|i t c d|i|i t c|clk i|clk i|clock limit]; simpl;
    try (apply Hupd; done).
  - unfold upsert. destruct (filter _ db) as [|r0 rs]; [|apply Hupd; done].
    exists id, [new_row (fresh_id db) u c]. simpl. rewrite map_id.
    split; [done|]. do 5 (split; [by auto|]).
    split; [by intros n ->%list_elem_of_singleton|simpl; lia].
  - rewrite recommend_rows. eexists _, []. rewrite app_nil_r.
    split; [reflexivity|]. unfold mark_row.
    split; [intros r; by case_bool_decide|].
    split; [intros r ?; by case_bool_decide|].
    split; [intros r ?; by case_bool_decide|].
    split; [intros r ?; by case_bool_decide|].
    split.
    + intros Hnd r v Hr Hv. case_bool_decide as Hin; [|done]. exfalso.
      apply list_elem_of_fmap in Hin as (a & Hid & Ha).
      apply returned_row in Ha as (r' & Hr' & Hid' & _ & _ & Hnone).
      assert (r' = r); [|congruence].
      eapply unique_id; eauto. congruence.
    + split; [by intros ? ?%not_elem_of_nil|simpl; lia].
Qed.

Lemma run_op_ids (o : op) (db : Store) :
  map row_id (run_op o db) = map row_id db
  ∨ map row_id (run_op o db) = map row_id db ++ [fresh_id db].
Proof.
  destruct (run_op_shape o db) as (f & new & -> & Hid & _ & _ & _ & _ & Hnew & Hlen).
  rewrite map_app, map_map, (map_ext _ row_id) by done.
  destruct new as [|n [|? ?]]; simpl in *; [left|right|lia].
  - by rewrite app_nil_r.
  - by rewrite (Hnew n) by left.
Qed.

Lemma run_op_NoDup (o : op) (db : Store) :
  NoDup (map row_id db) → NoDup (map row_id (run_op o db)).
Proof.
  intros Hnd. destruct (run_op_ids o db) as [-> | ->]; [done|].
  apply NoDup_app. split; [done|]. split; [|apply NoDup_singleton].
  intros i Hi ->%list_elem_of_singleton. by apply fresh_id_fresh in Hi.
Qed.

Lemma run_NoDup (ops : list op) (db : Store) :
  NoDup (map row_id db) → NoDup (map row_id (run ops db)).
Proof.
  revert db. induction ops as [|o ops IH]; intros db Hnd; [done|].
  simpl. apply IH. by apply run_op_NoDup.
Qed.

Lemma run_op_all_with (P : Row → Prop) (i : Z) (o : op) (db : Store) :
  (∀ f : Row → Row,
     (∀ r, active r = false → active (f r) = false) →
     (∀ r, feedback r ≠ None → feedback (f r) ≠ None) →
     (∀ r, recommended_at r ≠ None → recommended_at (f r) ≠ None) →
     ∀ r, P r → P (f r)) →
  all_with i P db → all_with i P (run_op o db).
Proof.
  intros Hstable [Hin Hall].
  destruct (run_op_shape o db) as (f & new & -> & Hid & Ha & Hf & Hr & _ & Hnew & _).
  specialize (Hstable f Ha Hf Hr). split.
  - rewrite map_app, map_map, (map_ext _ row_id) by done.
    apply elem_of_app. by left.
  - intros r' [(r & -> & Hin')%list_elem_of_fmap|Hr']%elem_of_app Hi.
    + rewrite Hid in Hi. auto.
    + exfalso. rewrite (Hnew _ Hr') in Hi. subst i.
      by apply fresh_id_fresh in Hin.
Qed.

Lemma run_all_with (P : Row → Prop) (i : Z) (ops : list op) (db : Store) :
  (∀ f : Row → Row,
     (∀ r, active r = false → active (f r) = false) →
     (∀ r, feedback r ≠ None → feedback (f r) ≠ None) →
     (∀ r, recommended_at r ≠ None → recommended_at (f r) ≠ None) →
     ∀ r, P r → P (f r)) →
  all_with i P db → all_with i P (run ops db).
Proof.
  intros Hstable. revert db.
  induction ops as [|o ops IH]; intros db Hall; [done|].
  simpl. apply IH. by apply run_op_all_with.
Qed.

(** A [recommended_at] that is set keeps its value. *)
Lemma run_op_keeps (o : op) (db : Store) (i : Z) (v : string) :
  NoDup (map row_id db) →
  all_with i (λ r, recommended_at r = Some v) db →
  all_with i (λ r, recommended_at r = Some v) (run_op o db).
Proof.
  intros Hnd [Hin Hall].
  destruct (run_op_shape o db) as (f & new & -> & Hid & _ & _ & _ & Hkeep & Hnew & _).
  split.
  - rewrite map_app, map_map, (map_ext _ row_id) by done.
    apply elem_of_app. by left.
  - intros r' [(r & -> & Hin')%list_elem_of_fmap|Hr']%elem_of_app Hi.
    + rewrite Hid in Hi. auto.
    + exfalso. rewrite (Hnew _ Hr') in Hi. subst i.
      by apply fresh_id_fresh in Hin.
Qed.

Lemma run_keeps (ops : list op) (db : Store) (i : Z) (v : string) :
  NoDup (map row_id db) →
  all_with i (λ r, recommended_at r = Some v) db →
  all_with i (λ r, recommended_at r = Some v) (run ops db).
Proof.
  revert db. induction ops as [|o ops IH]; intros db Hnd Hall; [done|].
  simpl. apply IH; [by apply run_op_NoDup|by apply run_op_keeps].
Qed.

(** Positions in a history. *)
Lemma run_app (ops1 ops2 : list op) (db : Store) :
  run (ops1 ++ ops2) db = run ops2 (run ops1 db).
Proof. unfold run. apply foldl_app. Qed.

Lemma before_step (k : nat) (ops : list op) (o : op) (db : Store) :
  ops !! k = Some o → before (S k) ops db = run_op o (before k ops db).
Proof.
  intros Hk. unfold before. rewrite (take_S_r _ _ _ Hk), run_app. done.
Qed.

Lemma before_later (j k : nat) (ops : list op) (db : Store) :
  (j ≤ k)%nat →
  before k ops db = run (take (k - j) (drop j ops)) (before j ops db).
Proof.
  intros Hjk. unfold before. rewrite <- run_app, take_take_drop.
  by replace (j + (k - j))%nat with k by lia.
Qed.

(** C6.  In any history of a table with unique ids: every article a call
    of [get_recommendations] returns has, right after the call,
    [recommended_at] set to the time the call read; an article returned
    by one call is not returned by a later one, nor twice by the same
    call; and a [recommended_at] that is set keeps its value through
    every later operation: it is neither cleared nor set again. *)
Theorem recommended_once (db : Store) (ops : list op) :
  NoDup (map row_id db) →
  (∀ k clock limit a,
     ops !! k = Some (Recommend clock limit) →
     a ∈ returned (Recommend clock limit) (before k ops db) →
     (∃ r, r ∈ before (S k) ops db ∧ row_id r = a_id a)
     ∧ ∀ r, r ∈ before (S k) ops db → row_id r = a_id a →
            recommended_at r
            = Some (isoformat
                      (now (clock (length (get_unseen_articles (before k ops db)))))))
  ∧ (∀ j k oj ok a b,
       (j < k)%nat → ops !! j = Some oj → ops !! k = Some ok →
       a ∈ returned oj (before j ops db) → b ∈ returned ok (before k ops db) →
       a_id a ≠ a_id b)
  ∧ (∀ k o, ops !! k = Some o →
            NoDup (map a_id (returned o (before k ops db))))
  ∧ (∀ j k r r' v,
       (j ≤ k)%nat → r ∈ before j ops db → recommended_at r = Some v →
       r' ∈ before k ops db → row_id r' = row_id r →
       recommended_at r' = Some v).
Proof.
  intros Hnd.
  assert (Hmarked : ∀ k clock limit a,
    ops !! k = Some (Recommend clock limit) →
    a ∈ returned (Recommend clock limit) (before k ops db) →
    all_with (a_id a)
      (λ r, recommended_at r
            = Some (isoformat
                      (now (clock (length (get_unseen_articles (before k ops db)))))))
      (before (S k) ops db)).
  { intros k clock limit a Hk Ha.
    rewrite (before_step _ _ _ _ Hk). simpl. rewrite recommend_rows.
    destruct (returned_row _ _ _ Ha) as (r0 & Hr0 & Hid0 & _).
    assert (Hrow : ∀ ts ids r, row_id (mark_row ts ids r) = row_id r).
    { intros ts ids r. unfold mark_row. by case_bool_decide. }
    split.
    - rewrite map_map. apply list_elem_of_fmap. exists r0.
      by rewrite Hrow.
    - intros r' (r & -> & Hr)%list_elem_of_fmap Hid. rewrite Hrow in Hid.
      unfold mark_row. rewrite bool_decide_eq_true_2; [done|].
      rewrite Hid. apply list_elem_of_fmap. by exists a. }
  split; [|split; [|split]].
  - intros k clock limit a Hk Ha.
    destruct (Hmarked k clock limit a Hk Ha) as [Hin Hall]. split; [|done].
    apply list_elem_of_fmap in Hin as (r & ? & ?). eauto.
  - intros j k oj ok a b Hjk Hj Hk Ha Hb Heq.
    destruct oj as [| | | | | | |clock limit];
      try (by apply not_elem_of_nil in Ha).
    pose proof (Hmarked j clock limit a Hj Ha) as Hall.
    assert (Hset : all_with (a_id a) (λ r, recommended_at r ≠ None)
                            (before (S j) ops db)).
    { destruct Hall as [Hin Hall]. split; [done|].
      intros r Hr Hid. by rewrite (Hall r Hr Hid). }
    rewrite (before_later (S j) k) in Hb by lia.
    eapply (run_all_with _ _ (take (k - S j) (drop (S j) ops))) in Hset; [|by auto].
    destruct (returned_row _ _ _ Hb) as (r & Hr & Hid & _ & _ & Hnone).
    destruct Hset as [_ Hset]. apply (Hset r Hr); congruence.
  - intros k o _. apply returned_NoDup. by apply run_NoDup.
  - intros j k r r' v Hjk Hr Hv Hr' Hid.
    assert (Hndj : NoDup (map row_id (before j ops db))) by (by apply run_NoDup).
    assert (Hall : all_with (row_id r) (λ r, recommended_at r = Some v)
                            (before j ops db)).
    { split; [apply list_elem_of_fmap; eauto|].
      intros r0 Hr0 Hid0. by rewrite (unique_id _ r0 r Hndj Hr0 Hr Hid0). }
    rewrite (before_later j k) in Hr' by done.
    eapply run_keeps in Hall; [|done]. destruct Hall as [_ Hall]. eauto.
Qed.

(** C7.  [handle_thumbs_down] writes [feedback = "down"], the time of the
    call and [active = false] on the rows of the article and touches no
    other row or column; and whatever operations follow, no call of
    [get_recommendations] returns that article. *)
Theorem thumbs_down_hides (clk : Clock) (i : Z) (db : Store) :
  i ∈ map row_id db →
  map row_id (handle_thumbs_down clk i db) = map row_id db
  ∧ (∀ r, r ∈ handle_thumbs_down clk i db → row_id r = i →
          feedback r = Some "down"
          ∧ feedback_at r = Some (isoformat (now clk))
          ∧ active r = false)
  ∧ (∀ r, r ∈ db → row_id r = i →
          set_feedback_down (isoformat (now clk)) r ∈ handle_thumbs_down clk i db)
  ∧ (∀ r, r ∈ db → row_id r ≠ i → r ∈ handle_thumbs_down clk i db)
  ∧ (∀ ops k o a,
       ops !! k = Some o →
       a ∈ returned o (before k ops (handle_thumbs_down clk i db)) →
       a_id a ≠ i).
Proof.
  intros Hin. unfold handle_thumbs_down.
  assert (Hrows : ∀ r', r' ∈ (update (set_feedback_down (isoformat (now clk)))
                                     (eq_id i) db).1 ↔
            ∃ r, r ∈ db ∧ r' = if eq_id i r
                               then set_feedback_down (isoformat (now clk)) r
                               else r) by apply update_elem.
  assert (Heq : ∀ r, eq_id i r = true ↔ row_id r = i).
  { intros r. unfold eq_id. apply Z.eqb_eq. }
  split; [by apply update_ids|]. split; [|split; [|split]].
  - intros r' (r & Hr & ->)%Hrows Hid.
    destruct (eq_id i r) eqn:Hi; [done|].
    apply Heq in Hid. congruence.
  - intros r Hr Hid. apply Hrows. exists r. by rewrite (proj2 (Heq r) Hid).
  - intros r Hr Hid. apply Hrows. exists r. split; [done|].
    destruct (eq_id i r) eqn:Hi; [|done]. by apply Heq in Hi.
  - intros ops k o a Hk Ha Hid.
    assert (Hall : all_with i (λ r, active r = false)
                     (update (set_feedback_down (isoformat (now clk)))
                             (eq_id i) db).1).
    { split; [by rewrite update_ids|].
      intros r' (r & Hr & ->)%Hrows Hi.
      destruct (eq_id i r) eqn:Hir; [done|]. apply Heq in Hi. congruence. }
    eapply (run_all_with _ _ (take k ops)) in Hall; [|by auto].
    destruct (returned_row _ _ _ Ha) as (r & Hr & Hidr & Hact & _).
    destruct Hall as [_ Hall]. unfold before in Hr.
    rewrite (Hall r Hr) in Hact; [done|congruence].
Qed.

End histories.

(** ** The stage runners *)

Lemma claimed_row (others : Store → Store) (from_status to_status : string)
    (db db1 : Store) (article : Row) :
  process_one_article_status others from_status to_status db = (Some article, db1) →
  article ∈ db ∧ status article = from_status
  ∧ ∃ r, r ∈ db1 ∧ row_id r = row_id article ∧ status r = to_status.
Proof.
  unfold process_one_article_status.
  destruct (head (select_status from_status db)) as [a|] eqn:Hhead; [|done].
  unfold update. cbv zeta beta iota.
  destruct (filter _ (others db)) as [|r rs] eqn:Hfilter; [done|].
  simpl. intros [= <- <-].
  apply head_Some_elem_of, list_elem_of_filter in Hhead as [Hs%String.eqb_eq Hin].
  split; [done|]. split; [done|].
  assert (Hr : r ∈ r :: rs) by left. rewrite <- Hfilter in Hr.
  apply list_elem_of_filter in Hr as [[Hi%Z.eqb_eq Hst]%andb_true_iff Hr].
  exists (set_status to_status r). split; [|done].
  apply list_elem_of_fmap. exists r. split; [|done].
  unfold eq_id. by rewrite Hi, Z.eqb_refl, Hst.
Qed.

(** [mark_failed] writes the status of the rows of one article and
    nothing else. *)
Lemma mark_failed_rows (i : Z) (db : Store) :
  map (set_status "") (mark_failed i db) = map (set_status "") db
  ∧ (∀ r, r ∈ mark_failed i db → row_id r = i → status r = "failed")
  ∧ (∀ r, r ∈ db → row_id r ≠ i → r ∈ mark_failed i db).
Proof.
  unfold mark_failed, update. simpl. split; [|split].
  - rewrite map_map. apply map_ext. intros r. by destruct (eq_id i r).
  - intros r' (r & -> & Hr)%list_elem_of_fmap Hid.
    destruct (eq_id i r) eqn:Hi; [done|]. by apply Z.eqb_neq in Hi.
  - intros r Hr Hid. apply list_elem_of_fmap. exists r. split; [|done].
    destruct (eq_id i r) eqn:Hi; [|done]. by apply Z.eqb_eq in Hi.
Qed.

Section loops.
Variable scrape_article : string → result (string * string * option string).
Variable translate_and_summarize :
  option string → option string → result Translation.
Variable classify_article : string → string → result Classification.
Variable bot_send_message : Row → bool → result unit.

Lemma scrape_all_new_articles_loop (db : Store) :
  scrape_all_new_articles scrape_article db
  = match scrape_iteration scrape_article id db with
    | (Break, db') => (Ok (), db')
    | (Continue, db') => scrape_all_new_articles scrape_article db'
    | (Propagate e, db') => (Raise e, db')
    end.
Proof.
  funelim (scrape_all_new_articles scrape_article db);
    match goal with
    | Hit : scrape_iteration _ _ _ = _ |- _ => by rewrite Hit
    end.
Qed.

Lemma process_steps_loop (db : Store) :
  process_steps translate_and_summarize classify_article bot_send_message db
  = match translate_iteration translate_and_summarize classify_article
                              bot_send_message id db with
    | (Break, db') => (Ok (), db')
    | (Continue, db') =>
        process_steps translate_and_summarize classify_article bot_send_message db'
    | (Propagate e, db') => (Raise e, db')
    end.
Proof.
  funelim (process_steps translate_and_summarize classify_article
                         bot_send_message db);
    match goal with
    | Hit : translate_iteration _ _ _ _ _ = _ |- _ => by rewrite Hit
    end.
Qed.

(** One pass through the loop body, with other writers between the read
    and the update of the claim.  When the article is claimed and the
    collaborator of the stage raises a declared error, the pass ends
    normally with the article marked failed: the rows of the article have
    status "failed", no other column of any row and no other row has
    changed since the claim, and the loop goes on with the next claim. *)
Lemma declared_failure_iteration
    (others : Store → Store) (db db1 : Store) (article : Row) (e : exn) :
  declared e = true →
  (process_one_article_status others "new" "scraping" db = (Some article, db1) →
   scrape_article (article_url article) = Raise e →
   scrape_iteration scrape_article others db
   = (Continue, mark_failed (row_id article) db1))
  ∧ (process_one_article_status others "scrapped" "translating" db
     = (Some article, db1) →
     (translate_step translate_and_summarize article = Raise e
      ∨ ∃ translation,
          translate_step translate_and_summarize article = Ok translation
          ∧ classify_step classify_article translation = Raise e) →
     translate_iteration translate_and_summarize classify_article
                         bot_send_message others db
     = (Continue, mark_failed (row_id article) db1))
  ∧ (∀ from_status to_status,
       process_one_article_status others from_status to_status db
       = (Some article, db1) →
       (∃ r, r ∈ mark_failed (row_id article) db1 ∧ row_id r = row_id article)
       ∧ (∀ r, r ∈ mark_failed (row_id article) db1 →
               row_id r = row_id article → status r = "failed")
       ∧ map (set_status "") (mark_failed (row_id article) db1)
         = map (set_status "") db1
       ∧ (∀ r, r ∈ db1 → row_id r ≠ row_id article →
               r ∈ mark_failed (row_id article) db1))
  ∧ (∀ d d', scrape_iteration scrape_article id d = (Continue, d') →
             scrape_all_new_articles scrape_article d
             = scrape_all_new_articles scrape_article d')
  ∧ (∀ d d', translate_iteration translate_and_summarize classify_article
                                 bot_send_message id d = (Continue, d') →
             process_steps translate_and_summarize classify_article
                           bot_send_message d
             = process_steps translate_and_summarize classify_article
                             bot_send_message d').
Proof.
  intros He. split; [|split; [|split; [|split]]].
  - intros Hclaim Hscrape. unfold scrape_iteration.
    by rewrite Hclaim, Hscrape, He.
  - intros Hclaim Hfail. unfold translate_iteration, translate_attempt.
    rewrite Hclaim.
    destruct Hfail as [->|(translation & -> & ->)]; by rewrite He.
  - intros from_status to_status Hclaim.
    destruct (claimed_row _ _ _ _ _ _ Hclaim) as (_ & _ & r & Hr & Hid & _).
    destruct (mark_failed_rows (row_id article) db1) as (Hcols & Hfailed & Hrest).
    split; [|done].
    exists (set_status "failed" r). split; [|done].
    unfold mark_failed, update. simpl. apply list_elem_of_fmap. exists r.
    split; [|done]. unfold eq_id. by rewrite Hid, Z.eqb_refl.
  - intros d d' Hit. by rewrite scrape_all_new_articles_loop, Hit.
  - intros d d' Hit. by rewrite process_steps_loop, Hit.
Qed.

End loops.

(** *** A run of each runner *)

Example scrape_iteration_failed :
  scrape_iteration browser_down id [fresh_article]
  = (Continue, mark_failed 1 [set_status "scraping" fresh_article]).
Proof. vm_compute. reflexivity. Qed.

Example scrape_all_failed :
  scrape_all_new_articles browser_down [fresh_article]
  = (Ok (), [set_status "failed" fresh_article]).
Proof. vm_compute. reflexivity. Qed.

Example scrape_all_scraped :
  scrape_all_new_articles browser_up [fresh_article]
  = (Ok (), [set_scraped "Bahn streicht Zuege" "Die Bahn ..." (Some "2026-03-01")
                         fresh_article]).
Proof. vm_compute. reflexivity. Qed.

Example process_steps_invalid :
  process_steps translator_up classifier_invalid bot_up [scraped_article]
  = (Ok (), [set_status "failed" scraped_article]).
Proof. vm_compute. reflexivity. Qed.

Example process_steps_translated :
  process_steps translator_up classifier_up bot_up [scraped_article]
  = (Ok (), [set_translated "Railway cancels trains" "The railway ..."
                            "Fewer trains." "Economy" "negative" "low"
                            scraped_article]).
Proof. vm_compute. reflexivity. Qed.

(** A bot that raises [RuntimeError] after the translation was saved
    leaves the translated columns in place under status "failed"; the
    notifier is not the collaborator of the stage. *)
Example process_steps_bot_down :
  process_steps translator_up classifier_up bot_down [scraped_article]
  = (Ok (), [set_status "failed"
               (set_translated "Railway cancels trains" "The railway ..."
                               "Fewer trains." "Economy" "negative" "low"
                               scraped_article)]).
Proof. vm_compute. reflexivity. Qed.

(** *** A run of the recommender *)

Example recommend_two :
  (get_recommendations at_noon 2 newsroom).1
  = Ok [article_of (article_row 4 "Economy" "2026-03-02" None None None);
        article_of (article_row 3 "Economy" "2026-02-20" None None None)].
Proof. vm_compute. reflexivity. Qed.

Example recommend_again :
  returned (Recommend at_noon 2) (run [Recommend at_noon 2] newsroom)
  = [article_of (article_row 2 "Sports" "2026-03-02" None None None)]
  ∧ returned (Recommend at_noon 2)
             (run [Recommend at_noon 2; Recommend at_noon 2] newsroom) = [].
Proof. vm_compute. split; reflexivity. Qed.

Example recommend_cold_start :
  get_recommendations at_noon 2 [fresh_article] = (Ok [], [fresh_article]).
Proof. vm_compute. reflexivity. Qed.

Example recommend_negative_limit :
  map a_id (returned (Recommend at_noon (-1)) newsroom) = [4; 3].
Proof. vm_compute. reflexivity. Qed.

Lemma recommended_once_witness :
  NoDup (map row_id newsroom)
  ∧ (∀ j k oj ok a b,
       (j < k)%nat →
       [Recommend at_noon 2; ThumbsUp noon 4; Recommend at_noon 2] !! j = Some oj →
       [Recommend at_noon 2; ThumbsUp noon 4; Recommend at_noon 2] !! k = Some ok →
       a ∈ returned oj
             (before j [Recommend at_noon 2; ThumbsUp noon 4; Recommend at_noon 2]
                     newsroom) →
       b ∈ returned ok
             (before k [Recommend at_noon 2; ThumbsUp noon 4; Recommend at_noon 2]
                     newsroom) →
       a_id a ≠ a_id b).
Proof.
  assert (Hnd : NoDup (map row_id newsroom)).
  { apply (bool_decide_unpack _). vm_compute. exact I. }
  split; [exact Hnd|].
  exact (proj1 (proj2 (recommended_once newsroom
                         [Recommend at_noon 2; ThumbsUp noon 4; Recommend at_noon 2]
                         Hnd))).
Defined.

Lemma thumbs_down_hides_witness :
  2 ∈ map row_id newsroom
  ∧ (∀ r, r ∈ handle_thumbs_down noon 2 newsroom → row_id r = 2 →
          feedback r = Some "down"
          ∧ feedback_at r = Some (isoformat (now noon))
          ∧ active r = false)
  ∧ (∀ ops k o a,
       ops !! k = Some o →
       a ∈ returned o (before k ops (handle_thumbs_down noon 2 newsroom)) →
       a_id a ≠ 2).
Proof.
  assert (Hin : 2 ∈ map row_id newsroom).
  { apply (bool_decide_unpack _). vm_compute. exact I. }
  split; [exact Hin|].
  pose proof (thumbs_down_hides noon 2 newsroom Hin) as (_ & Hset & _ & _ & Hnever).
  split; [exact Hset|exact Hnever].
Defined.

Example thumbs_down_then_recommend :
  map a_id (returned (Recommend at_noon 5) (handle_thumbs_down noon 2 newsroom))
  = [4; 3].
Proof. vm_compute. reflexivity. Qed.

(** *** The ISO calendar on the forms the sources write *)

Example iso_date : date_fromisoformat "2026-03-01" = Some 739676.
Proof. reflexivity. Qed.

Example iso_datetime :
  datetime_fromisoformat "2026-03-01T12:30:00.250000+01:00"
  = Some (mkDatetime ((20513 * 86400 + 45000) * 1000000 + 250000)
                     (Some 3600000000)).
Proof. reflexivity. Qed.

Example iso_print :
  isoformat ((20513 * 86400 + 45000) * 1000000 + 250000)
  = "2026-03-01T12:30:00.250000+00:00".
Proof. reflexivity. Qed.

Example iso_roundtrip :
  instant <$> datetime_fromisoformat (isoformat (now noon)) = Some (now noon).
Proof. vm_compute. reflexivity. Qed.

Example iso_not_a_date : date_fromisoformat "2026-02-30" = None.
Proof. reflexivity. Qed.

(** ** Supporting facts *)

(** *** The ranking is determined

    A list in descending order of score whose elements of each score
    stand in the order of [l] is [sort_desc l]: any stable sort returns
    the same list. *)
Lemma ranked_unique (l1 l2 : list (Z * Article)) :
  StronglySorted by_score_desc l1 → StronglySorted by_score_desc l2 →
  (∀ s, filter (λ x, x.1 = s) l1 = filter (λ x, x.1 = s) l2) →
  l1 = l2.
Proof.
  intros Hs1. revert l2.
  induction Hs1 as [|x t1 Ht1 IH Hx]; intros l2 Hs2 Hf.
  - destruct l2 as [|y t2]; [done|].
    specialize (Hf y.1). rewrite filter_nil, filter_cons, decide_True in Hf by done.
    done.
  - destruct Hs2 as [|y t2 Ht2 Hy].
    { specialize (Hf x.1). rewrite filter_nil, filter_cons, decide_True in Hf by done.
      done. }
    assert (Hxy : x.1 ≤ y.1).
    { pose proof (Hf x.1) as Hfx. rewrite (filter_cons _ x), decide_True in Hfx by done.
      assert (Hin : x ∈ filter (λ z, z.1 = x.1) (y :: t2)) by (rewrite <- Hfx; left).
      apply list_elem_of_filter in Hin as [_ [->|Hin]%elem_of_cons]; [lia|].
      rewrite Forall_forall in Hy. by apply Hy. }
    assert (Hyx : y.1 ≤ x.1).
    { pose proof (Hf y.1) as Hfy.
      rewrite (filter_cons _ y), decide_True in Hfy by done.
      assert (Hin : y ∈ filter (λ z, z.1 = y.1) (x :: t1)) by (rewrite Hfy; left).
      apply list_elem_of_filter in Hin as [_ [->|Hin]%elem_of_cons]; [lia|].
      rewrite Forall_forall in Hx. by apply Hx. }
    assert (x = y) as <-.
    { specialize (Hf x.1). rewrite !filter_cons, !decide_True in Hf by lia.
      congruence. }
    f_equal. apply IH; [done|]. intros s. specialize (Hf s).
    rewrite !filter_cons in Hf. destruct (decide (x.1 = s)); congruence.
Qed.

Lemma sort_desc_unique (l ranked : list (Z * Article)) :
  StronglySorted by_score_desc ranked →
  (∀ s, filter (λ x, x.1 = s) ranked = filter (λ x, x.1 = s) l) →
  ranked = sort_desc l.
Proof.
  intros Hs Hf. apply ranked_unique; [done|apply sort_desc_sorted|].
  intros s. by rewrite sort_desc_stable.
Qed.

(** *** A worker that is not interleaved runs the function *)

Lemma worker_alone (c : Config) (w : nat) (from_status to_status : string) :
  workers c !! w = Some Idle →
  table (exec [Select w from_status to_status 0; Lock w] c)
  = (process_one_article_status id from_status to_status (table c)).2
  ∧ claims (exec [Select w from_status to_status 0; Lock w] c)
    = claims c
      ++ match (process_one_article_status id from_status to_status (table c)).1 with
         | Some article => [mkClaim w from_status to_status article]
         | None => []
         end.
Proof.
  intros Hw. unfold process_one_article_status. simpl. rewrite Hw.
  rewrite <- head_lookup.
  destruct (head (select_status from_status (table c))) as [article|]; simpl.
  - rewrite list_lookup_insert_eq by (by eapply lookup_lt_Some).
    unfold update. cbv zeta beta iota. simpl.
    destruct (filter _ (table c)); simpl; [|done]. by rewrite app_nil_r.
  - rewrite Hw. by rewrite app_nil_r.
Qed.

(** *** The store keeps URLs unique *)

Lemma upsert_keeps_unique (u c : string) (db : Store) :
  NoDup (map article_url db) → NoDup (map article_url (upsert u c db).1).
Proof.
  intros Hnd. unfold upsert.
  destruct (filter _ db) as [|r0 rs] eqn:Hfilter; simpl.
  - rewrite map_app. simpl. apply NoDup_app. split; [done|].
    split; [|apply NoDup_singleton].
    intros x (r & Hx & Hr)%list_elem_of_fmap Hu%list_elem_of_singleton.
    eapply filter_nil_iff; [exact Hfilter|exact Hr|].
    apply eq_url_iff. congruence.
  - unfold update. simpl. rewrite map_map.
    rewrite (map_ext _ article_url); [done|].
    intros r. destruct (eq_url u r) eqn:Hu; [|done]. simpl.
    by apply eq_url_iff in Hu.
Qed.

(** *** Discovery writes categories only *)

Lemma upsert_writes (u c : string) (db : Store) :
  (map forget_category (upsert u c db).1 = map forget_category db
   ∧ u ∈ map article_url db)
  ∨ ((upsert u c db).1 = db ++ [new_row (fresh_id db) u c]
     ∧ (upsert u c db).2 = [new_row (fresh_id db) u c]
     ∧ u ∉ map article_url db).
Proof.
  unfold upsert. destruct (filter _ db) as [|r0 rs] eqn:Hfilter.
  - right. split; [done|]. split; [done|].
    intros (r & -> & Hr)%list_elem_of_fmap.
    eapply filter_nil_iff; [exact Hfilter|exact Hr|]. by apply eq_url_iff.
  - left. split.
    + unfold update. simpl. rewrite map_map. apply map_ext. intros r.
      destruct (eq_url u r) eqn:Hu; [|done]. apply eq_url_iff in Hu.
      unfold forget_category. simpl. by rewrite Hu.
    + assert (Hr : r0 ∈ r0 :: rs) by left. rewrite <- Hfilter in Hr.
      apply list_elem_of_filter in Hr as [Hu%eq_url_iff Hr].
      apply list_elem_of_fmap. eauto.
Qed.

(** [add_new_article] changes no column but [category] of the rows it
    finds, and appends at most one row, which it then returns. *)
Lemma add_new_article_writes (selected_category : string)
    (hrefs : list (option string)) (db : Store) :
  ∃ new,
    map forget_category (add_new_article selected_category hrefs db).2
    = map forget_category (db ++ new)
    ∧ (length new ≤ 1)%nat
    ∧ ∀ n, n ∈ new →
           (add_new_article selected_category hrefs db).1 = Ok (Some n)
           ∧ status n = "new" ∧ category n = Some selected_category.
Proof.
  assert (Hlinks : ∀ hs seen d, ∃ new,
    map forget_category (try_links selected_category hs seen d).2
    = map forget_category (d ++ new)
    ∧ (length new ≤ 1)%nat
    ∧ ∀ n, n ∈ new →
           (try_links selected_category hs seen d).1 = Ok (Some n)
           ∧ status n = "new" ∧ category n = Some selected_category).
  { induction hs as [|[href|] hs IH]; intros seen d; simpl.
    - exists []. rewrite app_nil_r. split; [done|]. split; [simpl; lia|].
      by intros x ?%not_elem_of_nil.
    - destruct (String.eqb href ""); [apply IH|].
      destruct (decide (href ∈ seen)) as [Hseen|Hseen]; [apply IH|].
      destruct (upsert_writes (base_url +:+ href) selected_category d)
        as [[Hsame _]|(Hdb & Hdata & _)].
      + destruct (upsert _ _ d) as [d' data]. simpl in Hsame.
        destruct data as [|row data].
        * exists []. rewrite app_nil_r. split; [done|]. split; [simpl; lia|].
          by intros x ?%not_elem_of_nil.
        * destruct (String.eqb (status row) "new").
          -- exists []. rewrite app_nil_r. split; [done|]. split; [simpl; lia|].
             by intros x ?%not_elem_of_nil.
          -- destruct (IH ({[href]} ∪ seen) d') as (new & Heq & Hlen & Hnew).
             exists new. split; [|done].
             rewrite Heq, !map_app. by rewrite Hsame.
      + destruct (upsert _ _ d) as [d' data]. simpl in Hdb, Hdata. subst d' data.
        simpl. exists [new_row (fresh_id d) (base_url +:+ href) selected_category].
        split; [done|]. split; [simpl; lia|].
        by intros x ->%list_elem_of_singleton.
    - apply IH. }
  unfold add_new_article. destruct hrefs as [|h hs]; [|apply Hlinks].
  exists []. rewrite app_nil_r. split; [done|]. split; [simpl; lia|].
  by intros x ?%not_elem_of_nil.
Qed.

(** *** The loops end drained or by an error they do not catch *)

Lemma claim_alone_none (from_status to_status : string) (db db' : Store) :
  process_one_article_status id from_status to_status db = (None, db') →
  db' = db ∧ select_status from_status db = [].
Proof.
  unfold process_one_article_status.
  destruct (head (select_status from_status db)) as [a|] eqn:Hhead.
  - unfold update. cbv zeta beta iota.
    destruct (filter _ (id db)) as [|r rs] eqn:Hfilter; [|done].
    exfalso. apply head_Some_elem_of, list_elem_of_filter in Hhead as [Hs Hin].
    eapply filter_nil_iff; [exact Hfilter|exact Hin|].
    unfold eq_id. by rewrite Z.eqb_refl, Hs.
  - intros [= <-]. split; [done|]. by destruct (select_status from_status db).
Qed.

Section outcomes.
Variable scrape_article : string → result (string * string * option string).
Variable translate_and_summarize :
  option string → option string → result Translation.
Variable classify_article : string → string → result Classification.
Variable bot_send_message : Row → bool → result unit.

(** X7.  Run alone, [scrape_all_new_articles] either returns, and then no
    row is left in status "new", or re-raises an error that is neither
    [ValidationError] nor [RuntimeError]; ids need not be unique. *)
Lemma scrape_all_new_articles_outcome (db : Store) :
  match scrape_all_new_articles scrape_article db with
  | (Ok _, db') => pending "new" db' = 0%nat
  | (Raise e, _) => declared e = false
  end.
Proof.
  funelim (scrape_all_new_articles scrape_article db); try done;
    match goal with
    | Hit : scrape_iteration _ _ _ = _ |- _ =>
        pose proof Hit as Hiter; clear - Hiter;
        unfold scrape_iteration in Hiter;
        destruct (process_one_article_status id "new" "scraping" db)
          as [[article|] db1] eqn:Hclaim;
        [destruct (scrape_article _) as [[[? ?] ?]|e1]; [done|];
         destruct (declared e1) eqn:He1
        |]; inversion Hiter; subst
    end.
  - apply claim_alone_none in Hclaim as [-> Hnone].
    unfold pending. by rewrite Hnone.
  - done.
Qed.

(** X10.  Run alone, [process_steps] either returns, and then no row is
    left in status "scrapped", or re-raises an error that is neither
    [ValidationError] nor [RuntimeError]; ids need not be unique. *)
Lemma process_steps_outcome (db : Store) :
  match process_steps translate_and_summarize classify_article
                      bot_send_message db with
  | (Ok _, db') => pending "scrapped" db' = 0%nat
  | (Raise e, _) => declared e = false
  end.
Proof.
  funelim (process_steps translate_and_summarize classify_article
                         bot_send_message db); try done;
    match goal with
    | Hit : translate_iteration _ _ _ _ _ = _ |- _ =>
        pose proof Hit as Hiter; clear - Hiter;
        unfold translate_iteration in Hiter;
        destruct (process_one_article_status id "scrapped" "translating" db)
          as [[article|] db1] eqn:Hclaim;
        [destruct (translate_attempt _ _ _ _ _) as [[[]|e1] d]; [done|];
         destruct (declared e1) eqn:He1
        |]; inversion Hiter; subst
    end.
  - apply claim_alone_none in Hclaim as [-> Hnone].
    unfold pending. by rewrite Hnone.
  - done.
Qed.

End outcomes.

(** *** Histories cover the functions

    The table each function of the sources leaves behind is the table
    some history leaves behind; what holds along every history holds
    along every sequence of calls of these functions. *)
Section coverage.
Context `{Calendar}.
Variable scrape_article : string → result (string * string * option string).
Variable translate_and_summarize :
  option string → option string → result Translation.
Variable classify_article : string → string → result Classification.
Variable bot_send_message : Row → bool → result unit.

Lemma add_new_article_history (selected_category : string)
    (hrefs : list (option string)) (db : Store) :
  ∃ ops, (add_new_article selected_category hrefs db).2 = run ops db.
Proof.
  assert (Hlinks : ∀ hs seen d,
            ∃ ops, (try_links selected_category hs seen d).2 = run ops d).
  { induction hs as [|[href|] hs IH]; intros seen d; simpl.
    - by exists [].
    - destruct (String.eqb href ""); [apply IH|].
      destruct (decide (href ∈ seen)) as [Hseen|Hseen]; [apply IH|].
      destruct (upsert (base_url +:+ href) selected_category d)
        as [d' data] eqn:Hup.
      assert (Hd' : d' = run [Upsert (base_url +:+ href) selected_category] d).
      { simpl. by rewrite Hup. }
      destruct data as [|row data]; [by eexists [_]|].
      destruct (String.eqb (status row) "new"); [by eexists [_]|].
      destruct (IH ({[href]} ∪ seen) d') as [ops ->].
      exists (Upsert (base_url +:+ href) selected_category :: ops).
      by rewrite Hd'.
    - apply IH. }
  unfold add_new_article. destruct hrefs; [by exists []|apply Hlinks].
Qed.

Lemma process_one_article_status_history (from_status to_status : string)
    (db : Store) :
  ∃ ops, (process_one_article_status id from_status to_status db).2 = run ops db.
Proof.
  unfold process_one_article_status.
  destruct (head (select_status from_status db)) as [article|]; [|by exists []].
  exists [Cas (row_id article) from_status to_status]. simpl.
  unfold update. cbv zeta beta iota. by destruct (map _ _).
Qed.

Lemma scrape_iteration_history (db : Store) :
  ∃ ops, (scrape_iteration scrape_article id db).2 = run ops db.
Proof.
  unfold scrape_iteration.
  destruct (process_one_article_status_history "new" "scraping" db) as [ops Hops].
  destruct (process_one_article_status id "new" "scraping" db)
    as [[article|] db1]; simpl in Hops; subst db1; [|by exists ops].
  destruct (scrape_article _) as [[[title content] published_date]|e].
  - exists (ops ++ [SaveScrape (row_id article) title content published_date]).
    by rewrite run_app.
  - destruct (declared e); [|by exists ops].
    exists (ops ++ [MarkFailed (row_id article)]). by rewrite run_app.
Qed.

Lemma scrape_all_new_articles_history (db : Store) :
  ∃ ops, (scrape_all_new_articles scrape_article db).2 = run ops db.
Proof.
  funelim (scrape_all_new_articles scrape_article db);
    match goal with
    | Hit : scrape_iteration _ _ _ = _ |- _ =>
        destruct (scrape_iteration_history db) as [ops Hops];
        rewrite Hit in Hops; simpl in Hops; subst
    end; [by eexists| |by eexists].
  match goal with
  | IH : ex _ |- _ => destruct IH as [ops' ->]
  end.
  exists (ops ++ ops'). by rewrite run_app.
Qed.

Lemma translate_iteration_history (db : Store) :
  ∃ ops, (translate_iteration translate_and_summarize classify_article
                              bot_send_message id db).2 = run ops db.
Proof.
  unfold translate_iteration.
  destruct (process_one_article_status_history "scrapped" "translating" db)
    as [ops Hops].
  destruct (process_one_article_status id "scrapped" "translating" db)
    as [[article|] db1]; simpl in Hops; subst db1; [|by exists ops].
  assert (Hattempt : ∃ ops',
    (translate_attempt translate_and_summarize classify_article
                       bot_send_message article (run ops db)).2
    = run (ops ++ ops') db).
  { unfold translate_attempt.
    destruct (translate_step _ _) as [t|]; [|exists []; by rewrite app_nil_r].
    destruct (classify_step _ _) as [c|]; [|exists []; by rewrite app_nil_r].
    exists [SaveTranslation (row_id article) t c]. rewrite run_app.
    by destruct (filter _ _) as [|? [|? ?]]. }
  destruct Hattempt as [ops' Hops'].
  destruct (translate_attempt _ _ _ _ _) as [[[]|e] d]; simpl in Hops'; subst d.
  - by eexists.
  - destruct (declared e); [|by eexists].
    exists ((ops ++ ops') ++ [MarkFailed (row_id article)]).
    by rewrite (run_app (ops ++ ops')).
Qed.

Lemma process_steps_history (db : Store) :
  ∃ ops, (process_steps translate_and_summarize classify_article
                        bot_send_message db).2 = run ops db.
Proof.
  funelim (process_steps translate_and_summarize classify_article
                         bot_send_message db);
    match goal with
    | Hit : translate_iteration _ _ _ _ _ = _ |- _ =>
        destruct (translate_iteration_history db) as [ops Hops];
        rewrite Hit in Hops; simpl in Hops; subst
    end; [by eexists| |by eexists].
  match goal with
  | IH : ex _ |- _ => destruct IH as [ops' ->]
  end.
  exists (ops ++ ops'). by rewrite run_app.
Qed.

Lemma feedback_history (clk : Clock) (i : Z) (db : Store) :
  handle_thumbs_up clk i db = run [ThumbsUp clk i] db
  ∧ handle_thumbs_down clk i db = run [ThumbsDown clk i] db.
Proof. done. Qed.

Lemma get_recommendations_history (clock : nat → Clock) (limit : Z) (db : Store) :
  (get_recommendations clock limit db).2 = run [Recommend clock limit] db
  ∧ ∀ recommendations,
      (get_recommendations clock limit db).1 = Ok recommendations →
      recommendations = returned (Recommend clock limit) db.
Proof. split; [done|]. intros recommendations Hr. simpl. by rewrite Hr. Qed.

End coverage.

(** ** The theorems at work on the worked data *)

(** The other worker's whole claim runs between the two store calls. *)
Lemma process_one_article_status_returns_witness :
  head (select_status "new" [fresh_article]) = Some fresh_article
  ∧ process_one_article_status
      (λ db, (process_one_article_status id "new" "scraping" db).2)
      "new" "scraping" [fresh_article]
    = (None, [set_status "scraping" fresh_article]).
Proof.
  split; [reflexivity|].
  exact (proj1 (proj2 (process_one_article_status_returns
                         (λ db, (process_one_article_status id "new" "scraping" db).2)
                         "new" "scraping" [fresh_article])
                      fresh_article eq_refl)
               eq_refl).
Defined.

Lemma score_article_terms_witness :
  score_article noon economy_today likes_economy = Ok 13
  ∧ score_article noon sports_today likes_economy = Ok 3.
Proof.
  split.
  - exact (proj1 (proj2 (proj2 (score_article_terms noon economy_today likes_economy)))
                 "Economy" (mkPref 2 (now noon - microseconds_per_day)) "2026-03-02"
                 eq_refl ltac:(discriminate) eq_refl eq_refl eq_refl
                 eq_refl ltac:(discriminate) eq_refl).
  - exact (proj2 (proj2 (proj2 (score_article_terms noon sports_today likes_economy)))
                 "Sports" "2026-03-02T06:15:00+00:00"
                 eq_refl eq_refl eq_refl ltac:(discriminate) eq_refl).
Defined.

Lemma score_article_defensive_witness :
  (∀ topic pref, likes_economy !! topic = Some pref → 0 ≤ count pref)
  ∧ (∀ v, score_article noon economy_today likes_economy = Ok v → 0 ≤ v)
  ∧ score_article noon (mkArticle 9 None "u" (Some "") None) likes_economy = Ok 0.
Proof.
  assert (Hcounts : ∀ topic pref,
            likes_economy !! topic = Some pref → 0 ≤ count pref).
  { intros topic pref Hp. unfold likes_economy in Hp.
    apply lookup_singleton_Some in Hp as [_ <-]. simpl. lia. }
  split; [exact Hcounts|]. split.
  - exact (proj2 (proj2 (proj2 (proj2
             (score_article_defensive noon economy_today likes_economy))))
           Hcounts).
  - exact (proj1 (proj2 (proj2
             (score_article_defensive noon (mkArticle 9 None "u" (Some "") None)
                                      likes_economy)))
           (or_intror (or_introl eq_refl)) (or_introl eq_refl)).
Defined.

Lemma get_topic_preferences_profile_witness :
  get_topic_preferences feedback_table
  = Ok {[ "Economy" := mkPref 2 (Iso.midnight 2026 3 1 + 11 * 3600 * 1000000);
          "Health" := mkPref 1 (Iso.midnight 2026 2 20 + 10 * 3600 * 1000000) ]}
  ∧ length (filter (λ r, contributes r = true ∧ topic r = Some "Economy")
                   feedback_table) = 2%nat
  ∧ filter (λ r, contributes r = true ∧ topic r = Some "Sports") feedback_table = [].
Proof.
  assert (Hprefs : get_topic_preferences feedback_table
    = Ok {[ "Economy" := mkPref 2 (Iso.midnight 2026 3 1 + 11 * 3600 * 1000000);
            "Health" := mkPref 1 (Iso.midnight 2026 2 20 + 10 * 3600 * 1000000) ]}).
  { vm_compute. reflexivity. }
  split; [exact Hprefs|].
  pose proof (proj1 (proj2 (proj2 (get_topic_preferences_profile feedback_table)))
                _ Hprefs) as Hprofile.
  split.
  - pose proof (Hprofile "Economy") as Heconomy. cbv zeta in Heconomy.
    rewrite lookup_insert_eq in Heconomy. destruct Heconomy as [Hcount _].
    apply Nat2Z.inj. by rewrite <- Hcount.
  - pose proof (Hprofile "Sports") as Hsports. cbv zeta in Hsports.
    rewrite lookup_insert_ne, lookup_singleton_ne in Hsports by done.
    exact Hsports.
Defined.

Lemma get_recommendations_ranked_witness :
  ∃ scored ranked,
    map snd scored = get_unseen_articles newsroom
    ∧ ranked ≡ₚ scored
    ∧ StronglySorted (λ x y, y.1 ≤ x.1) ranked
    ∧ (get_recommendations at_noon 2 newsroom).1
      = Ok (map snd (take 2 ranked)).
Proof.
  assert (Hprefs : get_topic_preferences newsroom
                   = Ok {[ "Economy" := mkPref 1 (Iso.midnight 2026 3 1
                                                  + 12 * 3600 * 1000000) ]}).
  { vm_compute. reflexivity. }
  destruct (proj2 (proj2 (proj2 (proj2 (proj2
              (get_recommendations_ranked at_noon 2 newsroom)))))
              _ Hprefs)
    as (scored & ranked & Hsnd & _ & Hperm & Hsorted & _ & Hfirst & _).
  - intros Hempty. apply (f_equal (λ m, m !! "Economy")) in Hempty.
    by rewrite lookup_singleton_eq, lookup_empty in Hempty.
  - discriminate.
  - intros [|[|[|k]]] a Hk; try discriminate; injection Hk as <-;
      eexists; vm_compute; reflexivity.
  - exists scored, ranked. split; [exact Hsnd|]. split; [exact Hperm|].
    split; [exact Hsorted|]. apply Hfirst. lia.
Defined.

(** *** Decay and freshness at their bounds *)

Section bounds.
Context `{Calendar}.

(** An article without a published date, of a liked topic: the like
    stops counting for recency after five days and counts 5 on the day
    itself. *)
Lemma recency_bounds (clk : Clock) (article : Article) (topic : string)
    (pref : TopicPreference) (topic_prefs : gmap string TopicPreference) :
  a_topic article = Some topic → topic ≠ "" →
  topic_prefs !! topic = Some pref →
  a_published_date article = None →
  (5 ≤ timedelta_days (now clk - latest pref) →
   score_article clk article topic_prefs = Ok (count pref * 3))
  ∧ (timedelta_days (now clk - latest pref) = 0 →
     score_article clk article topic_prefs = Ok (count pref * 3 + 5)).
Proof.
  intros Ht Hne%truthy_Some Hp Hd. unfold score_article.
  rewrite Ht, Hne, Hp, Hd. split; intros Hdays; f_equal; lia.
Qed.

(** An article of no liked topic: freshness stops counting after three
    days and counts 3 on the day of publication. *)
Lemma freshness_bounds (clk : Clock) (article : Article)
    (published_date : string) (created_date : Z) :
  a_topic article = None →
  a_published_date article = Some published_date → published_date ≠ "" →
  date_fromisoformat (substring 0 10 published_date) = Some created_date →
  (3 ≤ today clk - created_date → score_article clk article ∅ = Ok 0)
  ∧ (today clk - created_date = 0 → score_article clk article ∅ = Ok 3).
Proof.
  intros Ht Hd Hne%truthy_Some Hp. unfold score_article.
  rewrite Ht, Hd, Hne, Hp. split; intros Hdays; f_equal; lia.
Qed.

(** X16.  One more like of the article's topic, the latest like being the
    same, raises the score by exactly 3. *)
Lemma frequency_step (clk : Clock) (article : Article) (topic : string)
    (pref : TopicPreference) (topic_prefs : gmap string TopicPreference) (v : Z) :
  a_topic article = Some topic → topic ≠ "" →
  topic_prefs !! topic = Some pref →
  score_article clk article topic_prefs = Ok v →
  score_article clk article
    (<[topic := mkPref (count pref + 1) (latest pref)]> topic_prefs)
  = Ok (v + 3).
Proof.
  intros Ht Hne%truthy_Some Hp. unfold score_article.
  rewrite Ht, Hne, Hp, lookup_insert_eq. simpl.
  destruct (a_published_date article) as [d|]; [|intros [= <-]; f_equal; lia].
  destruct (truthy (Some d)); [|intros [= <-]; f_equal; lia].
  destruct (date_fromisoformat _); [|done]. intros [= <-]. f_equal. lia.
Qed.

End bounds.

(** * Further properties of the sources *)

(** ** Worked text *)

(** A space, no whitespace, U+00A0 and U+200A. *)
Example space_widths :
  map Str.space_width
      [" x"; "x"; String "194" (String "160" "x");
       String "226" (String "128" (String "138" ""))]
  = [1; 0; 2; 3]%nat.
Proof. reflexivity. Qed.

Example strip_text : Str.strip (" a  b " +:+ Str.LF) = "a  b".
Proof. reflexivity. Qed.

Example split_text :
  Str.split "  01.03.2026 12:00  x" = ["01.03.2026"; "12:00"; "x"].
Proof. reflexivity. Qed.

Example split_on_colon :
  Str.split_on ":" "feedback:up:12" = ["feedback"; "up"; "12"].
Proof. reflexivity. Qed.

Example split_on_empty_fields : Str.split_on ":" "a::" = ["a"; ""; ""].
Proof. reflexivity. Qed.

Example replace_markers :
  Str.replace "Uhr" "" (Str.replace "Stand:" "" "Stand: 01.03.2026 12:00 Uhr")
  = " 01.03.2026 12:00 ".
Proof. reflexivity. Qed.

Example replace_leftmost : Str.replace "aa" "b" "aaa aaaa" = "ba bb".
Proof. reflexivity. Qed.

Example strptime_dmy : strptime_date "1.3.2026" "%d.%m.%Y" = Some 739676.
Proof. reflexivity. Qed.

Example strptime_no_date : strptime_date "31.02.2026" "%d.%m.%Y" = None.
Proof. reflexivity. Qed.

Example date_isoformat_text : date_isoformat 739676 = "2026-03-01".
Proof. reflexivity. Qed.

Example int_text : int "-12" = Some (-12).
Proof. reflexivity. Qed.

(** ** Recommendations: errors, candidates, exhaustion *)

Section recommending.
Context `{Calendar}.

Lemma score_article_error (clk : Clock) (article : Article)
    (prefs : gmap string TopicPreference) (e : exn) :
  score_article clk article prefs = Raise e → e = ValueError.
Proof.
  unfold score_article.
  destruct (a_published_date article) as [d|]; [|done].
  destruct (truthy (Some d)); [|done].
  destruct (date_fromisoformat _); [done|]. by intros [= <-].
Qed.

Lemma score_all_error (clock : nat → Clock) (n : nat) (candidates : list Article)
    (prefs : gmap string TopicPreference) (e : exn) :
  score_all clock n candidates prefs = Raise e → e = ValueError.
Proof.
  revert n. induction candidates as [|a rest IH]; intros n; simpl; [done|].
  destruct (score_article (clock n) a prefs) as [s|e1] eqn:Hs; simpl.
  - destruct (score_all clock (S n) rest prefs) as [scored|e2] eqn:Hrest; simpl; [done|].
    intros [= <-]. by eapply IH.
  - intros [= <-]. by eapply score_article_error.
Qed.

Lemma score_article_cause (clk : Clock) (article : Article)
    (prefs : gmap string TopicPreference) (e : exn) :
  score_article clk article prefs = Raise e →
  ∃ d, a_published_date article = Some d ∧ d ≠ ""
       ∧ date_fromisoformat (substring 0 10 d) = None.
Proof.
  unfold score_article.
  destruct (a_published_date article) as [d|]; [|done].
  destruct (truthy (Some d)) eqn:Hd; [|done].
  destruct (date_fromisoformat _) eqn:Hparse; [done|]. intros _.
  exists d. split; [done|]. split; [|done]. by apply truthy_Some.
Qed.

Lemma score_all_cause (clock : nat → Clock) (n : nat) (candidates : list Article)
    (prefs : gmap string TopicPreference) (e : exn) :
  score_all clock n candidates prefs = Raise e →
  ∃ a d, a ∈ candidates ∧ a_published_date a = Some d ∧ d ≠ ""
         ∧ date_fromisoformat (substring 0 10 d) = None.
Proof.
  revert n. induction candidates as [|a rest IH]; intros n; simpl; [done|].
  destruct (score_article (clock n) a prefs) as [s|e1] eqn:Hs; simpl.
  - destruct (score_all clock (S n) rest prefs) as [scored|e2] eqn:Hrest; simpl; [done|].
    intros [= <-]. destruct (IH _ Hrest) as (a' & d & Ha' & Hd). exists a', d.
    split; [by right|done].
  - intros _. apply score_article_cause in Hs as (d & Hd). exists a, d.
    split; [left|done].
Qed.

Lemma get_recommendations_error (clock : nat → Clock) (limit : Z) (db : Store)
    (e : exn) :
  (get_recommendations clock limit db).1 = Raise e →
  e = ValueError ∧ (get_recommendations clock limit db).2 = db.
Proof.
  unfold get_recommendations.
  destruct (get_topic_preferences db) as [prefs|e1] eqn:Hprefs; simpl.
  - case_bool_decide; [done|].
    destruct (get_unseen_articles db) as [|a0 rest]; [done|].
    destruct (score_all clock 0 (a0 :: rest) prefs) as [scored|e2] eqn:Hscored;
      simpl; [done|].
    intros [= <-]. split; [|done]. by eapply score_all_error.
  - intros [= <-]. split; [|done].
    unfold get_topic_preferences in Hprefs.
    by apply add_likes_raises in Hprefs as [-> _].
Qed.

(** X11.  [get_recommendations] raises nothing but [ValueError], and when
    it raises it has written nothing: no article is marked.  It raises
    because a liked, counted row carries a feedback timestamp that does
    not parse, or because a candidate has a published date that is not
    empty and does not start with an ISO date. *)
Theorem get_recommendations_raises (clock : nat → Clock) (limit : Z) (db : Store)
    (e : exn) :
  (get_recommendations clock limit db).1 = Raise e →
  e = ValueError ∧ (get_recommendations clock limit db).2 = db
  ∧ ((∃ r, r ∈ db ∧ contributes r = true ∧ like_instant r = None)
     ∨ (∃ a d, a ∈ get_unseen_articles db ∧ a_published_date a = Some d ∧ d ≠ ""
               ∧ date_fromisoformat (substring 0 10 d) = None)).
Proof.
  intros He. destruct (get_recommendations_error _ _ _ _ He) as [-> Hdb].
  split; [done|]. split; [done|]. revert He. unfold get_recommendations.
  destruct (get_topic_preferences db) as [prefs|e1] eqn:Hprefs; simpl.
  - case_bool_decide; [done|].
    destruct (get_unseen_articles db) as [|a0 rest]; [done|].
    destruct (score_all clock 0 (a0 :: rest) prefs) as [scored|e2] eqn:Hscored;
      simpl; [done|].
    intros _. right. by eapply score_all_cause.
  - intros _. left. unfold get_topic_preferences in Hprefs.
    apply add_likes_raises in Hprefs as [_ (r & Hr & Hc & Hl)].
    apply list_elem_of_filter in Hr as [Hliked Hr].
    exists r. split; [done|]. split; [|done]. unfold contributes.
    by rewrite Hliked, Hc.
Qed.

Lemma mark_row_liked (ts : string) (ids : list Z) (r : Row) :
  liked (mark_row ts ids r) = liked r
  ∧ topic (mark_row ts ids r) = topic r
  ∧ feedback_at (mark_row ts ids r) = feedback_at r.
Proof. unfold mark_row. by case_bool_decide. Qed.

Lemma filter_map_commute {A : Type} (P Q : A → Prop) (f : A → A)
    `{∀ x, Decision (P x)} `{∀ x, Decision (Q x)} (l : list A) :
  (∀ x, P (f x) ↔ Q x) → (∀ x, Q x → f x = x) →
  filter P (map f l) = filter Q l.
Proof.
  intros HPQ Hf. induction l as [|x l IH]; [done|]. simpl.
  rewrite !filter_cons. pose proof (HPQ x) as Hx.
  destruct (decide (P (f x))), (decide (Q x)); try tauto.
  by rewrite IH, Hf.
Qed.

Lemma add_likes_ext (rows rows' : list Row) (prefs : gmap string TopicPreference) :
  Forall2 (λ r r', topic r' = topic r ∧ feedback_at r' = feedback_at r) rows rows' →
  add_likes rows' prefs = add_likes rows prefs.
Proof.
  intros Hrows. revert prefs.
  induction Hrows as [|r r' rows rows' [Ht Hf] _ IH]; intros prefs; [done|].
  simpl. assert (add_like prefs r' = add_like prefs r) as ->.
  { unfold add_like. by rewrite Ht, Hf. }
  destruct (add_like prefs r); simpl; [apply IH|done].
Qed.

Lemma get_topic_preferences_marked (ts : string) (ids : list Z) (db : Store) :
  get_topic_preferences (map (mark_row ts ids) db) = get_topic_preferences db.
Proof.
  unfold get_topic_preferences. apply add_likes_ext.
  induction db as [|r db IH]; [constructor|]. simpl.
  destruct (mark_row_liked ts ids r) as (Hl & Ht & Hf).
  rewrite !filter_cons. rewrite Hl.
  destruct (decide (liked r = true)); [|done].
  by constructor.
Qed.

Lemma get_unseen_articles_marked (ts : string) (ids : list Z) (db : Store) :
  get_unseen_articles (map (mark_row ts ids) db)
  = filter (λ a, a_id a ∉ ids) (get_unseen_articles db).
Proof.
  unfold get_unseen_articles.
  induction db as [|r db IH]; [done|]. simpl.
  rewrite !filter_cons.
  destruct (decide (row_id r ∈ ids)) as [Hin|Hin].
  - assert (Hm : mark_row ts ids r = set_recommended_at ts r).
    { unfold mark_row. by rewrite bool_decide_eq_true_2. }
    rewrite Hm, decide_False.
    2:{ unfold unseen. simpl. by rewrite andb_false_r. }
    rewrite IH. destruct (decide (unseen r = true)); [|done].
    simpl. rewrite filter_cons. by rewrite decide_False by (simpl; tauto).
  - assert (Hm : mark_row ts ids r = r).
    { unfold mark_row. by rewrite bool_decide_eq_false_2. }
    rewrite Hm. destruct (decide (unseen r = true)); [|done]. simpl.
    by rewrite filter_cons, decide_True, IH by done.
Qed.

(** X12.  What a call of [get_recommendations] leaves behind: the
    candidates of the next call are the candidates of this one without
    the articles it returned; the preference profile is the same; no
    column but [recommended_at] has changed; every article returned was a
    candidate; and for a [limit] that is not negative at most [limit]
    articles are returned. *)
Theorem get_recommendations_consumes (clock : nat → Clock) (limit : Z) (db : Store) :
  let recommendations := returned (Recommend clock limit) db in
  let db' := (get_recommendations clock limit db).2 in
  get_unseen_articles db'
  = filter (λ a, a_id a ∉ map a_id recommendations) (get_unseen_articles db)
  ∧ get_topic_preferences db' = get_topic_preferences db
  ∧ map (set_recommended_at "") db' = map (set_recommended_at "") db
  ∧ (∀ a, a ∈ recommendations → a ∈ get_unseen_articles db)
  ∧ (0 ≤ limit → Z.of_nat (length recommendations) ≤ limit).
Proof.
  intros recommendations db'. subst db'. rewrite recommend_rows.
  fold recommendations.
  split; [apply get_unseen_articles_marked|].
  split; [apply get_topic_preferences_marked|].
  split.
  { rewrite map_map. apply map_ext. intros r. unfold mark_row.
    by case_bool_decide. }
  split; [intros a; apply returned_unseen|].
  subst recommendations. simpl. unfold get_recommendations.
  destruct (get_topic_preferences db) as [prefs|]; simpl; [|lia].
  case_bool_decide; simpl; [lia|].
  destruct (get_unseen_articles db) as [|a0 rest] eqn:Hcand; [simpl; lia|].
  destruct (score_all clock 0 (a0 :: rest) prefs) as [scored|]; simpl; [|lia].
  intros Hlimit. rewrite length_map. unfold slice_to.
  rewrite (proj2 (Z.leb_le 0 limit)) by done.
  rewrite length_take. lia.
Qed.

(** X13.  A call of [get_recommendations] whose [limit] covers all the
    candidates and which returns some article returns every candidate,
    and the next call, with any clock and limit, returns the empty list
    and writes nothing. *)
Theorem recommendations_run_out (clock clock' : nat → Clock) (limit limit' : Z)
    (db : Store) (recommendations : list Article) :
  Z.of_nat (length (get_unseen_articles db)) ≤ limit →
  (get_recommendations clock limit db).1 = Ok recommendations →
  recommendations ≠ [] →
  recommendations ≡ₚ get_unseen_articles db
  ∧ get_recommendations clock' limit' (get_recommendations clock limit db).2
    = (Ok [], (get_recommendations clock limit db).2).
Proof.
  intros Hlimit Hrecs Hne.
  assert (Hret : returned (Recommend clock limit) db = recommendations).
  { simpl. by rewrite Hrecs. }
  assert (Hperm : recommendations ≡ₚ get_unseen_articles db
                  ∧ ∃ prefs, get_topic_preferences db = Ok prefs ∧ prefs ≠ ∅).
  { revert Hrecs. unfold get_recommendations.
    destruct (get_topic_preferences db) as [prefs|]; simpl; [|done].
    case_bool_decide as Hempty; simpl; [by intros [= <-]|].
    destruct (get_unseen_articles db) as [|a0 rest] eqn:Hcand; [by intros [= <-]|].
    destruct (score_all clock 0 (a0 :: rest) prefs) as [scored|] eqn:Hscored;
      simpl; [|done].
    intros [= <-]. split; [|by exists prefs].
    apply score_all_scored in Hscored as [Hsnd _].
    unfold slice_to. assert ((0 <=? limit) = true) as -> by (apply Z.leb_le; lia).
    rewrite take_ge.
    - rewrite <- Hsnd. by rewrite sort_desc_perm.
    - rewrite sort_desc_perm. rewrite <- (length_map snd), Hsnd.
      simpl in *. lia. }
  destruct Hperm as [Hperm (prefs & Hprefs & Hempty)]. split; [done|].
  rewrite recommend_rows, Hret. unfold get_recommendations at 1.
  rewrite get_topic_preferences_marked, Hprefs.
  rewrite bool_decide_eq_false_2 by done.
  rewrite get_unseen_articles_marked.
  assert (filter (λ a, a_id a ∉ map a_id recommendations) (get_unseen_articles db)
          = []) as ->; [|done].
  apply filter_nil_iff. intros a Ha Hnot. apply Hnot.
  apply list_elem_of_fmap. exists a. split; [done|]. by rewrite Hperm.
Qed.

(** X14.  In a profile [get_topic_preferences] returns the empty topic is
    no key and every count is at least 1.  Scored against such a profile
    no article scores below 0, and an article whose topic is a key scores
    at least 3. *)
Theorem liked_topics_score (db : Store) (prefs : gmap string TopicPreference) :
  get_topic_preferences db = Ok prefs →
  prefs !! "" = None
  ∧ (∀ t pref, prefs !! t = Some pref → 1 ≤ count pref)
  ∧ (∀ clk article v,
       score_article clk article prefs = Ok v →
       0 ≤ v
       ∧ (∀ t, a_topic article = Some t → is_Some (prefs !! t) → 3 ≤ v)).
Proof.
  intros Hprefs. unfold get_topic_preferences in Hprefs.
  apply add_likes_profile in Hprefs.
  assert (Hcount : ∀ t pref, prefs !! t = Some pref → 1 ≤ count pref).
  { intros t pref Ht. specialize (Hprefs t). rewrite Ht in Hprefs.
    destruct Hprefs as (Hc & Hne & _). rewrite Hc.
    destruct (filter _ _); [done|]. simpl. lia. }
  assert (Hkey : prefs !! "" = None).
  { specialize (Hprefs ""). destruct (prefs !! "") as [pref|]; [|done].
    destruct Hprefs as (_ & Hne & _). exfalso. apply Hne.
    apply filter_nil_iff. intros r _ [Hc Ht]. unfold counted in Hc.
    rewrite Ht, truthy_empty in Hc. done. }
  split; [done|]. split; [done|].
  intros clk article v. unfold score_article.
  assert (Hscore : ∀ base : Z,
    match a_published_date article with
    | Some published_date =>
        if truthy (Some published_date)
        then match date_fromisoformat (substring 0 10 published_date) with
             | Some created_date =>
                 Ok (base + Z.max 0 (3 - (today clk - created_date)))
             | None => Raise ValueError
             end
        else Ok base
    | None => Ok base
    end = Ok v → base ≤ v).
  { intros base. destruct (a_published_date article) as [d|]; [|intros [= <-]; lia].
    destruct (truthy (Some d)); [|intros [= <-]; lia].
    destruct (date_fromisoformat _); [|done]. intros [= <-]. lia. }
  destruct (a_topic article) as [t|] eqn:Ht.
  - destruct (truthy (Some t)) eqn:Htruthy.
    + destruct (prefs !! t) as [pref|] eqn:Hpref.
      * intros Hv%Hscore. specialize (Hcount _ _ Hpref). split; [lia|].
        intros t' [= <-] _. lia.
      * intros Hv%Hscore. split; [lia|]. intros t' [= <-] [? ?]. congruence.
    + intros Hv%Hscore. split; [lia|]. intros t' [= <-] [pref Hpref].
      assert (t = "") as ->.
      { destruct (decide (t = "")) as [|Hne]; [done|].
        apply truthy_Some in Hne. congruence. }
      congruence.
  - intros Hv%Hscore. split; [lia|]. done.
Qed.

End recommending.

(** ** Feedback *)

Section feedback_facts.
Context `{Calendar}.

Lemma eq_id_iff (i : Z) (r : Row) : eq_id i r = true ↔ row_id r = i.
Proof. unfold eq_id. apply Z.eqb_eq. Qed.

(** X18.  A thumbs-up counts in the profile.  After [handle_thumbs_up] on
    an active article with a topic that is not empty, if the timestamp the
    call wrote parses back to the instant of the call, then any profile
    [get_topic_preferences] returns has the topic of the article as a
    key, with a count of at least 1 and a latest like not before the
    call. *)
Theorem thumbs_up_counts (clk : Clock) (i : Z) (db : Store) (r : Row) (t : string)
    (ts : datetime) (prefs : gmap string TopicPreference) :
  r ∈ db → row_id r = i → active r = true → topic r = Some t → t ≠ "" →
  isoformat (now clk) ≠ "" →
  datetime_fromisoformat (isoformat (now clk)) = Some ts → instant ts = now clk →
  get_topic_preferences (handle_thumbs_up clk i db) = Ok prefs →
  ∃ pref, prefs !! t = Some pref ∧ 1 ≤ count pref ∧ now clk ≤ latest pref.
Proof.
  intros Hr Hi Hact Ht Hne Hiso Hparse Hinstant Hprefs.
  set (r' := set_feedback_up (isoformat (now clk)) r).
  assert (Hr' : r' ∈ handle_thumbs_up clk i db).
  { unfold handle_thumbs_up. apply update_elem. exists r. split; [done|].
    by rewrite (proj2 (eq_id_iff i r) Hi). }
  assert (Hliked : liked r' = true).
  { unfold liked. simpl. by rewrite Hact. }
  assert (Hcounted : counted r' = true).
  { unfold counted. simpl. rewrite Ht.
    by rewrite (proj2 (truthy_Some t) Hne), (proj2 (truthy_Some _) Hiso). }
  assert (Hlike : like_instant r' = Some (now clk)).
  { unfold like_instant. simpl. rewrite Hparse. simpl. by rewrite Hinstant. }
  unfold get_topic_preferences in Hprefs. apply add_likes_profile in Hprefs.
  specialize (Hprefs t).
  assert (Hin : r' ∈ filter (λ r, counted r = true ∧ topic r = Some t)
                       (filter (λ r, liked r = true) (handle_thumbs_up clk i db))).
  { apply list_elem_of_filter. split; [done|]. by apply list_elem_of_filter. }
  destruct (prefs !! t) as [pref|].
  - exists pref. split; [done|]. destruct Hprefs as (Hc & _ & _ & Hmax).
    split; [|by apply (Hmax r')].
    rewrite Hc. destruct (filter _ _); [by apply not_elem_of_nil in Hin|]. simpl. lia.
  - simpl in Hprefs. rewrite Hprefs in Hin. by apply not_elem_of_nil in Hin.
Qed.

Lemma unseen_sticky (f : Row → Row) :
  (∀ r, active r = false → active (f r) = false) →
  (∀ r, feedback r ≠ None → feedback (f r) ≠ None) →
  (∀ r, recommended_at r ≠ None → recommended_at (f r) ≠ None) →
  ∀ r, unseen r = false → unseen (f r) = false.
Proof.
  intros Hact Hfb Hrec r. unfold unseen.
  destruct (active r) eqn:Ha; simpl.
  - destruct (decide (feedback r = None)) as [Hf|Hf].
    + rewrite (bool_decide_eq_true_2 _ Hf). simpl.
      intros Hr%bool_decide_eq_false. apply Hrec in Hr.
      rewrite (bool_decide_eq_false_2 _ Hr). by rewrite andb_false_r.
    + intros _. apply Hfb in Hf. rewrite (bool_decide_eq_false_2 _ Hf).
      by rewrite andb_false_r.
  - intros _. by rewrite Hact.
Qed.

(** X19.  Seen stays seen.  An article all of whose rows are inactive,
    carry feedback or were recommended is returned by no later call of
    [get_recommendations], whatever the store operations in between. *)
Theorem seen_stays_seen (i : Z) (db : Store) :
  all_with i (λ r, unseen r = false) db →
  ∀ ops k o a,
    ops !! k = Some o → a ∈ returned o (before k ops db) → a_id a ≠ i.
Proof.
  intros Hall ops k o a Hk Ha Hid.
  eapply (run_all_with _ _ (take k ops)) in Hall; [|apply unseen_sticky].
  destruct (returned_row _ _ _ Ha) as (r & Hr & Hidr & Hact & Hfb & Hrec).
  destruct Hall as [_ Hall]. unfold before in Hr.
  specialize (Hall r Hr). rewrite Hidr, Hid in Hall. specialize (Hall eq_refl).
  unfold unseen in Hall. rewrite Hact, Hfb, Hrec in Hall.
  by rewrite !bool_decide_eq_true_2 in Hall.
Qed.

(** X17.  [handle_thumbs_up] writes [feedback = "up"] and the time of the
    call on the rows of the article and nothing else: ids stay, every
    other row is kept, a row that changed is a row of the article with
    the two columns set, and an id that is not in the table changes
    nothing.  [active] is not touched.  Afterwards no row of the article
    is a candidate. *)
Theorem thumbs_up_writes (clk : Clock) (i : Z) (db : Store) :
  map row_id (handle_thumbs_up clk i db) = map row_id db
  ∧ (∀ r, r ∈ db → row_id r = i →
          set_feedback_up (isoformat (now clk)) r ∈ handle_thumbs_up clk i db)
  ∧ (∀ r, r ∈ handle_thumbs_up clk i db →
          r ∈ db ∧ row_id r ≠ i
          ∨ ∃ r0, r0 ∈ db ∧ row_id r0 = i
                  ∧ r = set_feedback_up (isoformat (now clk)) r0)
  ∧ (i ∉ map row_id db → handle_thumbs_up clk i db = db)
  ∧ (i ∈ map row_id db →
     all_with i (λ r, unseen r = false) (handle_thumbs_up clk i db)).
Proof.
  unfold handle_thumbs_up.
  split; [by apply update_ids|]. split; [|split; [|split]].
  - intros r Hr Hi. apply update_elem. exists r.
    by rewrite (proj2 (eq_id_iff i r) Hi).
  - intros r' (r & Hr & ->)%update_elem.
    destruct (eq_id i r) eqn:Hi.
    + right. exists r. by apply eq_id_iff in Hi.
    + left. split; [done|]. intros Hi'%eq_id_iff. congruence.
  - intros Hnot. rewrite update_unchanged; [done|].
    apply filter_nil_iff. intros r Hr Hi%eq_id_iff. apply Hnot.
    apply list_elem_of_fmap. by exists r.
  - intros Hin. split; [by rewrite update_ids|].
    intros r' (r & Hr & ->)%update_elem Hi.
    destruct (eq_id i r) eqn:Hir.
    + unfold unseen. simpl. by rewrite andb_false_r.
    + apply eq_id_iff in Hi. congruence.
Qed.

(** X20.  A thumbs-down is final.  After [handle_thumbs_down] and any
    store operations that follow, a later thumbs-up included, the article
    is still in the table and each of its rows is inactive: it does not
    count as a like and is no candidate. *)
Theorem thumbs_down_is_final (clk : Clock) (i : Z) (db : Store) (ops : list op) :
  i ∈ map row_id db →
  (∃ r, r ∈ run ops (handle_thumbs_down clk i db) ∧ row_id r = i)
  ∧ ∀ r, r ∈ run ops (handle_thumbs_down clk i db) → row_id r = i →
         active r = false ∧ liked r = false ∧ contributes r = false
         ∧ unseen r = false.
Proof.
  intros Hin.
  assert (Hall : all_with i (λ r, active r = false) (handle_thumbs_down clk i db)).
  { unfold handle_thumbs_down. split; [by rewrite update_ids|].
    intros r' (r & Hr & ->)%update_elem Hi.
    destruct (eq_id i r) eqn:Hir; [done|]. apply eq_id_iff in Hi. congruence. }
  eapply (run_all_with _ _ ops) in Hall; [|by auto].
  destruct Hall as [Hex Hall]. split.
  - apply list_elem_of_fmap in Hex as (r & -> & Hr). by exists r.
  - intros r Hr Hi. specialize (Hall r Hr Hi).
    unfold contributes, liked, unseen. rewrite Hall.
    split; [done|]. split; [by destruct (feedback r); rewrite ?andb_false_r|].
    split; [by destruct (feedback r); rewrite ?andb_false_r|done].
Qed.

End feedback_facts.

(** ** Discovery *)






(** ** Keys stay unique *)

Section keys.
Context `{Calendar}.

Lemma update_urls (payload : Row → Row) (filt : Row → bool) (db : Store) :
  (∀ r, article_url (payload r) = article_url r) →
  map article_url (update payload filt db).1 = map article_url db.
Proof.
  intros Hp. unfold update. simpl. rewrite map_map. apply map_ext.
  intros r. by destruct (filt r).
Qed.

Lemma run_op_urls (o : op) (db : Store) :
  NoDup (map article_url db) → NoDup (map article_url (run_op o db)).
Proof.
  intros Hnd.
  destruct o as [u c|i f t|i t c d|i|i t c|clk i|clk i|clock limit];
    try (unfold run_op, handle_thumbs_up, handle_thumbs_down;
         by rewrite update_urls).
  - by apply upsert_keeps_unique.
  - unfold run_op.
    rewrite recommend_rows, map_map.
    rewrite (map_ext _ article_url); [done|].
    intros r. unfold mark_row. by case_bool_decide.
Qed.

(** X2.  Ids and URLs stay unique through every history of store writes
    of the sources, and through [add_new_article]. *)
Theorem keys_stay_unique (ops : list op) (db : Store) :
  (NoDup (map row_id db) → NoDup (map row_id (run ops db)))
  ∧ (NoDup (map article_url db) → NoDup (map article_url (run ops db)))
  ∧ ∀ selected_category hrefs,
      (NoDup (map row_id db) →
       NoDup (map row_id (add_new_article selected_category hrefs db).2))
      ∧ (NoDup (map article_url db) →
         NoDup (map article_url (add_new_article selected_category hrefs db).2)).
Proof.
  assert (Hurls : ∀ ops db,
            NoDup (map article_url db) → NoDup (map article_url (run ops db))).
  { clear. intros ops. induction ops as [|o ops IH]; intros db Hnd; [done|].
    simpl. apply IH. by apply run_op_urls. }
  split; [apply run_NoDup|]. split; [apply Hurls|].
  intros selected_category hrefs.
  destruct (add_new_article_history selected_category hrefs db) as [ops' ->].
  split; [apply run_NoDup|apply Hurls].
Qed.

End keys.

(** ** The claim, called alone *)

Lemma head_filter_first {A : Type} (P : A → Prop) `{∀ x, Decision (P x)}
    (l : list A) (x : A) :
  head (filter P l) = Some x →
  ∃ k, l !! k = Some x ∧ P x ∧ ∀ j y, (j < k)%nat → l !! j = Some y → ¬ P y.
Proof.
  induction l as [|y l IH]; [done|]. rewrite filter_cons.
  destruct (decide (P y)) as [Hy|Hy]; simpl.
  - intros [= ->]. exists 0%nat. split; [done|]. split; [done|]. intros; lia.
  - intros (k & Hk & Hx & Hfirst)%IH. exists (S k). split; [done|]. split; [done|].
    intros [|j] z Hj Hz; simpl in Hz; [by injection Hz as <-|].
    apply (Hfirst j); [lia|done].
Qed.

Lemma map_rewrite_unique (g : Row → Row) (cond : Row → bool) (db : Store)
    (k : nat) (a : Row) :
  NoDup (map row_id db) → db !! k = Some a →
  (∀ r, cond r = true → row_id r = row_id a) → cond a = true →
  map (λ r, if cond r then g r else r) db = <[k := g a]> db.
Proof.
  intros Hnd Hk Hcond Ha. apply list_eq. intros j.
  rewrite list_lookup_fmap.
  destruct (decide (j = k)) as [->|Hjk].
  - rewrite list_lookup_insert_eq by (by eapply lookup_lt_Some).
    rewrite Hk. simpl. by rewrite Ha.
  - rewrite list_lookup_insert_ne by done.
    destruct (db !! j) as [r|] eqn:Hj; [|done]. simpl.
    destruct (cond r) eqn:Hr; [|done]. exfalso. apply Hjk.
    eapply NoDup_lookup; [exact Hnd| |].
    + rewrite list_lookup_fmap, Hj. simpl. by rewrite (Hcond r Hr).
    + by rewrite list_lookup_fmap, Hk.
Qed.

Lemma claim_alone_insert (from_status to_status : string) (db db' : Store)
    (article : Row) :
  NoDup (map row_id db) →
  process_one_article_status id from_status to_status db = (Some article, db') →
  ∃ k, db !! k = Some article ∧ status article = from_status
       ∧ (∀ j r, (j < k)%nat → db !! j = Some r → status r ≠ from_status)
       ∧ db' = <[k := set_status to_status article]> db.
Proof.
  intros Hnd. unfold process_one_article_status.
  destruct (head (select_status from_status db)) as [a|] eqn:Hhead; [|done].
  apply head_filter_first in Hhead as (k & Hk & Hs & Hfirst).
  apply String.eqb_eq in Hs.
  assert (Hmap : (update (set_status to_status)
                    (λ r, eq_id (row_id a) r && eq_status from_status r)
                    (id db)).1
                 = <[k := set_status to_status a]> db).
  { unfold update. simpl. apply map_rewrite_unique; [done|done| |].
    - intros r [Hi _]%andb_true_iff. by apply Z.eqb_eq in Hi.
    - unfold eq_id, eq_status. by rewrite Z.eqb_refl, Hs, String.eqb_refl. }
  unfold update in *. simpl in *.
  destruct (filter _ db) as [|r rs] eqn:Hfilter; [done|]. simpl.
  intros [= <- <-]. exists k. split; [done|]. split; [done|]. split; [|done].
  intros j r' Hj Hr' Hst. eapply Hfirst; [exact Hj|exact Hr'|].
  unfold eq_status. rewrite Hst. apply String.eqb_refl.
Qed.

(** X3.  Called alone on a table with unique ids,
    [process_one_article_status] returns the first row in fetch order
    whose status is [from_status] and rewrites that row only, to
    [to_status]; it returns [None] and leaves the table alone exactly
    when no row has [from_status]. *)
Theorem claim_moves_one_row (from_status to_status : string) (db : Store) :
  NoDup (map row_id db) →
  match process_one_article_status id from_status to_status db with
  | (Some article, db') =>
      ∃ k, db !! k = Some article ∧ status article = from_status
           ∧ (∀ j r, (j < k)%nat → db !! j = Some r → status r ≠ from_status)
           ∧ db' = <[k := set_status to_status article]> db
  | (None, db') => db' = db ∧ ∀ r, r ∈ db → status r ≠ from_status
  end.
Proof.
  intros Hnd.
  destruct (process_one_article_status id from_status to_status db)
    as [[article|] db'] eqn:Hclaim.
  - by eapply claim_alone_insert.
  - apply claim_alone_none in Hclaim as [-> Hnone]. split; [done|].
    intros r Hr Hst. eapply (filter_nil_iff _ db); [exact Hnone|exact Hr|].
    unfold eq_status. rewrite Hst. apply String.eqb_refl.
Qed.

(** ** The runners, row by row *)

Lemma filter_status_none (from_status : string) (l : Store) :
  (∀ r, r ∈ l → status r ≠ from_status) → select_status from_status l = [].
Proof.
  intros Hl. apply filter_nil_iff. intros r Hr Hs. apply (Hl r Hr).
  by apply String.eqb_eq in Hs.
Qed.

Lemma map_unchanged (g : Row → Row) (cond : Row → bool) (l : Store) :
  (∀ r, r ∈ l → cond r = false) → map (λ r, if cond r then g r else r) l = l.
Proof.
  intros Hl. induction l as [|r l IH]; [done|]. simpl.
  rewrite (Hl r) by left. f_equal. apply IH. intros r' Hr'. apply Hl. by right.
Qed.

Lemma NoDup_ids_at (pre rest : Store) (a r : Row) :
  NoDup (map row_id (pre ++ a :: rest)) → r ∈ pre ++ rest → row_id r ≠ row_id a.
Proof.
  rewrite map_app. simpl. intros Hnd Hr Hid.
  apply NoDup_app in Hnd as (_ & Hpre & Hrest%NoDup_cons).
  destruct Hrest as [Hrest _].
  apply elem_of_app in Hr as [Hr|Hr].
  - apply (Hpre (row_id a)); [|left]. apply list_elem_of_fmap. by exists r.
  - apply Hrest. apply list_elem_of_fmap. by exists r.
Qed.

Lemma update_by_id_at (f : Row → Row) (pre rest : Store) (a b : Row) :
  NoDup (map row_id (pre ++ a :: rest)) → row_id b = row_id a →
  (update f (eq_id (row_id a)) (pre ++ b :: rest)).1 = pre ++ f b :: rest.
Proof.
  intros Hnd Hid. unfold update. simpl. rewrite map_app. simpl.
  rewrite (proj2 (eq_id_iff (row_id a) b) Hid).
  rewrite !map_unchanged; [done| |].
  - intros r Hr. apply not_true_is_false. intros Hi%eq_id_iff.
    eapply NoDup_ids_at; [exact Hnd| |exact Hi]. apply elem_of_app. by right.
  - intros r Hr. apply not_true_is_false. intros Hi%eq_id_iff.
    eapply NoDup_ids_at; [exact Hnd| |exact Hi]. apply elem_of_app. by left.
Qed.

Lemma claim_alone_first (from_status to_status : string) (pre rest : Store)
    (a : Row) :
  NoDup (map row_id (pre ++ a :: rest)) →
  (∀ r, r ∈ pre → status r ≠ from_status) → status a = from_status →
  process_one_article_status id from_status to_status (pre ++ a :: rest)
  = (Some a, pre ++ set_status to_status a :: rest).
Proof.
  intros Hnd Hpre Ha. unfold process_one_article_status.
  assert (Hsel : select_status from_status (pre ++ a :: rest)
                 = a :: select_status from_status rest).
  { unfold select_status. rewrite filter_app, filter_cons.
    fold (select_status from_status pre). rewrite filter_status_none by done.
    rewrite decide_True; [done|]. unfold eq_status. rewrite Ha.
    apply String.eqb_refl. }
  rewrite Hsel. simpl. unfold update. simpl.
  assert (Hcond : eq_id (row_id a) a && eq_status from_status a = true).
  { unfold eq_id, eq_status. by rewrite Z.eqb_refl, Ha, String.eqb_refl. }
  rewrite filter_app, filter_cons, decide_True by done.
  assert (Hlock : ∃ x xs,
    map (set_status to_status)
        (filter (λ r, eq_id (row_id a) r && eq_status from_status r = true) pre
         ++ a :: filter (λ r, eq_id (row_id a) r && eq_status from_status r = true)
                        rest)
    = x :: xs).
  { destruct (filter _ pre); simpl; eauto. }
  destruct Hlock as (x & xs & ->). f_equal.
  rewrite map_app. simpl. rewrite Hcond.
  rewrite !map_unchanged; [done| |].
  - intros r Hr. apply not_true_is_false. intros [Hi%eq_id_iff _]%andb_true_iff.
    eapply NoDup_ids_at; [exact Hnd| |exact Hi]. apply elem_of_app. by right.
  - intros r Hr. apply not_true_is_false. intros [_ Hs%String.eqb_eq]%andb_true_iff.
    by apply (Hpre r).
Qed.

Lemma claim_alone_drained (from_status to_status : string) (db : Store) :
  (∀ r, r ∈ db → status r ≠ from_status) →
  process_one_article_status id from_status to_status db = (None, db).
Proof.
  intros Hdb. unfold process_one_article_status.
  by rewrite filter_status_none.
Qed.

Lemma pass_ids (step : Row → Row * option exn) (from_status : string) (db : Store) :
  (∀ a, row_id (step a).1 = row_id a) →
  map row_id (pass step from_status db).2 = map row_id db.
Proof.
  intros Hstep. induction db as [|a rest IH]; [done|]. simpl.
  destruct (String.eqb (status a) from_status).
  - specialize (Hstep a). destruct (step a) as [b [e|]]; simpl in *; [by rewrite Hstep|].
    destruct (pass step from_status rest) as [r rest']. simpl in *. congruence.
  - destruct (pass step from_status rest) as [r rest']. simpl in *. congruence.
Qed.

Section scrape_rows.
Variable scrape_article : string → result (string * string * option string).

Lemma scrape_row_columns (a : Row) :
  row_id (scrape_row scrape_article a).1 = row_id a
  ∧ status (scrape_row scrape_article a).1 ≠ "new".
Proof.
  unfold scrape_row.
  destruct (scrape_article _) as [[[t c] d]|e]; [done|]. by destruct (declared e).
Qed.

Lemma scrape_iteration_first (pre rest : Store) (a : Row) :
  NoDup (map row_id (pre ++ a :: rest)) →
  (∀ r, r ∈ pre → status r ≠ "new") → status a = "new" →
  scrape_iteration scrape_article id (pre ++ a :: rest)
  = (match (scrape_row scrape_article a).2 with
     | None => Continue
     | Some e => Propagate e
     end,
     pre ++ (scrape_row scrape_article a).1 :: rest).
Proof.
  intros Hnd Hpre Ha. unfold scrape_iteration.
  rewrite (claim_alone_first "new" "scraping") by done.
  unfold scrape_row.
  destruct (scrape_article (article_url a)) as [[[t c] d]|e]; cbn -[update].
  - by rewrite update_by_id_at.
  - destruct (declared e); cbn -[update]; [|done].
    unfold mark_failed. by rewrite update_by_id_at.
Qed.

Lemma scrape_all_new_articles_from (pre rest : Store) :
  NoDup (map row_id (pre ++ rest)) →
  (∀ r, r ∈ pre → status r ≠ "new") →
  scrape_all_new_articles scrape_article (pre ++ rest)
  = ((pass (scrape_row scrape_article) "new" rest).1,
     pre ++ (pass (scrape_row scrape_article) "new" rest).2).
Proof.
  revert pre. induction rest as [|a rest IH]; intros pre Hnd Hpre.
  - rewrite scrape_all_new_articles_loop. unfold scrape_iteration.
    rewrite claim_alone_drained; [done|].
    intros r Hr. apply Hpre. by rewrite app_nil_r in Hr.
  - simpl. destruct (String.eqb (status a) "new") eqn:Ha.
    + apply String.eqb_eq in Ha.
      rewrite scrape_all_new_articles_loop, scrape_iteration_first by done.
      destruct (scrape_row_columns a) as [Hid Hne].
      destruct (scrape_row scrape_article a) as [b [e|]]; simpl in *; [done|].
      rewrite (cons_middle b pre rest), app_assoc, IH.
      * destruct (pass _ _ rest) as [r rest']. simpl.
        by rewrite <- app_assoc.
      * rewrite <- app_assoc. simpl.
        rewrite map_app in *. simpl in *. by rewrite Hid.
      * intros r [Hr|Hr%list_elem_of_singleton]%elem_of_app; [by apply Hpre|by subst r].
    + apply String.eqb_neq in Ha.
      rewrite (cons_middle a pre rest), app_assoc, IH.
      * destruct (pass _ _ rest) as [r rest']. simpl.
        by rewrite <- app_assoc.
      * by rewrite <- app_assoc.
      * intros r [Hr|Hr%list_elem_of_singleton]%elem_of_app; [by apply Hpre|by subst r].
Qed.

(** X6.  Run alone on a table with unique ids, [scrape_all_new_articles]
    is one pass over the table in fetch order.  A row with status "new"
    gets the title, content and date [scrape_article] returns for its URL
    and status "scrapped", or status "failed" when [scrape_article]
    raises [ValidationError] or [RuntimeError]; a row of any other status
    is left as it is.  The first other error ends the run and is
    re-raised, with that row left in status "scraping" and the rows
    behind it untouched. *)
Theorem scrape_all_new_articles_pass (db : Store) :
  NoDup (map row_id db) →
  scrape_all_new_articles scrape_article db
  = pass (scrape_row scrape_article) "new" db.
Proof.
  intros Hnd.
  pose proof (scrape_all_new_articles_from [] db Hnd) as Hpass.
  simpl in Hpass. rewrite Hpass; [|by intros r ?%not_elem_of_nil].
  by destruct (pass _ _ db).
Qed.

End scrape_rows.

Lemma active_count_map (f : Row → Row) (db : Store) :
  (∀ r, active (f r) = active r) →
  length (filter (λ r, active r = true) (map f db))
  = length (filter (λ r, active r = true) db).
Proof.
  intros Hf. induction db as [|r db IH]; [done|]. simpl.
  rewrite !filter_cons, Hf. destruct (decide (active r = true)); simpl; congruence.
Qed.

Section translate_rows.
Variable translate_and_summarize :
  option string → option string → result Translation.
Variable classify_article : string → string → result Classification.
Variable bot_send_message : Row → bool → result unit.

Local Abbreviation translate_row' :=
  (translate_row translate_and_summarize classify_article bot_send_message).

Lemma translate_row_columns (more : bool) (a : Row) :
  row_id (translate_row' more a).1 = row_id a
  ∧ active (translate_row' more a).1 = active a
  ∧ status (translate_row' more a).1 ≠ "scrapped".
Proof.
  unfold translate_row.
  destruct (translate_and_summarize _ _) as [t|e]; [|by destruct (declared e)].
  destruct (classify_article _ _) as [c|e]; [|by destruct (declared e)].
  destruct (bot_send_message _ _) as [[]|e]; [done|]. by destruct (declared e).
Qed.

Lemma has_enough_articles_at (n : Z) (pre rest : Store) (a b : Row) :
  active b = active a →
  has_enough_articles n (pre ++ b :: rest) = has_enough_articles n (pre ++ a :: rest).
Proof.
  intros Hb. unfold has_enough_articles. do 2 f_equal.
  rewrite !filter_app, !filter_cons, Hb, !length_app.
  by destruct (decide (active a = true)).
Qed.

Lemma translate_iteration_first (pre rest : Store) (a : Row) :
  NoDup (map row_id (pre ++ a :: rest)) →
  (∀ r, r ∈ pre → status r ≠ "scrapped") → status a = "scrapped" →
  translate_iteration translate_and_summarize classify_article bot_send_message
                      id (pre ++ a :: rest)
  = (match (translate_row' (has_enough_articles 8 (pre ++ a :: rest)) a).2 with
     | None => Continue
     | Some e => Propagate e
     end,
     pre ++ (translate_row' (has_enough_articles 8 (pre ++ a :: rest)) a).1 :: rest).
Proof.
  intros Hnd Hpre Ha. unfold translate_iteration.
  rewrite (claim_alone_first "scrapped" "translating") by done.
  unfold translate_attempt, translate_step, classify_step, translate_row.
  cbn -[update has_enough_articles].
  destruct (translate_and_summarize (title_de a) (content_de a)) as [t|e];
    cbn -[update has_enough_articles].
  2:{ destruct (declared e); cbn -[update]; [|done].
      unfold mark_failed. by rewrite update_by_id_at. }
  destruct (classify_article (t_title_en t) (t_content_en t)) as [c|e];
    cbn -[update has_enough_articles].
  2:{ destruct (declared e); cbn -[update]; [|done].
      unfold mark_failed. by rewrite update_by_id_at. }
  unfold save_translation_and_classification.
  rewrite update_by_id_at by done. cbn -[update has_enough_articles].
  set (row := set_translated _ _ _ _ _ _ (set_status "translating" a)).
  assert (Hsingle : filter (λ r, eq_id (row_id a) r = true) (pre ++ row :: rest)
                    = [row]).
  { rewrite filter_app, filter_cons.
    rewrite decide_True by (by apply eq_id_iff).
    rewrite !(proj2 (filter_nil_iff _ _)); [done| |].
    - intros r Hr Hi%eq_id_iff.
      eapply NoDup_ids_at; [exact Hnd| |exact Hi]. apply elem_of_app. by right.
    - intros r Hr Hi%eq_id_iff.
      eapply NoDup_ids_at; [exact Hnd| |exact Hi]. apply elem_of_app. by left. }
  rewrite Hsingle. unfold send_article_notification.
  rewrite (has_enough_articles_at 8 pre rest a row) by done.
  change row with (set_translated (t_title_en t) (t_content_en t) (t_summary_en t)
                     (c_topic c) (c_sentiment c) (c_urgency c) a).
  destruct (bot_send_message _ _) as [[]|e]; cbn -[update]; [done|].
  destruct (declared e); cbn -[update]; [|done].
  unfold mark_failed.
  by rewrite (update_by_id_at _ pre rest a) by done.
Qed.

Lemma process_steps_from (pre rest : Store) (more : bool) :
  NoDup (map row_id (pre ++ rest)) →
  (∀ r, r ∈ pre → status r ≠ "scrapped") →
  has_enough_articles 8 (pre ++ rest) = more →
  process_steps translate_and_summarize classify_article bot_send_message
                (pre ++ rest)
  = ((pass (translate_row' more) "scrapped" rest).1,
     pre ++ (pass (translate_row' more) "scrapped" rest).2).
Proof.
  revert pre. induction rest as [|a rest IH]; intros pre Hnd Hpre Hmore.
  - rewrite process_steps_loop. unfold translate_iteration.
    rewrite claim_alone_drained; [done|].
    intros r Hr. apply Hpre. by rewrite app_nil_r in Hr.
  - simpl. destruct (String.eqb (status a) "scrapped") eqn:Ha.
    + apply String.eqb_eq in Ha.
      rewrite process_steps_loop, translate_iteration_first by done.
      rewrite Hmore.
      destruct (translate_row_columns more a) as (Hid & Hact & Hne).
      destruct (translate_row' more a) as [b [e|]]; simpl in *; [done|].
      rewrite (cons_middle b pre rest), app_assoc, IH.
      * destruct (pass _ _ rest) as [r rest']. simpl.
        by rewrite <- app_assoc.
      * rewrite <- app_assoc. simpl.
        rewrite map_app in *. simpl in *. by rewrite Hid.
      * intros r [Hr|Hr%list_elem_of_singleton]%elem_of_app; [by apply Hpre|by subst r].
      * rewrite <- app_assoc. simpl. rewrite <- Hmore.
        by apply has_enough_articles_at.
    + apply String.eqb_neq in Ha.
      rewrite (cons_middle a pre rest), app_assoc, IH.
      * destruct (pass _ _ rest) as [r rest']. simpl.
        by rewrite <- app_assoc.
      * by rewrite <- app_assoc.
      * intros r [Hr|Hr%list_elem_of_singleton]%elem_of_app; [by apply Hpre|by subst r].
      * by rewrite <- app_assoc.
Qed.

(** X9.  Run alone on a table with unique ids, [process_steps] is one pass
    over the table in fetch order.  A row with status "scrapped" gets the
    translation and the classification and status "translated"; it gets
    status "failed" when the translation or the classification raises
    [ValidationError] or [RuntimeError], and status "failed" with the
    translation kept when the notification raises one of the two.  A row
    of any other status is left as it is.  The first other error ends the
    run and is re-raised, with that row left in status "translating" (or
    "translated" when the notification raised) and the rows behind it
    untouched.  Whether the keyboard offers more recommendations is
    decided by the active rows of the table the run started from. *)
Theorem process_steps_pass (db : Store) :
  NoDup (map row_id db) →
  process_steps translate_and_summarize classify_article bot_send_message db
  = pass (translate_row' (has_enough_articles 8 db)) "scrapped" db.
Proof.
  intros Hnd.
  pose proof (process_steps_from [] db (has_enough_articles 8 db) Hnd) as Hpass.
  simpl in Hpass. rewrite Hpass; [|by intros r ?%not_elem_of_nil|done].
  by destruct (pass _ _ db).
Qed.

End translate_rows.

(** ** A declared failure, seen from the runner *)

Lemma pass_app (step : Row → Row * option exn) (from_status : string)
    (pre rest : Store) :
  (∀ r, r ∈ pre → status r = from_status → (step r).2 = None) →
  pass step from_status (pre ++ rest)
  = ((pass step from_status rest).1,
     (pass step from_status pre).2 ++ (pass step from_status rest).2).
Proof.
  intros Hpre. induction pre as [|a pre IH]; simpl.
  { by destruct (pass step from_status rest). }
  rewrite IH by (intros r Hr; apply Hpre; by right).
  destruct (String.eqb (status a) from_status) eqn:Ha.
  - apply String.eqb_eq in Ha.
    assert (Hin : a ∈ a :: pre) by left. specialize (Hpre a Hin Ha).
    destruct (step a) as [b [e|]]; [done|]. simpl.
    by destruct (pass step from_status pre).
  - simpl. by destruct (pass step from_status pre).
Qed.

Lemma pass_length (step : Row → Row * option exn) (from_status : string)
    (db : Store) :
  length (pass step from_status db).2 = length db.
Proof.
  induction db as [|a rest IH]; [done|]. simpl.
  destruct (String.eqb (status a) from_status).
  - destruct (step a) as [b [e|]]; [done|].
    destruct (pass step from_status rest) as [out rest']. simpl in *. by rewrite IH.
  - destruct (pass step from_status rest) as [out rest']. simpl in *. by rewrite IH.
Qed.

Lemma pass_raise (step : Row → Row * option exn) (from_status : string)
    (db : Store) (e : exn) :
  (pass step from_status db).1 = Raise e →
  ∃ b, b ∈ db ∧ status b = from_status ∧ (step b).2 = Some e.
Proof.
  induction db as [|a rest IH]; [done|]. simpl.
  destruct (String.eqb (status a) from_status) eqn:Ha.
  - apply String.eqb_eq in Ha.
    destruct (step a) as [b [e'|]] eqn:Hstep; simpl.
    + intros [= <-]. exists a. split; [by left|]. by rewrite Hstep.
    + destruct (pass step from_status rest) as [out rest']. simpl in *.
      intros (b' & Hb & Hs)%IH. exists b'. split; [by right|done].
  - destruct (pass step from_status rest) as [out rest']. simpl in *.
    intros (b' & Hb & Hs)%IH. exists b'. split; [by right|done].
Qed.

Lemma pass_drained (step : Row → Row * option exn) (from_status : string)
    (db : Store) :
  (∀ a, status (step a).1 ≠ from_status) →
  (pass step from_status db).1 = Ok () →
  ∀ r, r ∈ (pass step from_status db).2 → status r ≠ from_status.
Proof.
  intros Hstep. induction db as [|a rest IH]; simpl.
  { by intros _ r ?%not_elem_of_nil. }
  destruct (String.eqb (status a) from_status) eqn:Ha.
  - specialize (Hstep a). destruct (step a) as [b [e'|]]; [done|].
    destruct (pass step from_status rest) as [out rest']. simpl in *.
    intros Hok r [->|Hr]%elem_of_cons; [done|by apply IH].
  - apply String.eqb_neq in Ha.
    destruct (pass step from_status rest) as [out rest']. simpl in *.
    intros Hok r [->|Hr]%elem_of_cons; [done|by apply IH].
Qed.

(** What a pass does at a row that [step] settles without an error. *)
Lemma pass_settled (step : Row → Row * option exn) (from_status : string)
    (pre rest : Store) (a b : Row) :
  (∀ r, r ∈ pre → status r = from_status → (step r).2 = None) →
  status a = from_status → step a = (b, None) →
  pass step from_status (pre ++ a :: rest)
  = ((pass step from_status rest).1,
     (pass step from_status pre).2 ++ b :: (pass step from_status rest).2).
Proof.
  intros Hpre Ha Hstep. rewrite pass_app by done. simpl.
  apply String.eqb_eq in Ha. rewrite Ha, Hstep.
  by destruct (pass step from_status rest).
Qed.

Section declared_failures.
Variable scrape_article : string → result (string * string * option string).
Variable translate_and_summarize :
  option string → option string → result Translation.
Variable classify_article : string → string → result Classification.
Variable bot_send_message : Row → bool → result unit.

Local Abbreviation translate_row' :=
  (translate_row translate_and_summarize classify_article bot_send_message).

Lemma scrape_all_new_articles_raises (db : Store) :
  ∀ e db', scrape_all_new_articles scrape_article db = (Raise e, db') →
           declared e = false.
Proof.
  funelim (scrape_all_new_articles scrape_article db); try done.
  intros e0 d [= <- <-].
  match goal with
  | Hit : scrape_iteration _ _ _ = _ |- _ =>
      pose proof Hit as Hiter; clear - Hiter
  end.
  unfold scrape_iteration in Hiter.
  destruct (process_one_article_status id "new" "scraping" db)
    as [[article|] db1]; [|done].
  destruct (scrape_article _) as [[[? ?] ?]|e1]; [done|].
  destruct (declared e1) eqn:He1; [done|]. by injection Hiter as <- <-.
Qed.

Lemma process_steps_raises (db : Store) :
  ∀ e db', process_steps translate_and_summarize classify_article
                         bot_send_message db = (Raise e, db') →
           declared e = false.
Proof.
  funelim (process_steps translate_and_summarize classify_article
                         bot_send_message db); try done.
  intros e0 d [= <- <-].
  match goal with
  | Hit : translate_iteration _ _ _ _ _ = _ |- _ =>
      pose proof Hit as Hiter; clear - Hiter
  end.
  unfold translate_iteration in Hiter.
  destruct (process_one_article_status id "scrapped" "translating" db)
    as [[article|] db1]; [|done].
  destruct (translate_attempt _ _ _ _ _) as [[[]|e1] d]; [done|].
  destruct (declared e1) eqn:He1; [done|]. by injection Hiter as <- <-.
Qed.

Lemma scrape_row_settled (a : Row) :
  (scrape_row scrape_article a).2 = None
  ↔ ∀ e, scrape_article (article_url a) = Raise e → declared e = true.
Proof.
  unfold scrape_row.
  destruct (scrape_article (article_url a)) as [[[t c] d]|e]; simpl.
  - split; [by intros _ e|done].
  - destruct (declared e) eqn:He; simpl.
    + split; [by intros _ e' [= <-]|done].
    + split; [done|]. intros Hall. specialize (Hall e eq_refl). congruence.
Qed.

Lemma scrape_row_stopped (a : Row) (e : exn) :
  (scrape_row scrape_article a).2 = Some e →
  scrape_article (article_url a) = Raise e ∧ declared e = false.
Proof.
  unfold scrape_row.
  destruct (scrape_article (article_url a)) as [[[t c] d]|e']; [done|].
  destruct (declared e') eqn:He; [done|]. simpl. by intros [= <-].
Qed.

Lemma translate_row_stopped (more : bool) (a : Row) (e : exn) :
  (translate_row' more a).2 = Some e → declared e = false.
Proof.
  unfold translate_row.
  destruct (translate_and_summarize _ _) as [t|e1].
  2:{ destruct (declared e1) eqn:He; [done|]. simpl. by intros [= <-]. }
  destruct (classify_article _ _) as [c|e1].
  2:{ destruct (declared e1) eqn:He; [done|]. simpl. by intros [= <-]. }
  destruct (bot_send_message _ _) as [[]|e1]; [done|].
  destruct (declared e1) eqn:He; [done|]. simpl. by intros [= <-].
Qed.

(** C8.  A collaborator that raises a declared error ([ValidationError]
    or [RuntimeError]) for an article the runner claims: the runner, run
    alone on a table with unique ids, leaves in the place of that article
    its row as it was before the claim with status "failed", so none of
    the columns the stage fills is written; and the loop goes on: when
    the run returns no row behind that article is left in the status the
    stage claims from, and an error the run re-raises is an undeclared
    one that a row behind it gave.  This holds for
    [scrape_all_new_articles] when [scrape_article] raises, and for
    [process_steps] when the translation raises or the classification
    raises after a translation that succeeded.  No run of either runner,
    on any table, re-raises a declared error.  With other writers between
    the read and the update of the claim, the pass through the loop body
    that claimed the article ends with every row of the article in status
    "failed", no other column and no other row changed since the claim,
    and continues the loop. *)
Theorem declared_failure_marks_failed (e : exn) :
  declared e = true →
  (∀ pre a rest,
     NoDup (map row_id (pre ++ a :: rest)) →
     status a = "new" →
     scrape_article (article_url a) = Raise e →
     (∀ r e', r ∈ pre → status r = "new" →
              scrape_article (article_url r) = Raise e' → declared e' = true) →
     ∃ out pre' rest',
       scrape_all_new_articles scrape_article (pre ++ a :: rest)
       = (out, pre' ++ set_status "failed" a :: rest')
       ∧ length pre' = length pre
       ∧ (out = Ok () → ∀ r, r ∈ rest' → status r ≠ "new")
       ∧ (∀ e', out = Raise e' →
            declared e' = false
            ∧ ∃ b, b ∈ rest ∧ status b = "new"
                   ∧ scrape_article (article_url b) = Raise e'))
  ∧ (∀ pre a rest,
       NoDup (map row_id (pre ++ a :: rest)) →
       status a = "scrapped" →
       (translate_step translate_and_summarize a = Raise e
        ∨ ∃ translation,
            translate_step translate_and_summarize a = Ok translation
            ∧ classify_step classify_article translation = Raise e) →
       (∀ r, r ∈ pre → status r = "scrapped" →
             (translate_row' (has_enough_articles 8 (pre ++ a :: rest)) r).2 = None) →
       ∃ out pre' rest',
         process_steps translate_and_summarize classify_article bot_send_message
                       (pre ++ a :: rest)
         = (out, pre' ++ set_status "failed" a :: rest')
         ∧ length pre' = length pre
         ∧ (out = Ok () → ∀ r, r ∈ rest' → status r ≠ "scrapped")
         ∧ (∀ e', out = Raise e' →
              declared e' = false
              ∧ ∃ b, b ∈ rest ∧ status b = "scrapped"
                     ∧ (translate_row' (has_enough_articles 8 (pre ++ a :: rest)) b).2
                       = Some e'))
  ∧ (∀ db db' e',
       scrape_all_new_articles scrape_article db = (Raise e', db') →
       declared e' = false)
  ∧ (∀ db db' e',
       process_steps translate_and_summarize classify_article bot_send_message db
       = (Raise e', db') →
       declared e' = false)
  ∧ (∀ others db db1 article,
       (process_one_article_status others "new" "scraping" db
        = (Some article, db1) →
        scrape_article (article_url article) = Raise e →
        scrape_iteration scrape_article others db
        = (Continue, mark_failed (row_id article) db1))
       ∧ (process_one_article_status others "scrapped" "translating" db
          = (Some article, db1) →
          (translate_step translate_and_summarize article = Raise e
           ∨ ∃ translation,
               translate_step translate_and_summarize article = Ok translation
               ∧ classify_step classify_article translation = Raise e) →
          translate_iteration translate_and_summarize classify_article
                              bot_send_message others db
          = (Continue, mark_failed (row_id article) db1))
       ∧ (∀ from_status to_status,
            process_one_article_status others from_status to_status db
            = (Some article, db1) →
            (∃ r, r ∈ mark_failed (row_id article) db1
                  ∧ row_id r = row_id article)
            ∧ (∀ r, r ∈ mark_failed (row_id article) db1 →
                    row_id r = row_id article → status r = "failed")
            ∧ map (set_status "") (mark_failed (row_id article) db1)
              = map (set_status "") db1
            ∧ (∀ r, r ∈ db1 → row_id r ≠ row_id article →
                    r ∈ mark_failed (row_id article) db1)))
  ∧ (∀ d d', scrape_iteration scrape_article id d = (Continue, d') →
             scrape_all_new_articles scrape_article d
             = scrape_all_new_articles scrape_article d')
  ∧ (∀ d d', translate_iteration translate_and_summarize classify_article
                                 bot_send_message id d = (Continue, d') →
             process_steps translate_and_summarize classify_article
                           bot_send_message d
             = process_steps translate_and_summarize classify_article
                             bot_send_message d').
Proof.
  intros He. split; [|split; [|split; [|split; [|split; [|split]]]]].
  - intros pre a rest Hnd Ha Hraise Hpre.
    pose proof (scrape_all_new_articles_from scrape_article [] (pre ++ a :: rest) Hnd)
      as Hpass.
    simpl in Hpass. rewrite Hpass by (by intros r ?%not_elem_of_nil). clear Hpass.
    rewrite (pass_settled _ _ pre rest a (set_status "failed" a)); [| |done|].
    + exists (pass (scrape_row scrape_article) "new" rest).1,
             (pass (scrape_row scrape_article) "new" pre).2,
             (pass (scrape_row scrape_article) "new" rest).2.
      simpl. split; [done|]. split; [apply pass_length|]. split.
      * apply pass_drained. intros r. apply scrape_row_columns.
      * intros e' (b & Hb & Hs & [Hbe Hde]%scrape_row_stopped)%pass_raise.
        split; [done|]. by exists b.
    + intros r Hr Hs. apply scrape_row_settled. intros e'. by apply Hpre.
    + unfold scrape_row. by rewrite Hraise, He.
  - intros pre a rest Hnd Ha Hraise Hpre.
    set (more := has_enough_articles 8 (pre ++ a :: rest)) in *.
    pose proof (process_steps_from translate_and_summarize classify_article
                  bot_send_message [] (pre ++ a :: rest) more Hnd) as Hpass.
    simpl in Hpass.
    rewrite Hpass by (by intros r ?%not_elem_of_nil || done). clear Hpass.
    rewrite (pass_settled _ _ pre rest a (set_status "failed" a)); [|done|done|].
    + exists (pass (translate_row' more) "scrapped" rest).1,
             (pass (translate_row' more) "scrapped" pre).2,
             (pass (translate_row' more) "scrapped" rest).2.
      simpl. split; [done|]. split; [apply pass_length|]. split.
      * apply pass_drained. intros r. apply translate_row_columns.
      * intros e' (b & Hb & Hs & Hbe)%pass_raise.
        split; [by eapply translate_row_stopped|]. by exists b.
    + unfold translate_row. unfold translate_step, classify_step in Hraise.
      destruct Hraise as [->|(t & -> & ->)]; by rewrite He.
  - intros db db' e'. apply scrape_all_new_articles_raises.
  - intros db db' e'. apply process_steps_raises.
  - intros others db db1 article.
    destruct (declared_failure_iteration scrape_article translate_and_summarize
                classify_article bot_send_message others db db1 article e He)
      as (Hscrape & Htranslate & Hrows & _).
    done.
  - intros d d' Hit. by rewrite scrape_all_new_articles_loop, Hit.
  - intros d d' Hit. by rewrite process_steps_loop, Hit.
Qed.

End declared_failures.

Lemma declared_failure_marks_failed_witness :
  declared RuntimeError = true
  ∧ ∃ out pre' rest',
      scrape_all_new_articles browser_down
        ([fresh_article] ++ new_row 2 "https://www.tagesschau.de/ausland/eu-100.html"
                                    "Ausland" :: [])
      = (out, pre' ++ set_status "failed"
                        (new_row 2 "https://www.tagesschau.de/ausland/eu-100.html"
                                 "Ausland") :: rest')
      ∧ length pre' = length [fresh_article]
      ∧ (out = Ok () → ∀ r, r ∈ rest' → status r ≠ "new")
      ∧ (∀ e', out = Raise e' →
           declared e' = false
           ∧ ∃ b, b ∈ [] ∧ status b = "new" ∧ browser_down (article_url b) = Raise e').
Proof.
  split; [reflexivity|].
  apply (proj1 (declared_failure_marks_failed browser_down translator_up
                  classifier_invalid bot_up RuntimeError eq_refl)
               [fresh_article]
               (new_row 2 "https://www.tagesschau.de/ausland/eu-100.html" "Ausland")
               []).
  - vm_compute. apply NoDup_cons_2; [|apply NoDup_singleton].
    intros Hin%list_elem_of_singleton. discriminate Hin.
  - reflexivity.
  - reflexivity.
  - intros r e' _ _ [= <-]. reflexivity.
Defined.

(** ** No more claims than articles *)

Lemma claim_source_event (from_status : string) (ids : list Z) (ev : event)
    (c : Config) :
  claim_inv from_status c → claim_source from_status ids c →
  claim_source from_status ids (exec_event ev c).
Proof.
  intros (_ & _ & Hflight) (Hrows & Hheld & Hclaimed).
  destruct ev as [w f t k|w]; simpl.
  - destruct (workers c !! w) as [[|]|] eqn:Hw; try done.
    destruct (select_status f (table c) !! k) as [article|] eqn:Hk; [|done].
    split; [done|]. split; [|done]. simpl. intros w' t' a' Hw'.
    destruct (decide (w = w')) as [->|Hne].
    + rewrite list_lookup_insert_eq in Hw' by (by eapply lookup_lt_Some).
      injection Hw' as -> <- <-.
      apply list_elem_of_lookup_2, list_elem_of_filter in Hk as [Hs Hin].
      apply String.eqb_eq in Hs. by apply Hrows.
    + rewrite list_lookup_insert_ne in Hw' by done. eauto.
  - destruct (workers c !! w) as [[|f t a]|] eqn:Hw; try done.
    assert (Ht : t ≠ from_status) by eauto.
    unfold update. cbv zeta beta iota. split; [|split].
    + simpl. intros r' (r & -> & Hr)%list_elem_of_fmap Hs.
      destruct (eq_id (row_id a) r && eq_status f r); [done|]. by apply Hrows.
    + simpl. intros w' t' a' Hw'. destruct (decide (w = w')) as [->|Hne].
      * rewrite list_lookup_insert_eq in Hw' by (by eapply lookup_lt_Some). done.
      * rewrite list_lookup_insert_ne in Hw' by done. eauto.
    + simpl. destruct (map _ (filter _ (table c))); [done|].
      rewrite claimed_ids_snoc. simpl. intros i [Hi|Hi]%elem_of_app; [eauto|].
      destruct (decide (f = from_status)) as [->|]; [|by apply not_elem_of_nil in Hi].
      apply list_elem_of_singleton in Hi as ->. eauto.
Qed.

(** X4.  No more claims than articles.  In any interleaving in which no
    call has [from_status] as its target state, every article claimed
    out of [from_status] is an article that had that status in the table
    the workers started from, and the successful claims out of
    [from_status] are at most as many as those rows. *)
Theorem claims_bounded (from_status : string) (db : Store) (n : nat)
    (schedule : list event) :
  (∀ t, t ∈ targets schedule → t ≠ from_status) →
  (∀ i, i ∈ claimed_ids from_status (claims (exec schedule (initial db n))) →
        ∃ r, r ∈ db ∧ row_id r = i ∧ status r = from_status)
  ∧ (length (claimed_ids from_status (claims (exec schedule (initial db n))))
     ≤ length (select_status from_status db))%nat.
Proof.
  intros Ht.
  set (ids := map row_id (select_status from_status db)).
  assert (Hinv : ∀ schedule c,
    (∀ t, t ∈ targets schedule → t ≠ from_status) →
    claim_inv from_status c → claim_source from_status ids c →
    claim_inv from_status (exec schedule c)
    ∧ claim_source from_status ids (exec schedule c)).
  { clear. intros schedule. induction schedule as [|ev schedule IH];
      intros c Ht Hc Hs; [done|].
    simpl. apply IH.
    - intros t Hin. apply Ht. unfold targets. simpl. destruct ev; [right|]; done.
    - destruct ev as [w f t k|w].
      + apply claim_inv_select; [|done]. apply Ht. unfold targets. simpl. left.
      + by apply claim_inv_lock.
    - by apply claim_source_event. }
  destruct (Hinv schedule (initial db n) Ht) as [(_ & Hnodup & _) (_ & _ & Hsub)].
  - apply claim_inv_initial.
  - split; [|split]; simpl.
    + intros r Hr Hs. apply list_elem_of_fmap. exists r. split; [done|].
      apply list_elem_of_filter. split; [|done]. by apply String.eqb_eq.
    + intros w t a Hw. apply lookup_replicate in Hw as [? _]. done.
    + intros i Hi. by apply not_elem_of_nil in Hi.
  - split.
    + intros i (r & -> & Hr)%Hsub%list_elem_of_fmap.
      apply list_elem_of_filter in Hr as [Hs%String.eqb_eq Hr]. by exists r.
    + rewrite <- (length_map row_id (select_status from_status db)).
      apply submseteq_length, NoDup_submseteq; [done|]. exact Hsub.
Qed.

(** ** Text *)

Lemma lstrip_from_head (k : nat) (s : string) :
  Str.lstrip_from k s = "" ∨ Str.space_width (Str.lstrip_from k s) = 0%nat.
Proof.
  revert k. induction s as [|c s IH]; intros k; [by left|]. simpl Str.lstrip_from.
  destruct k as [|k]; [|apply IH].
  destruct (Str.space_width (String c s)) as [|k] eqn:Hw; [by right|apply IH].
Qed.

Lemma lstrip_fixed (s : string) :
  Str.space_width s = 0%nat → Str.lstrip s = s.
Proof.
  intros Hw. destruct s as [|c s]; [done|]. unfold Str.lstrip. simpl Str.lstrip_from.
  by rewrite Hw.
Qed.

Lemma lstrip_idem (s : string) : Str.lstrip (Str.lstrip s) = Str.lstrip s.
Proof.
  destruct (lstrip_from_head 0 s) as [Hs|Hs]; fold (Str.lstrip s) in Hs.
  - by rewrite Hs.
  - by apply lstrip_fixed.
Qed.

Lemma rstrip_empty (s : string) : Str.rstrip s = "" ↔ Str.lstrip s = "".
Proof.
  destruct s as [|c s]; [done|]. simpl Str.rstrip.
  destruct (String.eqb (Str.lstrip (String c s)) "") eqn:Hs.
  - apply String.eqb_eq in Hs. by rewrite Hs.
  - apply String.eqb_neq in Hs. split; [done|]. intros Hs'. by rewrite Hs' in Hs.
Qed.

Lemma strip_empty (s : string) : Str.strip s = "" ↔ Str.lstrip s = "".
Proof. unfold Str.strip. by rewrite rstrip_empty, lstrip_idem. Qed.

Lemma split_from_word (k : nat) (word s : string) :
  word ≠ "" → Str.split_from k word s ≠ [].
Proof.
  revert k word. induction s as [|c s IH]; intros k word Hw; simpl.
  - apply String.eqb_neq in Hw. by rewrite Hw.
  - destruct k as [|k]; [|by apply IH].
    destruct (Str.space_width (String c s)) as [|k].
    + apply IH. by destruct word.
    + apply String.eqb_neq in Hw. by rewrite Hw.
Qed.

Lemma split_from_empty (k : nat) (s : string) :
  Str.split_from k "" s = [] ↔ Str.lstrip_from k s = "".
Proof.
  revert k. induction s as [|c s IH]; intros k; [done|].
  simpl Str.split_from. simpl Str.lstrip_from.
  destruct k as [|k]; [|apply IH].
  destruct (Str.space_width (String c s)) as [|k]; [|apply IH].
  split; [|done]. intros Hs. by apply split_from_word in Hs.
Qed.

Lemma split_empty (s : string) : Str.split s = [] ↔ Str.lstrip s = "".
Proof. apply split_from_empty. Qed.

(** A whitespace code point is recognised from its own bytes: a text that
    does not start with one does not start with one when it is cut
    short. *)
Lemma space_width_cut (c : ascii) (s p : string) :
  String.prefix p s = true →
  Str.space_width (String c s) = 0%nat → Str.space_width (String c p) = 0%nat.
Proof.
  intros Hp. unfold Str.space_width.
  match goal with |- context [if ?b then 1%nat else _] => destruct b end; [done|].
  destruct p as [|c1 p]; [done|].
  destruct s as [|c1' s]; [done|]. simpl in Hp.
  destruct (ascii_dec c1 c1') as [<-|]; [|done].
  match goal with |- context [if ?b then 2%nat else _] => destruct b end; [done|].
  destruct p as [|c2 p]; [done|].
  destruct s as [|c2' s]; [done|]. simpl in Hp.
  by destruct (ascii_dec c2 c2') as [<-|].
Qed.

Lemma rstrip_prefix (s : string) : String.prefix (Str.rstrip s) s = true.
Proof.
  induction s as [|c s IH]; [done|]. simpl Str.rstrip.
  destruct (String.eqb _ ""); [done|]. simpl.
  by destruct (ascii_dec c c).
Qed.

Lemma lstrip_strip (s : string) : Str.lstrip (Str.strip s) = "" ↔ Str.lstrip s = "".
Proof.
  unfold Str.strip.
  destruct (lstrip_from_head 0 s) as [Hs|Hs]; fold (Str.lstrip s) in Hs.
  { by rewrite Hs. }
  destruct (Str.lstrip s) as [|c t] eqn:Ht; [done|].
  simpl Str.rstrip. rewrite (lstrip_fixed (String c t)) by done. simpl.
  rewrite lstrip_fixed; [done|].
  eapply space_width_cut; [apply rstrip_prefix|done].
Qed.

Lemma split_strip_empty (s : string) :
  Str.split (Str.strip s) = [] ↔ Str.lstrip s = "".
Proof. by rewrite split_empty, lstrip_strip. Qed.

Lemma join_empty (sep : string) (l : list string) :
  (∀ s, s ∈ l → s ≠ "") → Str.join sep l = "" ↔ l = [].
Proof.
  intros Hl. split; [|by intros ->].
  destruct l as [|s l]; [done|]. intros Hjoin. exfalso.
  apply (Hl s); [left|]. unfold Str.join in Hjoin. simpl in Hjoin.
  destruct l; [done|]. by destruct s.
Qed.

(** ** [scrape_article] *)

Lemma pass_untouched (step : Row → Row * option exn) (from_status : string)
    (db : Store) (k : nat) (r : Row) :
  db !! k = Some r → status r ≠ from_status →
  (pass step from_status db).2 !! k = Some r.
Proof.
  revert k. induction db as [|a rest IH]; intros k Hk Hr; [done|]. simpl.
  destruct k as [|k]; simpl in Hk.
  - injection Hk as ->. apply String.eqb_neq in Hr. rewrite Hr.
    by destruct (pass step from_status rest).
  - specialize (IH k Hk Hr).
    destruct (String.eqb (status a) from_status).
    + destruct (step a) as [b [e|]]; [done|].
      by destruct (pass step from_status rest).
    + by destruct (pass step from_status rest).
Qed.

Section scrape_article_facts.
Context `{Calendar} `{Strptime}.
Variable goto : string → result Page.

(** X5.  How [scrape_article] ends on a page the browser has loaded.
    Without an [h1] it raises [RuntimeError].  With one, the title is the
    first [h1], stripped, the content is the paragraphs that are not
    blank, and the published date is never [None]: without a date line it
    is the time of the call; with one it is the date that the first word
    left of the first date line, without its two markers, reads as
    [%d.%m.%Y].  The call raises [IndexError] when no word is left of
    that line, which is when nothing but whitespace is left of it, and
    [ValueError] when the first word is no such date; the runner catches
    neither.  The content is empty exactly when every paragraph is
    blank. *)
Theorem scrape_article_outcome (clk : Clock) (url : string) (page : Page) :
  goto url = Ok page →
  (h1 page = [] → scrape_article goto clk url = Raise RuntimeError)
  ∧ (∀ first, head (h1 page) = Some first →
       (stand page = [] →
        scrape_article goto clk url
        = Ok (Str.strip first, page_content (article_p page),
              Some (isoformat (now clk))))
       ∧ (∀ line, head (stand page) = Some line →
            (date_words line = [] →
             scrape_article goto clk url = Raise IndexError)
            ∧ (∀ word, head (date_words line) = Some word →
                 (∀ day, strptime_date word "%d.%m.%Y" = Some day →
                         scrape_article goto clk url
                         = Ok (Str.strip first, page_content (article_p page),
                               Some (date_isoformat day)))
                 ∧ (strptime_date word "%d.%m.%Y" = None →
                    scrape_article goto clk url = Raise ValueError))))
  ∧ (∀ title content published_date,
       scrape_article goto clk url = Ok (title, content, published_date) →
       (∃ first, head (h1 page) = Some first ∧ title = Str.strip first)
       ∧ content = page_content (article_p page)
       ∧ ∃ d, published_date = Some d)
  ∧ (∀ e, scrape_article goto clk url = Raise e →
          (e = RuntimeError ∧ h1 page = [])
          ∨ (h1 page ≠ [] ∧ stand page ≠ [] ∧ declared e = false))
  ∧ (page_content (article_p page) = ""
     ↔ ∀ p, p ∈ article_p page → Str.lstrip p = "")
  ∧ (∀ line, date_words line = []
             ↔ Str.lstrip (Str.replace "Uhr" "" (Str.replace "Stand:" "" line)) = "").
Proof.
  intros Hpage.
  assert (Hcontent :
    page_content (article_p page) = ""
    ↔ ∀ p, p ∈ article_p page → Str.lstrip p = "").
  { unfold page_content. rewrite join_empty.
    - split.
      + intros Hall%map_eq_nil p Hp. apply strip_empty.
        destruct (decide (Str.strip p = "")) as [|Hne]; [done|].
        exfalso. by eapply (filter_nil_iff _ (article_p page)).
      + intros Hall.
        assert (filter (λ p, Str.strip p ≠ "") (article_p page) = []) as ->; [|done].
        apply filter_nil_iff. intros p Hp Hne. apply Hne, strip_empty. by apply Hall.
    - intros s (p & -> & Hp)%list_elem_of_fmap.
      by apply list_elem_of_filter in Hp as [Hne _]. }
  assert (Hwords : ∀ line, date_words line = []
            ↔ Str.lstrip (Str.replace "Uhr" "" (Str.replace "Stand:" "" line)) = "").
  { intros line. apply split_strip_empty. }
  unfold scrape_article, date_words, page_content in *. rewrite Hpage. simpl.
  destruct (h1 page) as [|title titles] eqn:Hh1.
  { split; [done|]. split; [done|]. split; [done|]. split; [|done].
    intros e [= <-]. by left. }
  split; [done|].
  destruct (stand page) as [|line0 rest] eqn:Hstand; simpl.
  { split; [|split; [|split; [done|done]]].
    - intros first [= <-]. split; [done|]. by intros line.
    - intros t c d [= <- <- <-]. split; [by exists title|]. split; [done|].
      by eexists. }
  destruct (Str.split _) as [|word words] eqn:Hsplit; simpl.
  { split; [|split; [|split; [|done]]].
    - intros first [= <-]. split; [done|]. intros line [= <-]. rewrite Hsplit.
      split; [done|]. by intros w.
    - done.
    - intros e [= <-]. right. done. }
  destruct (strptime_date word "%d.%m.%Y") as [day|] eqn:Hday; simpl.
  - split; [|split; [|split; [done|done]]].
    + intros first [= <-]. split; [done|]. intros line [= <-]. rewrite Hsplit.
      split; [done|]. intros w [= <-]. rewrite Hday.
      split; [by intros d [= <-]|done].
    + intros t c d [= <- <- <-]. split; [by exists title|]. split; [done|].
      by eexists.
  - split; [|split; [|split; [|done]]].
    + intros first [= <-]. split; [done|]. intros line [= <-]. rewrite Hsplit.
      split; [done|]. intros w [= <-]. rewrite Hday. split; [done|done].
    + done.
    + intros e [= <-]. right. done.
Qed.

(** X8.  A date line without a date stops the scrape stage.  When the
    first new article of a table with unique ids has a page with a title
    and a date line whose first word is no date, [scrape_all_new_articles]
    re-raises [IndexError] or [ValueError] and leaves that article in
    status "scraping" and every other row as it was; and no later run
    of either stage changes that row. *)
Theorem unparsed_date_stops_the_run
    (scraper : string → result (string * string * option string))
    (clk : Clock) (pre rest : Store) (a : Row) (page : Page) (first : string) :
  NoDup (map row_id (pre ++ a :: rest)) →
  (∀ r, r ∈ pre → status r ≠ "new") → status a = "new" →
  scraper (article_url a) = scrape_article goto clk (article_url a) →
  goto (article_url a) = Ok page → h1 page ≠ [] →
  head (stand page) = Some first →
  (∀ word,
     head (Str.split (Str.strip (Str.replace "Uhr" ""
                                   (Str.replace "Stand:" "" first)))) = Some word →
     strptime_date word "%d.%m.%Y" = None) →
  ∃ e, (e = IndexError ∨ e = ValueError) ∧ declared e = false
       ∧ scrape_all_new_articles scraper (pre ++ a :: rest)
         = (Raise e, pre ++ set_status "scraping" a :: rest)
       ∧ ∀ scraper' translate_and_summarize classify_article bot_send_message,
           (scrape_all_new_articles scraper'
              (pre ++ set_status "scraping" a :: rest)).2 !! length pre
           = Some (set_status "scraping" a)
           ∧ (process_steps translate_and_summarize classify_article
                            bot_send_message
                            (pre ++ set_status "scraping" a :: rest)).2 !! length pre
             = Some (set_status "scraping" a).
Proof.
  intros Hnd Hpre Ha Hscraper Hpage Hh1 Hstand Hdate.
  assert (Hraise : ∃ e, (e = IndexError ∨ e = ValueError)
                        ∧ scraper (article_url a) = Raise e).
  { rewrite Hscraper. unfold scrape_article. rewrite Hpage. simpl.
    destruct (h1 page) as [|title titles]; [done|].
    destruct (stand page) as [|first' rest']; [done|]. injection Hstand as ->.
    simpl. destruct (Str.split _) as [|word words]; [by exists IndexError; eauto|].
    simpl. rewrite (Hdate word eq_refl). exists ValueError; eauto. }
  destruct Hraise as (e & He & Hraise). exists e. split; [done|].
  assert (Hdecl : declared e = false) by (by destruct He as [->| ->]).
  split; [done|]. split.
  - rewrite scrape_all_new_articles_from by done. simpl.
    apply String.eqb_eq in Ha. rewrite Ha. unfold scrape_row.
    by rewrite Hraise, Hdecl.
  - assert (Hnd' : NoDup (map row_id (pre ++ set_status "scraping" a :: rest))).
    { by rewrite map_app in *. }
    assert (Hk : (pre ++ set_status "scraping" a :: rest) !! length pre
                 = Some (set_status "scraping" a)).
    { by rewrite lookup_app_r, Nat.sub_diag by lia. }
    intros scraper' translate_and_summarize classify_article bot_send_message.
    assert (Hempty : ∀ from_status r, r ∈ @nil Row → status r ≠ from_status)
      by (by intros from_status r ?%not_elem_of_nil).
    pose proof (scrape_all_new_articles_from scraper' [] _ Hnd' (Hempty "new"))
      as Hscrape.
    pose proof (process_steps_from translate_and_summarize classify_article
                  bot_send_message [] _ _ Hnd' (Hempty "scrapped") eq_refl)
      as Htranslate.
    simpl in Hscrape, Htranslate. rewrite Hscrape, Htranslate.
    split; by apply pass_untouched.
Qed.

End scrape_article_facts.

(** ** Telegram: what is sent and what comes back *)

Lemma split_on_uint (d : Decimal.uint) :
  Str.split_on ":" (NilEmpty.string_of_uint d) = [NilEmpty.string_of_uint d].
Proof. induction d; simpl; by rewrite ?IHd. Qed.

Lemma split_on_of_Z (n : Z) : Str.split_on ":" (Str.of_Z n) = [Str.of_Z n].
Proof.
  unfold Str.of_Z.
  destruct (Z.to_int n) as [d|d]; simpl.
  - destruct d; try apply split_on_uint. done.
  - assert (Hd : Str.split_on ":" (NilZero.string_of_uint d)
                 = [NilZero.string_of_uint d]).
    { destruct d; try apply split_on_uint. done. }
    by rewrite Hd.
Qed.

Lemma canonical_int (n : Z) : Canonical.parse_int (Str.of_Z n) = Some n.
Proof.
  unfold Canonical.parse_int, Str.of_Z.
  destruct (decide (n = 0)) as [->|Hn]; [done|].
  rewrite NilZero.isi.
  - simpl. by rewrite DecimalZ.of_to.
  - intros Heq. apply (f_equal Z.of_int) in Heq. rewrite DecimalZ.of_to in Heq. done.
  - intros Heq. apply (f_equal Z.of_int) in Heq. rewrite DecimalZ.of_to in Heq. done.
Qed.

Section telegram_facts.
Context `{Calendar} `{Builtins}.
Variable bot : Message → result unit.

(** What a feedback callback does once its three fields are read. *)
Lemma handle_callback_fields (clock : nat → Clock) (query : CallbackQuery)
    (db : Store) (sent : list Message) (text prefix value number : string)
    (i : Z) (row : Row) :
  data query = Some text → Str.startswith text "feedback" = true →
  Str.split_on ":" text = [prefix; value; number] → int number = Some i →
  filter (λ r, eq_id i r = true) db = [row] →
  handle_callback bot (Ok ()) clock query db sent
  = if String.eqb value "up"
    then ((reply_text bot query ("<b>Saved:</b> " +:+ Str.of_option (title_en row))
                      sent).1,
          handle_thumbs_up (clock 0%nat) i db,
          (reply_text bot query ("<b>Saved:</b> " +:+ Str.of_option (title_en row))
                      sent).2)
    else ((reply_text bot query
                      ("<b>Not saved:</b> " +:+ Str.of_option (title_en row)) sent).1,
          handle_thumbs_down (clock 0%nat) i db,
          (reply_text bot query
                      ("<b>Not saved:</b> " +:+ Str.of_option (title_en row)) sent).2).
Proof.
  intros Hdata Hstart Hsplit Hint Hrow. unfold handle_callback.
  rewrite Hdata, Hstart, Hsplit, Hint, Hrow.
  destruct (String.eqb value "up"); by destruct (reply_text _ _ _ _).
Qed.

(** X23.  The buttons [send_article_notification] attaches are understood
    by [handle_callback].  For an article that is in the table under an
    id of its own, whose id [int] reads back from its decimal form: the
    keyboard is the two feedback buttons and, when asked for, the button
    for more; pressing the first records a thumbs-up for the article and
    replies "Saved" with its title, pressing the second records a
    thumbs-down and replies "Not saved", and pressing the third runs
    [send_recommendations_on_demand] for the chat. *)
Theorem buttons_are_understood (clock : nat → Clock) (chat user : Z)
    (article : Row) (more : bool) (db : Store) (sent : list Message) :
  int (Str.of_Z (row_id article)) = Some (row_id article) →
  filter (λ r, eq_id (row_id article) r = true) db = [article] →
  ∃ up down,
    keyboard article more
    = [up; down]
      :: (if more then [[mkButton "More recommendations" "recommend_more"]] else [])
    ∧ text up = "Interested!" ∧ text down = "Not interested"
    ∧ (let '(r, db', sent') :=
         handle_callback bot (Ok ()) clock
                         (mkQuery (Some (callback_data up)) (Some chat) user) db sent in
       db' = handle_thumbs_up (clock 0%nat) (row_id article) db
       ∧ (r, sent')
         = send_message bot
             (mkMessage chat ("<b>Saved:</b> " +:+ Str.of_option (title_en article))
                        None (Some "HTML") None) sent)
    ∧ (let '(r, db', sent') :=
         handle_callback bot (Ok ()) clock
                         (mkQuery (Some (callback_data down)) (Some chat) user) db sent in
       db' = handle_thumbs_down (clock 0%nat) (row_id article) db
       ∧ (r, sent')
         = send_message bot
             (mkMessage chat ("<b>Not saved:</b> " +:+ Str.of_option (title_en article))
                        None (Some "HTML") None) sent)
    ∧ handle_callback bot (Ok ()) clock
                      (mkQuery (Some "recommend_more") (Some chat) user) db sent
      = send_recommendations_on_demand bot clock chat db sent.
Proof.
  intros Hint Hrow.
  assert (Hup : Str.split_on ":" ("feedback:up:" +:+ Str.of_Z (row_id article))
                = ["feedback"; "up"; Str.of_Z (row_id article)]).
  { simpl. change ("" +:+ ?s) with s. by rewrite split_on_of_Z. }
  assert (Hdown : Str.split_on ":" ("feedback:down:" +:+ Str.of_Z (row_id article))
                  = ["feedback"; "down"; Str.of_Z (row_id article)]).
  { simpl. change ("" +:+ ?s) with s. by rewrite split_on_of_Z. }
  eexists _, _. split; [by destruct more|].
  split; [done|]. split; [done|].
  split; [|split; [|done]].
  - erewrite handle_callback_fields; [|done|done|exact Hup|exact Hint|exact Hrow].
    cbn [String.eqb Ascii.eqb Bool.eqb]. unfold reply_text. cbn [message_chat].
    by destruct (send_message _ _ _).
  - erewrite handle_callback_fields; [|done|done|exact Hdown|exact Hint|exact Hrow].
    cbn [String.eqb Ascii.eqb Bool.eqb]. unfold reply_text. cbn [message_chat].
    by destruct (send_message _ _ _).
Qed.

(** X24.  Any feedback value but "up" is a thumbs-down.  For callback data
    that starts with "feedback" and has three fields, a second field that
    is not "up" and a third that [int] reads as the id of one row, the
    table after [handle_callback] is the table after [handle_thumbs_down]:
    the article is there, with feedback "down", inactive, and no
    candidate. *)
Theorem feedback_other_than_up_hides (clock : nat → Clock) (query : CallbackQuery)
    (db : Store) (sent : list Message) (text prefix value number : string)
    (i : Z) (row : Row) :
  data query = Some text → Str.startswith text "feedback" = true →
  Str.split_on ":" text = [prefix; value; number] → value ≠ "up" →
  int number = Some i →
  filter (λ r, eq_id i r = true) db = [row] →
  (handle_callback bot (Ok ()) clock query db sent).1.2
  = handle_thumbs_down (clock 0%nat) i db
  ∧ (∃ r, r ∈ (handle_callback bot (Ok ()) clock query db sent).1.2 ∧ row_id r = i)
  ∧ ∀ r, r ∈ (handle_callback bot (Ok ()) clock query db sent).1.2 → row_id r = i →
         feedback r = Some "down" ∧ active r = false ∧ unseen r = false.
Proof.
  intros Hdata Hstart Hsplit Hvalue Hint Hrow.
  erewrite handle_callback_fields by done.
  apply String.eqb_neq in Hvalue. rewrite Hvalue. simpl.
  split; [done|]. unfold handle_thumbs_down.
  assert (Hin : row ∈ db ∧ row_id row = i).
  { assert (Hr : row ∈ [row]) by left. rewrite <- Hrow in Hr.
    by apply list_elem_of_filter in Hr as [Hi%eq_id_iff Hr]. }
  destruct Hin as [Hin Hi]. split.
  - exists (set_feedback_down (isoformat (now (clock 0%nat))) row). split; [|done].
    apply update_elem. exists row. split; [done|].
    by rewrite (proj2 (eq_id_iff i row) Hi).
  - intros r' (r & Hr & ->)%update_elem Hid.
    destruct (eq_id i r) eqn:Hir; [done|]. apply eq_id_iff in Hid. congruence.
Qed.

Lemma send_recommendations_on_demand_rows (clock : nat → Clock) (chat : Z)
    (db : Store) (sent : list Message) :
  match get_recommendations clock 2 db with
  | (Raise e, db') =>
      send_recommendations_on_demand bot clock chat db sent = (Raise e, db, sent)
      ∧ e = ValueError
  | (Ok recommendations, db') =>
      ∃ m, send_recommendations_on_demand bot clock chat db sent
           = match bot m with
             | Ok _ => (Ok (), db', sent ++ [m])
             | Raise e => (Raise e, db', sent)
             end
  end.
Proof.
  unfold send_recommendations_on_demand.
  pose proof (get_recommendations_error clock 2 db) as Herr.
  destruct (get_recommendations clock 2 db) as [[recommendations|e] db'];
    simpl in *.
  - unfold send_message.
    destruct recommendations as [|a recommendations];
      match goal with
      | |- context [bot ?m] => exists m; by destruct (bot m) as [[]|]
      end.
  - destruct (Herr e eq_refl) as [-> ->]. done.
Qed.

(** X26.  [send_recommendations_on_demand] asks for two recommendations.
    When [get_recommendations] raises, by [ValueError], nothing is sent
    and nothing written.  Otherwise at most two articles are returned and
    the rows of all other articles are kept; one message goes to the
    chat, without a keyboard: "No new recommendations yet." for no
    article, else the heading and one line per article; and the table is
    the one [get_recommendations] left, also when the bot raises, so the
    articles stay marked as recommended though the message was not
    sent. *)
Theorem send_recommendations_on_demand_sends (clock : nat → Clock) (chat : Z)
    (db : Store) (sent : list Message) :
  match get_recommendations clock 2 db with
  | (Raise e, db') =>
      send_recommendations_on_demand bot clock chat db sent = (Raise e, db, sent)
      ∧ e = ValueError
  | (Ok recommendations, db') =>
      (length recommendations ≤ 2)%nat
      ∧ (∀ r, r ∈ db → row_id r ∉ map a_id recommendations → r ∈ db')
      ∧ ∃ m,
          chat_id m = chat ∧ reply_markup m = None
          ∧ message_text m
            = match recommendations with
              | [] => "No new recommendations yet."
              | _ :: _ =>
                  recommended_sign +:+ " <b>Recommended for you</b>"
                  +:+ Str.LF +:+ Str.LF
                  +:+ Str.join Str.LF
                        (map format_recommendation_message recommendations)
              end
          ∧ send_recommendations_on_demand bot clock chat db sent
            = match bot m with
              | Ok _ => (Ok (), db', sent ++ [m])
              | Raise e => (Raise e, db', sent)
              end
  end.
Proof.
  unfold send_recommendations_on_demand.
  pose proof (get_recommendations_error clock 2 db) as Herr.
  pose proof (recommend_rows clock 2 db) as Hrows.
  assert (Hlen : (length (returned (Recommend clock 2) db) ≤ 2)%nat).
  { simpl. unfold get_recommendations.
    destruct (get_topic_preferences db) as [prefs|]; simpl; [|lia].
    case_bool_decide; simpl; [lia|].
    destruct (get_unseen_articles db) as [|a0 rest]; [simpl; lia|].
    destruct (score_all clock 0 (a0 :: rest) prefs) as [scored|]; simpl; [|lia].
    rewrite length_map. unfold slice_to. simpl. rewrite length_take. lia. }
  simpl in Hlen, Hrows.
  destruct (get_recommendations clock 2 db) as [[recommendations|e] db'];
    simpl in *.
  - split; [done|]. split.
    { intros r Hr Hid. rewrite Hrows. apply list_elem_of_fmap. exists r.
      split; [|done]. unfold mark_row. by rewrite bool_decide_eq_false_2. }
    unfold send_message.
    destruct recommendations as [|a recommendations];
      match goal with
      | |- context [bot ?m] =>
          exists m; split; [done|]; split; [done|]; split; [done|];
          by destruct (bot m) as [[]|]
      end.
  - destruct (Herr e eq_refl) as [-> ->]. done.
Qed.

(** X25.  With Telegram accepting every message and the pressed button's
    message at hand, a call of [handle_callback] that raises has written
    nothing and sent nothing.  What it raises is the attribute error of
    missing data, [ValueError], or the store's [APIError]; the last for
    data of three fields whose third [int] reads as an id that is not the
    id of exactly one row. *)
Theorem handle_callback_raises (clock : nat → Clock) (query : CallbackQuery)
    (db : Store) (sent : list Message) (chat : Z) (e : exn) :
  message_chat query = Some chat → (∀ m, bot m = Ok ()) →
  (handle_callback bot (Ok ()) clock query db sent).1.1 = Raise e →
  handle_callback bot (Ok ()) clock query db sent = (Raise e, db, sent)
  ∧ (e = OtherError ∧ data query = None
     ∨ e = ValueError
     ∨ e = APIError
       ∧ ∃ text prefix value number i,
           data query = Some text
           ∧ Str.split_on ":" text = [prefix; value; number]
           ∧ int number = Some i
           ∧ ∀ row, filter (λ r, eq_id i r = true) db ≠ [row]).
Proof.
  intros Hchat Hbot. unfold handle_callback.
  destruct (data query) as [text|] eqn:Hdata; [|intros [= <-]; eauto].
  destruct (Str.startswith text "feedback").
  - destruct (Str.split_on ":" text) as [|prefix [|value [|number [|? ?]]]] eqn:Hsplit;
      try (intros [= <-]; by eauto).
    destruct (int number) as [i|] eqn:Hint; [|intros [= <-]; by eauto].
    destruct (filter _ db) as [|row [|? ?]] eqn:Hrow.
    + intros [= <-]. split; [done|]. right. right. split; [done|].
      exists text, prefix, value, number, i. by rewrite Hrow.
    + unfold reply_text, send_message. rewrite Hchat.
      destruct (String.eqb value "up"); by rewrite Hbot.
    + intros [= <-]. split; [done|]. right. right. split; [done|].
      exists text, prefix, value, number, i. by rewrite Hrow.
  - destruct (String.eqb text "recommend_more"); [|intros [= <-]; by eauto].
    rewrite Hchat.
    pose proof (send_recommendations_on_demand_rows clock chat db sent) as Hsend.
    destruct (get_recommendations clock 2 db) as [[recommendations|e'] db'].
    + destruct Hsend as (m & ->). by rewrite Hbot.
    + destruct Hsend as [-> ->]. intros [= <-]. by eauto.
Qed.

End telegram_facts.

(** ** The article message *)

Lemma space_width_le (s : string) : (Str.space_width s ≤ 3)%nat.
Proof.
  unfold Str.space_width. destruct s as [|c0 [|c1 [|c2 s]]];
    repeat match goal with |- context [if ?b then _ else _] => destruct b end; lia.
Qed.

Lemma lstrip_from_closed (k : nat) (s : string) :
  (k ≤ 2)%nat →
  Str.lstrip_from k (s +:+ "</a>" +:+ Str.LF) ≠ "".
Proof.
  revert k. induction s as [|c s IH]; intros k Hk.
  - destruct k as [|[|[|k]]]; [done|done|done|lia].
  - change (String c s +:+ "</a>" +:+ Str.LF)
      with (String c (s +:+ "</a>" +:+ Str.LF)).
    simpl Str.lstrip_from. destruct k as [|k]; [|apply IH; lia].
    pose proof (space_width_le (String c (s +:+ "</a>" +:+ Str.LF))) as Hle.
    destruct (Str.space_width _) as [|k]; [done|]. apply IH. lia.
Qed.

Lemma rstrip_closed (s : string) :
  Str.rstrip (s +:+ "</a>" +:+ Str.LF) = s +:+ "</a>".
Proof.
  induction s as [|c s IH]; [done|].
  change (String c s +:+ "</a>" +:+ Str.LF)
    with (String c (s +:+ "</a>" +:+ Str.LF)).
  simpl Str.rstrip.
  pose proof (lstrip_from_closed 0 (String c s)) as Hne.
  unfold Str.lstrip.
  change (String c s +:+ "</a>" +:+ Str.LF)
    with (String c (s +:+ "</a>" +:+ Str.LF)) in Hne.
  destruct (String.eqb_spec (Str.lstrip_from 0 (String c (s +:+ "</a>" +:+ Str.LF))) "")
    as [Heq|_]; [by apply Hne in Heq; [|lia]|].
  by rewrite IH.
Qed.

Lemma append_assoc (a b c : string) : a +:+ (b +:+ c) = (a +:+ b) +:+ c.
Proof.
  induction a as [|x a IH]; [done|].
  change (String x (a +:+ (b +:+ c)) = String x ((a +:+ b) +:+ c)). by rewrite IH.
Qed.

(** X22.  The text of [format_article_message]: [strip] takes off the two
    line feeds at the ends of the template and nothing of the columns of
    the article, whatever they hold; a column that is [None] is printed
    as "None". *)
Theorem format_article_message_text (article : Row) :
  format_article_message article
  = "<b>" +:+ Str.of_option (title_en article) +:+ "</b>" +:+ Str.LF +:+
    Str.LF +:+
    "<b>Category:</b> " +:+ Str.of_option (category article) +:+ Str.LF +:+
    "<b>Topic:</b> " +:+ Str.of_option (topic article) +:+ Str.LF +:+
    "<b>Sentiment:</b> " +:+ Str.of_option (sentiment article) +:+ Str.LF +:+
    "<b>Urgency:</b> " +:+ Str.of_option (urgency article) +:+ Str.LF +:+
    Str.LF +:+
    "<b>Overview:</b>" +:+ Str.LF +:+
    Str.of_option (summary_en article) +:+ Str.LF +:+
    Str.LF +:+
    link_sign +:+ " <a href=" +:+ Str.quote +:+ article_url article +:+
    Str.quote +:+ ">Read full article here</a>".
Proof.
  unfold format_article_message, Str.strip.
  match goal with
  | |- Str.rstrip (Str.lstrip (Str.LF +:+ ?body)) = _ =>
      change (Str.lstrip (Str.LF +:+ body)) with body
  end.
  change (">Read full article here</a>" +:+ Str.LF)
    with (">Read full article here" +:+ "</a>" +:+ Str.LF).
  change ">Read full article here</a>" with (">Read full article here" +:+ "</a>").
  set (closed := "</a>" +:+ Str.LF). rewrite !append_assoc. subst closed.
  apply rstrip_closed.
Qed.

(** ** The score between its bounds *)

Section score_bounds.
Context `{Calendar}.

(** X15.  When the latest like of the article's topic is not after the
    clock and its published date is not after today, a score that
    [score_article] returns is between [3 * count] and [3 * count + 8]
    when the article's topic is not empty and is a key of the profile
    with that count, and between 0 and 3 when the article has no topic,
    an empty topic or a topic that is no key. *)
Theorem score_article_bounds (clk : Clock) (article : Article)
    (prefs : gmap string TopicPreference) (v : Z) :
  score_article clk article prefs = Ok v →
  (∀ t pref, a_topic article = Some t → prefs !! t = Some pref →
             latest pref ≤ now clk) →
  (∀ d day, a_published_date article = Some d →
            date_fromisoformat (substring 0 10 d) = Some day → day ≤ today clk) →
  (∀ t pref, a_topic article = Some t → t ≠ "" → prefs !! t = Some pref →
             3 * count pref ≤ v ≤ 3 * count pref + 8)
  ∧ (a_topic article = None ∨ a_topic article = Some ""
     ∨ (∃ t, a_topic article = Some t ∧ prefs !! t = None) →
     0 ≤ v ≤ 3).
Proof.
  intros Hv Hpast Hpublished.
  assert (Hfresh : ∀ base : Z,
    match a_published_date article with
    | Some published_date =>
        if truthy (Some published_date)
        then match date_fromisoformat (substring 0 10 published_date) with
             | Some created_date =>
                 Ok (base + Z.max 0 (3 - (today clk - created_date)))
             | None => Raise ValueError
             end
        else Ok base
    | None => Ok base
    end = Ok v → base ≤ v ≤ base + 3).
  { intros base. destruct (a_published_date article) as [d|]; [|intros [= <-]; lia].
    destruct (truthy (Some d)); [|intros [= <-]; lia].
    destruct (date_fromisoformat _) as [day|] eqn:Hday; [|done].
    intros [= <-]. specialize (Hpublished d day eq_refl Hday). lia. }
  revert Hv. unfold score_article.
  destruct (a_topic article) as [t|] eqn:Ht.
  2:{ intros Hv%Hfresh. split; [done|]. intros _. lia. }
  destruct (truthy (Some t)) eqn:Htruthy.
  2:{ intros Hv%Hfresh. split; [|intros _; lia].
      intros t' pref [= <-] Hne. apply truthy_Some in Hne. congruence. }
  destruct (prefs !! t) as [pref|] eqn:Hpref.
  2:{ intros Hv%Hfresh. split; [|intros _; lia].
      intros t' pref [= <-] _. by rewrite Hpref. }
  intros Hv%Hfresh. split.
  - intros t' pref' [= <-] _ Hpref'. rewrite Hpref in Hpref'. injection Hpref' as <-.
    specialize (Hpast t pref eq_refl Hpref).
    assert (0 ≤ timedelta_days (now clk - latest pref)).
    { unfold timedelta_days, microseconds_per_day. apply Z.div_pos; lia. }
    lia.
  - intros [Hnone|[Hempty|(t' & [= <-] & Hnone)]]; [done| |by rewrite Hpref in Hnone].
    injection Hempty as ->. discriminate Htruthy.
Qed.

End score_bounds.

(** ** Feedback given twice *)

Section feedback_twice.
Context `{Calendar}.

Lemma update_update (f g : Row → Row) (i : Z) (db : Store) :
  (∀ r, row_id (g r) = row_id r) →
  (update f (eq_id i) (update g (eq_id i) db).1).1
  = (update (f ∘ g) (eq_id i) db).1.
Proof.
  intros Hg. unfold update. simpl. rewrite map_map. apply map_ext. intros r.
  destruct (eq_id i r) eqn:Hi.
  - unfold eq_id in *. by rewrite Hg, Hi.
  - by rewrite Hi.
Qed.

(** X21.  Feedback given twice on the same article: the later call
    overwrites the earlier one, except that a thumbs-up after a
    thumbs-down leaves the article inactive, so that the profile is what
    it was after the thumbs-down. *)
Theorem last_feedback_wins (clk1 clk2 : Clock) (i : Z) (db : Store) :
  handle_thumbs_up clk2 i (handle_thumbs_up clk1 i db) = handle_thumbs_up clk2 i db
  ∧ handle_thumbs_down clk2 i (handle_thumbs_up clk1 i db)
    = handle_thumbs_down clk2 i db
  ∧ handle_thumbs_down clk2 i (handle_thumbs_down clk1 i db)
    = handle_thumbs_down clk2 i db
  ∧ handle_thumbs_up clk2 i (handle_thumbs_down clk1 i db)
    = map (λ r, if eq_id i r
                then mkRow (row_id r) (article_url r) (category r) (status r)
                           (title_de r) (content_de r) (published_date r)
                           (title_en r) (content_en r) (summary_en r)
                           (topic r) (sentiment r) (urgency r)
                           (Some "up") (Some (isoformat (now clk2))) false
                           (recommended_at r)
                else r) db
  ∧ get_topic_preferences (handle_thumbs_up clk2 i (handle_thumbs_down clk1 i db))
    = get_topic_preferences (handle_thumbs_down clk1 i db).
Proof.
  unfold handle_thumbs_up, handle_thumbs_down.
  rewrite !update_update by done.
  split; [done|]. split; [done|]. split; [done|]. split; [done|].
  unfold get_topic_preferences. f_equal. unfold update. simpl.
  induction db as [|r db IH]; [done|]. simpl. rewrite !filter_cons, IH.
  by destruct (eq_id i r).
Qed.

End feedback_twice.

(** ** The theorems above on the worked data *)

Lemma get_recommendations_raises_witness :
  (get_recommendations at_noon 2 bad_feedback).1 = Raise ValueError
  ∧ (get_recommendations at_noon 2 bad_feedback).2 = bad_feedback
  ∧ ∃ r, r ∈ bad_feedback ∧ contributes r = true ∧ like_instant r = None.
Proof.
  assert (Hraise : (get_recommendations at_noon 2 bad_feedback).1 = Raise ValueError).
  { vm_compute. reflexivity. }
  split; [exact Hraise|].
  destruct (get_recommendations_raises at_noon 2 bad_feedback ValueError Hraise)
    as (_ & Hdb & [Hlike|(a & d & Ha & _)]).
  - split; [exact Hdb|exact Hlike].
  - exfalso. vm_compute in Ha. by apply not_elem_of_nil in Ha.
Defined.

Lemma recommendations_run_out_witness :
  Z.of_nat (length (get_unseen_articles newsroom)) ≤ 5
  ∧ ∃ recommendations,
      (get_recommendations at_noon 5 newsroom).1 = Ok recommendations
      ∧ recommendations ≠ []
      ∧ recommendations ≡ₚ get_unseen_articles newsroom
      ∧ get_recommendations at_noon 2 (get_recommendations at_noon 5 newsroom).2
        = (Ok [], (get_recommendations at_noon 5 newsroom).2).
Proof.
  assert (Hlen : Z.of_nat (length (get_unseen_articles newsroom)) ≤ 5).
  { vm_compute. discriminate. }
  split; [exact Hlen|].
  destruct ((get_recommendations at_noon 5 newsroom).1) as [recommendations|e]
    eqn:Hrecs; [|by vm_compute in Hrecs].
  assert (Hne : recommendations ≠ []).
  { intros ->. by vm_compute in Hrecs. }
  exists recommendations. split; [done|]. split; [exact Hne|].
  exact (recommendations_run_out at_noon at_noon 5 2 newsroom recommendations
           Hlen Hrecs Hne).
Defined.

Lemma liked_topics_score_witness :
  get_topic_preferences feedback_table
  = Ok {[ "Economy" := mkPref 2 (Iso.midnight 2026 3 1 + 11 * 3600 * 1000000);
          "Health" := mkPref 1 (Iso.midnight 2026 2 20 + 10 * 3600 * 1000000) ]}
  ∧ ∀ v, score_article noon economy_today
           {[ "Economy" := mkPref 2 (Iso.midnight 2026 3 1 + 11 * 3600 * 1000000);
              "Health" := mkPref 1 (Iso.midnight 2026 2 20 + 10 * 3600 * 1000000) ]}
         = Ok v → 3 ≤ v.
Proof.
  assert (Hprefs : get_topic_preferences feedback_table
    = Ok {[ "Economy" := mkPref 2 (Iso.midnight 2026 3 1 + 11 * 3600 * 1000000);
            "Health" := mkPref 1 (Iso.midnight 2026 2 20 + 10 * 3600 * 1000000) ]}).
  { vm_compute. reflexivity. }
  split; [exact Hprefs|]. intros v Hv.
  destruct (liked_topics_score feedback_table _ Hprefs) as (_ & _ & Hscore).
  destruct (Hscore noon economy_today v Hv) as [_ Hliked].
  apply (Hliked "Economy"); [done|]. by rewrite lookup_insert_eq.
Defined.

Lemma thumbs_up_counts_witness :
  ∃ pref,
    ({[ "Sports" := mkPref 1 (now noon) ]} : gmap string TopicPreference) !! "Sports"
    = Some pref
    ∧ 1 ≤ count pref ∧ now noon ≤ latest pref.
Proof.
  apply (thumbs_up_counts noon 2 [article_row 2 "Sports" "2026-03-02" None None None]
           (article_row 2 "Sports" "2026-03-02" None None None) "Sports"
           (mkDatetime (now noon) (Some 0))).
  - left.
  - reflexivity.
  - reflexivity.
  - reflexivity.
  - discriminate.
  - vm_compute. discriminate.
  - vm_compute. reflexivity.
  - vm_compute. reflexivity.
  - vm_compute. reflexivity.
Defined.

Lemma seen_stays_seen_witness :
  all_with 5 (λ r, unseen r = false) newsroom
  ∧ ∀ a, a ∈ returned (Recommend at_noon 5) (before 1 [ThumbsUp noon 2; Recommend at_noon 5]
                                                     newsroom) →
         a_id a ≠ 5.
Proof.
  assert (Hall : all_with 5 (λ r, unseen r = false) newsroom).
  { split; [vm_compute; set_solver|].
    intros r Hr Hid. unfold newsroom in Hr.
    repeat (apply elem_of_cons in Hr as [->|Hr]); try done.
    by apply not_elem_of_nil in Hr. }
  split; [exact Hall|]. intros a.
  exact (seen_stays_seen 5 newsroom Hall [ThumbsUp noon 2; Recommend at_noon 5]
           1%nat (Recommend at_noon 5) a eq_refl).
Defined.

Lemma thumbs_down_is_final_witness :
  2 ∈ map row_id newsroom
  ∧ ∀ r, r ∈ run [ThumbsUp noon 2] (handle_thumbs_down noon 2 newsroom) →
         row_id r = 2 →
         active r = false ∧ liked r = false ∧ contributes r = false
         ∧ unseen r = false.
Proof.
  assert (Hin : 2 ∈ map row_id newsroom) by (vm_compute; set_solver).
  split; [exact Hin|].
  exact (proj2 (thumbs_down_is_final noon 2 newsroom [ThumbsUp noon 2] Hin)).
Defined.

Lemma claim_moves_one_row_witness :
  NoDup (map row_id [fresh_article])
  ∧ ∃ k, [fresh_article] !! k = Some fresh_article
         ∧ status fresh_article = "new"
         ∧ (∀ j r, (j < k)%nat → [fresh_article] !! j = Some r → status r ≠ "new")
         ∧ [set_status "scraping" fresh_article]
           = <[k := set_status "scraping" fresh_article]> [fresh_article].
Proof.
  assert (Hnd : NoDup (map row_id [fresh_article])).
  { apply NoDup_singleton. }
  split; [exact Hnd|].
  exact (claim_moves_one_row "new" "scraping" [fresh_article] Hnd).
Defined.

Lemma scrape_all_new_articles_pass_witness :
  NoDup (map row_id [fresh_article])
  ∧ scrape_all_new_articles browser_up [fresh_article]
    = pass (scrape_row browser_up) "new" [fresh_article]
  ∧ pass (scrape_row browser_up) "new" [fresh_article] = (Ok (), [scraped_article]).
Proof.
  assert (Hnd : NoDup (map row_id [fresh_article])).
  { apply NoDup_singleton. }
  split; [exact Hnd|]. split; [|reflexivity].
  exact (scrape_all_new_articles_pass browser_up [fresh_article] Hnd).
Defined.

Lemma process_steps_pass_witness :
  NoDup (map row_id [scraped_article])
  ∧ process_steps translator_up classifier_up bot_down [scraped_article]
    = pass (translate_row translator_up classifier_up bot_down
                          (has_enough_articles 8 [scraped_article]))
           "scrapped" [scraped_article]
  ∧ (pass (translate_row translator_up classifier_up bot_down false)
          "scrapped" [scraped_article]).2
    = [set_status "failed" translated_article].
Proof.
  assert (Hnd : NoDup (map row_id [scraped_article])).
  { apply NoDup_singleton. }
  split; [exact Hnd|]. split; [|reflexivity].
  exact (process_steps_pass translator_up classifier_up bot_down
           [scraped_article] Hnd).
Defined.

Lemma claims_bounded_witness :
  (∀ t, t ∈ targets (race "new" "scraping") → t ≠ "new")
  ∧ (length (claimed_ids "new"
               (claims (exec (race "new" "scraping") (initial [fresh_article] 2))))
     ≤ length (select_status "new" [fresh_article]))%nat.
Proof.
  assert (Ht : ∀ t, t ∈ targets (race "new" "scraping") → t ≠ "new").
  { intros t Hin. simpl in Hin.
    repeat (apply elem_of_cons in Hin as [->|Hin]); try done.
    by apply not_elem_of_nil in Hin. }
  split; [exact Ht|].
  exact (proj2 (claims_bounded "new" [fresh_article] 2 (race "new" "scraping") Ht)).
Defined.

Lemma scrape_article_outcome_witness :
  browser article_page "https://www.tagesschau.de/inland/bahn-100.html"
  = Ok article_page
  ∧ scrape_article (browser article_page) noon
                   "https://www.tagesschau.de/inland/bahn-100.html"
    = Ok ("Bahn streicht Zuege",
          "Die Bahn ..." +:+ Str.LF +:+ Str.LF +:+ "Mehr.",
          Some "2026-03-01")
  ∧ head (date_words "Stand: 01.03.2026 12:00 Uhr") = Some "01.03.2026"
  ∧ strptime_date "01.03.2026" "%d.%m.%Y" = Some (Iso.ordinal 2026 3 1)
  ∧ scrape_article (browser article_page) noon
                   "https://www.tagesschau.de/inland/bahn-100.html"
    = Ok (Str.strip "  Bahn streicht Zuege ", page_content (article_p article_page),
          Some (date_isoformat (Iso.ordinal 2026 3 1))).
Proof.
  split; [reflexivity|]. split; [vm_compute; reflexivity|].
  split; [vm_compute; reflexivity|]. split; [vm_compute; reflexivity|].
  destruct (scrape_article_outcome (browser article_page) noon
              "https://www.tagesschau.de/inland/bahn-100.html"
              article_page eq_refl) as (_ & Htitle & _).
  destruct (Htitle "  Bahn streicht Zuege " eq_refl) as [_ Hline].
  destruct (Hline "Stand: 01.03.2026 12:00 Uhr" eq_refl) as [_ Hword].
  destruct (Hword "01.03.2026") as [Hday _]; [vm_compute; reflexivity|].
  apply Hday. vm_compute. reflexivity.
Defined.

Lemma unparsed_date_stops_the_run_witness :
  ∃ e, (e = IndexError ∨ e = ValueError) ∧ declared e = false
       ∧ scrape_all_new_articles (scrape_article (browser undated_page) noon)
                                 [fresh_article]
         = (Raise e, [set_status "scraping" fresh_article]).
Proof.
  destruct (unparsed_date_stops_the_run (browser undated_page)
              (scrape_article (browser undated_page) noon) noon
              [] [] fresh_article undated_page "Stand: gestern Abend")
    as (e & He & Hdecl & Hrun & _).
  - apply NoDup_singleton.
  - intros r Hr. by apply not_elem_of_nil in Hr.
  - reflexivity.
  - reflexivity.
  - reflexivity.
  - discriminate.
  - reflexivity.
  - intros word Hword. vm_compute in Hword. injection Hword as <-.
    vm_compute. reflexivity.
  - exists e. split; [exact He|]. split; [exact Hdecl|exact Hrun].
Defined.

Lemma buttons_are_understood_witness :
  int (Str.of_Z (row_id translated_article)) = Some (row_id translated_article)
  ∧ filter (λ r, eq_id (row_id translated_article) r = true) [translated_article]
    = [translated_article]
  ∧ handle_callback telegram_up (Ok ()) at_noon (pressed "recommend_more")
                    [translated_article] []
    = send_recommendations_on_demand telegram_up at_noon 42 [translated_article] [].
Proof.
  assert (Hint : int (Str.of_Z (row_id translated_article))
                 = Some (row_id translated_article)) by reflexivity.
  assert (Hrow : filter (λ r, eq_id (row_id translated_article) r = true)
                        [translated_article] = [translated_article]) by reflexivity.
  split; [exact Hint|]. split; [exact Hrow|].
  destruct (buttons_are_understood telegram_up at_noon 42 7 translated_article true
              [translated_article] [] Hint Hrow)
    as (up & down & _ & _ & _ & _ & _ & Hmore).
  exact Hmore.
Defined.

Lemma feedback_other_than_up_hides_witness :
  (handle_callback telegram_up (Ok ()) at_noon (pressed "feedback:maybe:1")
                   [translated_article] []).1.2
  = handle_thumbs_down noon 1 [translated_article].
Proof.
  exact (proj1 (feedback_other_than_up_hides telegram_up at_noon
                  (pressed "feedback:maybe:1") [translated_article] []
                  "feedback:maybe:1" "feedback" "maybe" "1" 1 translated_article
                  eq_refl eq_refl eq_refl ltac:(discriminate) eq_refl eq_refl)).
Defined.

Lemma handle_callback_raises_witness :
  handle_callback telegram_up (Ok ()) at_noon (pressed "recommend_less")
                  [translated_article] []
  = (Raise ValueError, [translated_article], []).
Proof.
  exact (proj1 (handle_callback_raises telegram_up at_noon (pressed "recommend_less")
                  [translated_article] [] 42 ValueError eq_refl
                  (λ m, eq_refl) eq_refl)).
Defined.

Lemma score_article_bounds_witness :
  score_article noon economy_today likes_economy = Ok 13
  ∧ 3 * 2 ≤ 13 ≤ 3 * 2 + 8.
Proof.
  assert (Hscore : score_article noon economy_today likes_economy = Ok 13)
    by reflexivity.
  split; [exact Hscore|].
  refine (proj1 (score_article_bounds noon economy_today likes_economy 13 Hscore _ _)
                "Economy" (mkPref 2 (now noon - microseconds_per_day))
                eq_refl _ eq_refl); [| |discriminate].
  - intros t pref [= <-] Hpref. unfold likes_economy in Hpref.
    rewrite lookup_singleton_eq in Hpref. injection Hpref as <-.
    vm_compute. discriminate.
  - intros d day [= <-] Hday. vm_compute in Hday. injection Hday as <-.
    vm_compute. discriminate.
Defined.

(** *** Worked messages *)

Example recommendation_line :
  format_recommendation_message economy_today
  = "<b>[Economy]</b> <a href=" +:+ Str.quote
    +:+ "https://www.tagesschau.de/wirtschaft/zins-100.html" +:+ Str.quote
    +:+ ">Rates held</a>".
Proof. reflexivity. Qed.

Example untranslated_line :
  format_recommendation_message (article_of fresh_article)
  = "<b>[None]</b> <a href=" +:+ Str.quote
    +:+ "https://www.tagesschau.de/inland/bahn-100.html" +:+ Str.quote
    +:+ ">None</a>".
Proof. reflexivity. Qed.

Example pressed_interested :
  handle_callback telegram_up (Ok ()) at_noon (pressed "feedback:up:1")
                  [translated_article] []
  = (Ok (), handle_thumbs_up noon 1 [translated_article],
     [mkMessage 42 "<b>Saved:</b> Railway cancels trains" None (Some "HTML") None]).
Proof. reflexivity. Qed.

Example pressed_unknown_article :
  handle_callback telegram_up (Ok ()) at_noon (pressed "feedback:up:9")
                  [translated_article] []
  = (Raise APIError, [translated_article], []).
Proof. reflexivity. Qed.

Example pressed_without_number :
  handle_callback telegram_up (Ok ()) at_noon (pressed "feedback:up:one")
                  [translated_article] []
  = (Raise ValueError, [translated_article], []).
Proof. reflexivity. Qed.

Example scrape_blank_date :
  scrape_article (browser (mkPage ["Bahn"] [] ["Stand: Uhr"])) noon "u"
  = Raise IndexError.
Proof. reflexivity. Qed.

Example scrape_without_title :
  scrape_article (browser (mkPage [] ["Die Bahn ..."] [])) noon "u"
  = Raise RuntimeError.
Proof. reflexivity. Qed.

Lemma frequency_step_witness :
  score_article noon economy_today
    (<["Economy" := mkPref (2 + 1) (now noon - microseconds_per_day)]> likes_economy)
  = Ok (13 + 3).
Proof.
  apply (frequency_step noon economy_today "Economy"
           (mkPref 2 (now noon - microseconds_per_day)) likes_economy 13).
  - reflexivity.
  - discriminate.
  - apply lookup_singleton_eq.
  - reflexivity.
Defined.
